(** * Webm2Gif: the conversion pipeline of [converter_gif.py]

    A shallow embedding of the Python program: its string handling, the
    numeric prompt, the tool locator, the filter-chain builder, the
    three-stage pipeline executor and the [main] dialogue, followed by the
    properties the specification states about them.

    Conventions of the embedding.
    - A Python [str] is a [string] holding the bytes of its UTF-8 encoding.
      [strip], [lower] and [int] are exact on ASCII text, which is what the
      literals of the program are made of apart from two dialog captions;
      on other text [strip] leaves white space beyond ASCII in place and
      [int] reads no digit beyond ASCII, so a statement that depends on
      either says [is_ascii] of the text it is about.
    - The interpreter writes and reads an [int] in decimal only up to 4300
      digits ([ValueError] beyond); [writable] and [within_digit_limit]
      are that limit.
    - A Python [int] is a [Z]; a Python [float] is a [spec_float] with the
      binary64 parameters, operated on with the IEEE operations of
      [SpecFloat].
    - The outside world (executable search path, external processes, the
      person answering the dialogs, the temporary-directory service) is a
      record [env] of oracles; a run threads a [state] (the file system and
      the text the person is still going to type) and gives back the list
      of [event]s it caused, in order. *)

From Stdlib Require Import ZArith String Ascii List Bool Lia DecimalString.
From Stdlib Require Import Floats.SpecFloat.
From Stdlib Require DecimalPos DecimalZ DecimalFacts.
Import ListNotations.

Open Scope Z_scope.
Open Scope string_scope.

(* ================================================================== *)
(** * Python strings *)

Module PyStr.

(** Characters the program needs but a literal cannot hold. *)
Definition dquote : string := String "034"%char EmptyString.
Definition nl : string := String "010"%char EmptyString.
(** U+2192 and U+2013 in UTF-8. *)
Definition rarrow : string :=
  String "226"%char (String "134"%char (String "146"%char EmptyString)).
Definition endash : string :=
  String "226"%char (String "128"%char (String "147"%char EmptyString)).

Definition code (c : ascii) : N := N_of_ascii c.

(** [str.isspace] on one ASCII character: TAB..CR, FS..US and SPACE. *)
Definition is_space (c : ascii) : bool :=
  let n := code c in
  ((9 <=? n) && (n <=? 13) || (28 <=? n) && (n <=? 32))%N.

Fixpoint rev_onto (s acc : string) : string :=
  match s with
  | EmptyString => acc
  | String c s' => rev_onto s' (String c acc)
  end.

Definition rev (s : string) : string := rev_onto s EmptyString.

Fixpoint lstrip (s : string) : string :=
  match s with
  | EmptyString => EmptyString
  | String c s' => if is_space c then lstrip s' else s
  end.

Definition rstrip (s : string) : string := rev (lstrip (rev s)).

(** [s.strip()] *)
Definition strip (s : string) : string := rstrip (lstrip s).

Definition lower_char (c : ascii) : ascii :=
  let n := code c in
  if ((65 <=? n) && (n <=? 90))%N then ascii_of_N (n + 32) else c.

(** [s.lower()] *)
Fixpoint lower (s : string) : string :=
  match s with
  | EmptyString => EmptyString
  | String c s' => String (lower_char c) (lower s')
  end.

(** [s.startswith(p)] *)
Fixpoint startswith (s p : string) : bool :=
  match p, s with
  | EmptyString, _ => true
  | String _ _, EmptyString => false
  | String a p', String b s' => Ascii.eqb a b && startswith s' p'
  end.

(** [s.endswith(suf)]: some tail of [s] is [suf]. *)
Fixpoint endswith (s suf : string) : bool :=
  String.eqb s suf
  || match s with
     | EmptyString => false
     | String _ s' => endswith s' suf
     end.

(** [sub in s] *)
Fixpoint contains (s sub : string) : bool :=
  startswith s sub
  || match s with
     | EmptyString => false
     | String _ s' => contains s' sub
     end.

(** [bool(s)] *)
Definition nonempty (s : string) : bool := negb (String.eqb s EmptyString).

(** The decimal form of an [int]: what [str(n)] and an f-string give for
    an [int] they agree to write (see [writable] below). *)
Definition str_of_int (n : Z) : string := NilZero.string_of_int (Z.to_int n).

(** [sep.join(parts)] *)
Definition join (sep : string) (parts : list string) : string :=
  String.concat sep parts.

Definition digit_val (c : ascii) : option Z :=
  let n := code c in
  if ((48 <=? n) && (n <=? 57))%N then Some (Z.of_N n - 48) else None.

(** The digit part of a decimal literal as [int()] reads it: digits, with
    single underscores allowed between two digits.  [after_digit] tells
    whether the previous character was a digit. *)
Fixpoint digits_from (s : string) (acc : Z) (after_digit : bool) : option Z :=
  match s with
  | EmptyString => if after_digit then Some acc else None
  | String c s' =>
      match digit_val c with
      | Some d => digits_from s' (10 * acc + d) true
      | None =>
          if Ascii.eqb c "_"%char && after_digit
          then digits_from s' acc false
          else None
      end
  end.

(** The number of decimal digits in [s]. *)
Fixpoint count_digits (s : string) : nat :=
  match s with
  | EmptyString => O
  | String c s' =>
      match digit_val c with
      | Some _ => S (count_digits s')
      | None => count_digits s'
      end
  end.

(** The interpreter's limit on the digits of an [int] it converts from or
    to a decimal string ([sys.get_int_max_str_digits()], 4300 unless
    changed). *)
Definition max_str_digits : nat := 4300.

Definition within_digit_limit (s : string) : bool :=
  Nat.leb (count_digits s) max_str_digits.

(** [str(n)] does not raise: [n] has at most 4300 digits. *)
Definition writable (n : Z) : bool := within_digit_limit (str_of_int n).

(** [int(s)] in base ten; [None] stands for [ValueError].  Surrounding
    white space is ignored, then an optional sign, then the digits, of
    which there may be 4300 at most. *)
Definition int_of_str (s : string) : option Z :=
  let t := strip s in
  if within_digit_limit t then
    match t with
    | String "-"%char r => option_map Z.opp (digits_from r 0 false)
    | String "+"%char r => digits_from r 0 false
    | r => digits_from r 0 false
    end
  else None.

(** Every character of [s] is an ASCII one. *)
Fixpoint is_ascii (s : string) : bool :=
  match s with
  | EmptyString => true
  | String c s' => (code c <? 128)%N && is_ascii s'
  end.

End PyStr.

(* ================================================================== *)
(** * [os.path] on a POSIX system (the program's stated platform) *)

Module PosixPath.
Import PyStr.

Definition is_sep (c : ascii) : bool := Ascii.eqb c "/"%char.

(** [(p[:i], p[i:])] for [i = p.rfind('/') + 1]. *)
Fixpoint split_at_last_sep (p : string) : string * string :=
  match p with
  | EmptyString => (EmptyString, EmptyString)
  | String c p' =>
      let '(h, t) := split_at_last_sep p' in
      if nonempty h then (String c h, t)
      else if is_sep c then (String c EmptyString, t)
      else (EmptyString, String c t)
  end.

Fixpoint all_seps (s : string) : bool :=
  match s with
  | EmptyString => true
  | String c s' => is_sep c && all_seps s'
  end.

Fixpoint lstrip_seps (s : string) : string :=
  match s with
  | EmptyString => EmptyString
  | String c s' => if is_sep c then lstrip_seps s' else s
  end.

Definition rstrip_seps (s : string) : string := rev (lstrip_seps (rev s)).

(** No separator occurs in [s]. *)
Fixpoint no_sep (s : string) : bool :=
  match s with
  | EmptyString => true
  | String c s' => negb (is_sep c) && no_sep s'
  end.

Definition basename (p : string) : string := snd (split_at_last_sep p).

Definition dirname (p : string) : string :=
  let head := fst (split_at_last_sep p) in
  if nonempty head && negb (all_seps head) then rstrip_seps head else head.

(** [(t[:d], t[d:])] for [d = t.rfind('.')], when there is a dot. *)
Fixpoint split_at_last_dot (t : string) : option (string * string) :=
  match t with
  | EmptyString => None
  | String c t' =>
      match split_at_last_dot t' with
      | Some (a, b) => Some (String c a, b)
      | None =>
          if Ascii.eqb c "."%char then Some (EmptyString, t) else None
      end
  end.

Fixpoint all_dots (s : string) : bool :=
  match s with
  | EmptyString => true
  | String c s' => Ascii.eqb c "."%char && all_dots s'
  end.

(** [os.path.splitext(p)[0]]: the extension starts at the last dot of the
    last component, unless only dots precede it there. *)
Definition splitext_root (p : string) : string :=
  let '(h, t) := split_at_last_sep p in
  match split_at_last_dot t with
  | Some (a, _) => if all_dots a then p else h ++ a
  | None => p
  end.

(** [os.path.join(a, b)] *)
Definition join (a b : string) : string :=
  if startswith b "/" then b
  else if negb (nonempty a) || endswith a "/" then a ++ b
  else a ++ "/" ++ b.

(** [p] is directory [d] itself or lies below it. *)
Definition inside (d p : string) : bool :=
  String.eqb p d || startswith p (d ++ "/").

End PosixPath.

(* ================================================================== *)
(** * Exceptions and results *)

(** What [subprocess.run] is given: an argument vector, or one line handed
    to the shell ([shell=True]). *)
Inductive command :=
| Argv (args : list string)
| Shell (line : string).

Inductive exn_class :=
| RuntimeError | ValueError | OverflowError | ZeroDivisionError | OSError
| UnicodeDecodeError | TclError.

Inductive exn :=
| Exn (cls : exn_class) (msg : string)
| CalledProcessError (returncode : Z) (cmd : command) (output stderr : string).

(** The three ways a call can go: it returns, it raises, or it never comes
    back (a process that does not exit, a dialog nobody answers). *)
Inductive result (A : Type) :=
| Ok (a : A)
| Raise (e : exn)
| Blocked.
Arguments Ok {A} a.
Arguments Raise {A} e.
Arguments Blocked {A}.

(* ================================================================== *)
(** * Python floats (binary64) *)

Module PyFloat.

Definition prec : Z := 53.
Definition emax : Z := 1024.

(** [float(n)] for an [int]: nearest binary64, ties to even;
    [OverflowError] beyond the largest finite value. *)
Definition float_of_int (n : Z) : result spec_float :=
  match binary_normalize prec emax n 0 false with
  | S754_infinity _ => Raise (Exn OverflowError "int too large to convert to float")
  | f => Ok f
  end.

Definition is_zero (x : spec_float) : bool :=
  match x with S754_zero _ => true | _ => false end.

(** [x / y] on floats. *)
Definition truediv (x y : spec_float) : result spec_float :=
  if is_zero y then Raise (Exn ZeroDivisionError "float division by zero")
  else Ok (SFdiv prec emax x y).

(** The integer nearest to [m / 2^k], ties to the even one ([m >= 0]). *)
Definition nearest_even_shift (m : Z) (k : Z) : Z :=
  let d := 2 ^ k in
  let q := m / d in
  let r := m mod d in
  match Z.compare (2 * r) d with
  | Lt => q
  | Gt => q + 1
  | Eq => if Z.even q then q else q + 1
  end.

(** [round(x)] with one argument: an [int], halves going to the even
    neighbour. *)
Definition round (x : spec_float) : result Z :=
  match x with
  | S754_zero _ => Ok 0
  | S754_infinity _ => Raise (Exn OverflowError "cannot convert float infinity to integer")
  | S754_nan => Raise (Exn ValueError "cannot convert float NaN to integer")
  | S754_finite s m e =>
      let a := if Z.leb 0 e then Z.pos m * 2 ^ e
               else nearest_even_shift (Z.pos m) (- e) in
      Ok (if s then - a else a)
  end.

End PyFloat.

(** The quotient [a / b] of two integers ([b > 0]) rounded to the nearest
    integer over the rationals, ties to the even one: what the
    specification's [round(100 / fps)] denotes. *)
Definition round_half_even_div (a b : Z) : Z :=
  let q := a / b in
  let r := a mod b in
  match Z.compare (2 * r) b with
  | Lt => q
  | Gt => q + 1
  | Eq => if Z.even q then q else q + 1
  end.

(** The same quotient with ties going up, for comparison. *)
Definition round_half_up_div (a b : Z) : Z := (2 * a + b) / (2 * b).

(* ================================================================== *)
(** * Filter-chain builder and frame delay ([make_gif_im], first half) *)

(** [bool(max_w)] for [max_w] an [int] or [None]. *)
Definition truthy_int (o : option Z) : bool :=
  match o with
  | Some w => negb (Z.eqb w 0)
  | None => false
  end.

(** [bool(p)] for [p] a [str] or [None]. *)
Definition truthy_str (o : option string) : bool :=
  match o with
  | Some s => PyStr.nonempty s
  | None => false
  end.

Definition fps_clause (fps : Z) : string := "fps=" ++ PyStr.str_of_int fps.

Definition scale_clause (max_w : Z) : string :=
  "scale=if(gt(iw\," ++ PyStr.str_of_int max_w ++ ")\,"
    ++ PyStr.str_of_int max_w ++ "\,iw):-1:flags=lanczos".

Definition format_clause : string := "format=rgba".

(** The list [filters] as it stands when it is joined. *)
Definition filters (fps : Z) (max_w : option Z) : list string :=
  ([fps_clause fps]
     ++ (match max_w with
         | Some w => if truthy_int max_w then [scale_clause w] else []
         | None => []
         end)
     ++ [format_clause])%list.

Definition vf (fps : Z) (max_w : option Z) : string :=
  PyStr.join "," (filters fps max_w).

(** What writing an [int] of more than 4300 digits raises. *)
Definition int_str_limit : exn :=
  Exn ValueError
    "Exceeds the limit (4300 digits) for integer string conversion; use sys.set_int_max_str_digits() to increase the limit".

(** An [int] of 4301 digits: a one followed by 4300 zeros. *)
Definition one_and_4300_zeros : Z :=
  Z.of_int (Decimal.Pos (Decimal.D1 (Nat.iter 4300 Decimal.D0 Decimal.Nil))).

(** Lines 82 to 90 as they run: the f-string of the frame-rate clause
    writes [fps], then, for a truthy [max_w], the one of the resize clause
    writes [max_w]; either raises for an [int] that cannot be written, and
    otherwise the joined string is [vf]. *)
Definition filter_chain (fps : Z) (max_w : option Z) : result string :=
  if negb (PyStr.writable fps) then Raise int_str_limit
  else
    match max_w with
    | Some w =>
        if truthy_int max_w && negb (PyStr.writable w) then Raise int_str_limit
        else Ok (vf fps max_w)
    | None => Ok (vf fps max_w)
    end.

(** [max(1, round(100 / float(fps)))] *)
Definition delay_cs (fps : Z) : result Z :=
  match PyFloat.float_of_int 100, PyFloat.float_of_int fps with
  | Ok hundred, Ok f =>
      match PyFloat.truediv hundred f with
      | Ok q =>
          match PyFloat.round q with
          | Ok r => Ok (Z.max 1 r)
          | Raise e => Raise e
          | Blocked => Blocked
          end
      | Raise e => Raise e
      | Blocked => Blocked
      end
  | Ok _, Raise e => Raise e
  | Raise e, _ => Raise e
  | _, _ => Blocked
  end.

(** ** The transcoder's reading of the width expression

    The resize clause hands the external transcoder an arithmetic
    expression.  Its language, cut down to the forms the clause uses:
    [iw] is the source width, [gt(x,y)] is 1 when [x > y] and 0 otherwise,
    [if(c,a,b)] is [a] when [c] is not zero and [b] otherwise; inside a
    filter chain the commas of an expression are written [\,]. *)
Inductive wexpr :=
| Iw
| Lit (n : Z)
| Gt (a b : wexpr)
| IfNZ (c a b : wexpr).

Fixpoint show_wexpr (e : wexpr) : string :=
  match e with
  | Iw => "iw"
  | Lit n => PyStr.str_of_int n
  | Gt a b => "gt(" ++ show_wexpr a ++ "\," ++ show_wexpr b ++ ")"
  | IfNZ c a b =>
      "if(" ++ show_wexpr c ++ "\," ++ show_wexpr a ++ "\," ++ show_wexpr b ++ ")"
  end.

Fixpoint eval_wexpr (iw : Z) (e : wexpr) : Z :=
  match e with
  | Iw => iw
  | Lit n => n
  | Gt a b => if Z.ltb (eval_wexpr iw b) (eval_wexpr iw a) then 1 else 0
  | IfNZ c a b =>
      if Z.eqb (eval_wexpr iw c) 0 then eval_wexpr iw b else eval_wexpr iw a
  end.

(** The expression the resize clause carries for a given [max_w]. *)
Definition width_expr (max_w : Z) : wexpr :=
  IfNZ (Gt Iw (Lit max_w)) (Lit max_w) Iw.

(* ================================================================== *)
(** * The outside world *)

(** How an external process ends: it exits with a status and the text it
    wrote to its standard output and standard error; it exits, with
    whatever status, having written bytes that are no text in the locale's
    encoding ([reason] is what the decoder says of them); it cannot be
    started at all; or it never exits. *)
Inductive proc_outcome :=
| Exited (returncode : Z) (stdout stderr : string)
| Undecodable (reason : string)
| SpawnFailed (e : exn)
| Hung.

(** What a run does that can be observed from outside, in order. *)
Inductive event :=
| ShowInfo (title message : string)
| ShowError (title message : string)
| AskOpenFilename (title initialdir : string)
| AskSaveAsFilename (title initialfile initialdir : string)
| AskYesNo (title message : string)
| AskString (title prompt initialvalue : string)
| Mkdtemp (dir : string)
| Rmtree (dir : string)
| Run (cmd : command) (o : proc_outcome)
| StartFile (folder : string).

(** The oracles a run consults. *)
Record env := {
  (** [shutil.which] *)
  which : string -> option string;
  (** [imageio_ffmpeg.get_ffmpeg_exe()] *)
  get_ffmpeg_exe : result string;
  (** the name [tempfile] picks for a new directory, given the file system *)
  mkdtemp : list string -> result string;
  (** an external process: how it ends and what it leaves on the file
      system it was started on *)
  spawn : command -> list string -> proc_outcome * list string;
  (** [os.path.isdir] *)
  isdir : string -> bool;
  (** [os.path.expanduser("~")] *)
  home : string;
  os_name : string;
  sys_platform : string;
  (** [os.startfile] *)
  startfile : string -> result unit;
  (** [os.path.dirname] where [os.path] is [ntpath] *)
  nt_dirname : string -> string;
  (** [tk.Tk()] followed by [withdraw()] on the new root window *)
  tk_root : result unit;
  (** what the person picks in the open and in the save dialog
      (the empty string when the dialog is cancelled) *)
  open_choice : string;
  save_choice : string;
  (** the answer to a yes/no question, by its title *)
  yesno : string -> bool;
  (** [str(e)] for a [CalledProcessError] *)
  cpe_str : Z -> command -> string
}.

(** What a run changes: the paths that exist, and the successive things
    the person will type into text-entry dialogs ([None]: Cancel). *)
Record state := {
  fs : list string;
  typed : list (option string)
}.

(** One run of a computation: how it ended, the state it left, and the
    events it caused. *)
Record run (A : Type) := {
  res : result A;
  st : state;
  evs : list event
}.
Arguments res {A} r.
Arguments st {A} r.
Arguments evs {A} r.

Definition M (A : Type) : Type := state -> run A.

Definition ret {A} (a : A) : M A :=
  fun s => {| res := Ok a; st := s; evs := [] |}.

Definition raise {A} (e : exn) : M A :=
  fun s => {| res := Raise e; st := s; evs := [] |}.

Definition bind {A B} (m : M A) (k : A -> M B) : M B :=
  fun s =>
    let r := m s in
    match res r with
    | Ok a =>
        let r' := k a (st r) in
        {| res := res r'; st := st r'; evs := (evs r ++ evs r')%list |}
    | Raise e => {| res := Raise e; st := st r; evs := evs r |}
    | Blocked => {| res := Blocked; st := st r; evs := evs r |}
    end.

Notation "x <- m ;; k" := (bind m (fun x => k))
  (at level 61, m at next level, right associativity).
Notation "m ;;; k" := (bind m (fun _ => k))
  (at level 61, right associativity).

(** [try: m except Exception as e: h e] *)
Definition try_except {A} (m : M A) (h : exn -> M A) : M A :=
  fun s =>
    let r := m s in
    match res r with
    | Raise e =>
        let r' := h e (st r) in
        {| res := res r'; st := st r'; evs := (evs r ++ evs r')%list |}
    | _ => r
    end.

Definition emit (ev : event) : M unit :=
  fun s => {| res := Ok tt; st := s; evs := [ev] |}.

(** A value or an exception that does not depend on the state. *)
Definition lift {A} (r : result A) : M A :=
  fun s => {| res := r; st := s; evs := [] |}.

(** [str(e)] *)
Definition str_exn (E : env) (e : exn) : string :=
  match e with
  | Exn _ msg => msg
  | CalledProcessError rc c _ _ => cpe_str E rc c
  end.

(** The process exited with status zero, and what it wrote is text. *)
Definition exit_zero (o : proc_outcome) : bool :=
  match o with
  | Exited rc _ _ => Z.eqb rc 0
  | _ => false
  end.

Section Program.

Variable E : env.

(* ---------------------------------------------------------------- *)
(** ** Library calls *)

Definition showinfo (title message : string) : M unit :=
  emit (ShowInfo title message).

Definition showerror (title message : string) : M unit :=
  emit (ShowError title message).

Definition askyesno (title message : string) : M bool :=
  emit (AskYesNo title message) ;;; ret (yesno E title).

Definition askopenfilename (title initialdir : string) : M string :=
  emit (AskOpenFilename title initialdir) ;;; ret (open_choice E).

Definition asksaveasfilename (title initialfile initialdir : string) : M string :=
  emit (AskSaveAsFilename title initialfile initialdir) ;;; ret (save_choice E).

(** [subprocess.run(cmd)] and [subprocess.run(cmd, **run_kwargs)], the two
    ways the program calls it; [kwargs] tells which.  The process runs on
    the current file system.  With [run_kwargs] ([check=True], both streams
    captured, [text=True]) what the process wrote is decoded first, which
    raises [UnicodeDecodeError] for bytes that are no text, whatever the
    exit status; then a non-zero exit status is raised as a
    [CalledProcessError] holding the status, the command and the captured
    text.  Without them nothing is captured or decoded and the exit status
    is not looked at. *)
Definition subprocess_run (kwargs : bool) (cmd : command) : M unit :=
  fun s =>
    let '(o, fs') := spawn E cmd (fs s) in
    {| res := match o with
              | Exited rc out err =>
                  if kwargs && negb (Z.eqb rc 0)
                  then Raise (CalledProcessError rc cmd out err)
                  else Ok tt
              | Undecodable reason =>
                  if kwargs then Raise (Exn UnicodeDecodeError reason)
                  else Ok tt
              | SpawnFailed e => Raise e
              | Hung => Blocked
              end;
       st := {| fs := fs'; typed := typed s |};
       evs := [Run cmd o] |}.

(** [with tempfile.TemporaryDirectory() as td: body]: the directory is
    created, the body runs, and however the body ends the directory and
    everything below it are removed before control leaves the block.  A
    body that never ends never leaves the block. *)
Definition with_TemporaryDirectory {A} (body : string -> M A) : M A :=
  fun s =>
    match mkdtemp E (fs s) with
    | Ok td =>
        let r := body td {| fs := td :: fs s; typed := typed s |} in
        match res r with
        | Blocked =>
            {| res := Blocked; st := st r; evs := Mkdtemp td :: evs r |}
        | done =>
            {| res := done;
               st := {| fs := filter (fun p => negb (PosixPath.inside td p))
                                     (fs (st r));
                        typed := typed (st r) |};
               evs := (Mkdtemp td :: evs r ++ [Rmtree td])%list |}
        end
    | Raise e => {| res := Raise e; st := s; evs := [] |}
    | Blocked => {| res := Blocked; st := s; evs := [] |}
    end.

(* ---------------------------------------------------------------- *)
(** ** [ask_number], as the program calls it ([integer=True])

    One round of the loop shows the text-entry dialog and takes the next
    thing the person types.  With nothing left to take, the dialog stays
    open. *)

Definition out_of_range_msg (minval maxval : Z) : string :=
  "Enter a value between " ++ PyStr.str_of_int minval ++ " and "
    ++ PyStr.str_of_int maxval ++ ".".

(** The text of the error box for a number outside the bounds.  The
    f-string naming the bounds is evaluated inside the [try]: for a bound
    that cannot be written its [ValueError] is caught by the [except]
    clause, which shows the other text. *)
Definition out_of_range_text (minval maxval : Z) : string :=
  if PyStr.writable minval && PyStr.writable maxval
  then out_of_range_msg minval maxval
  else "Please enter a valid number.".

Definition before {A} (events : list event) (r : run A) : run A :=
  {| res := res r; st := st r; evs := (events ++ evs r)%list |}.

Fixpoint ask_number_rounds (title prompt initialvalue : string)
    (minval maxval : Z) (fs0 : list string) (queue : list (option string))
    : run (option Z) :=
  let dialog := AskString title prompt initialvalue in
  match queue with
  | [] => {| res := Blocked; st := {| fs := fs0; typed := [] |}; evs := [dialog] |}
  | val :: rest =>
      let leave (r : result (option Z)) :=
        {| res := r; st := {| fs := fs0; typed := rest |}; evs := [dialog] |} in
      match val with
      | None => leave (Ok None)
      | Some val =>
          let val := PyStr.strip val in
          if negb (PyStr.nonempty val) then leave (Ok None)
          else
            match PyStr.int_of_str val with
            | Some num =>
                if Z.ltb num minval || Z.ltb maxval num
                then before [dialog; ShowError title (out_of_range_text minval maxval)]
                       (ask_number_rounds title prompt initialvalue minval maxval fs0 rest)
                else leave (Ok (Some num))
            | None =>
                before [dialog; ShowError title "Please enter a valid number."]
                  (ask_number_rounds title prompt initialvalue minval maxval fs0 rest)
            end
      end
  end.

Definition ask_number (title prompt initialvalue : string) (minval maxval : Z)
    : M (option Z) :=
  fun s => ask_number_rounds title prompt initialvalue minval maxval (fs s) (typed s).

(* ---------------------------------------------------------------- *)
(** ** [_find_imagemagick] *)

Definition _find_imagemagick : option string :=
  let magick := which E "magick" in
  if truthy_str magick then magick
  else
    let convert := which E "convert" in
    if truthy_str convert then convert
    else None.

(* ---------------------------------------------------------------- *)
(** ** [make_gif_im] *)


Definition im_not_found : exn :=
  Exn RuntimeError
    "ImageMagick not found. Install it (e.g., `sudo apt install -y imagemagick`).".

Definition frames_pat (td : string) : string := PosixPath.join td "f_%06d.png".
Definition frames_glob (td : string) : string := PosixPath.join td "f_*.png".
Definition palette (td : string) : string := PosixPath.join td "palette.png".

Definition cmd1 (ffmpeg in_path vf_ td : string) : command :=
  Argv [ffmpeg; "-y"; "-i"; in_path; "-vf"; vf_; frames_pat td].

Definition cmd2 (ffmpeg in_path vf_ td : string) : command :=
  Argv [ffmpeg; "-y"; "-i"; in_path; "-vf";
        vf_ ++ ",palettegen=stats_mode=full"; palette td].

Definition quoted (s : string) : string := PyStr.dquote ++ s ++ PyStr.dquote.

Definition assemble_cmd (im : string) (delay : Z) (td dither out_path : string)
    : command :=
  Shell (quoted im ++ " -delay " ++ PyStr.str_of_int delay ++ " -loop 0 "
         ++ quoted (frames_glob td) ++ " -remap " ++ quoted (palette td)
         ++ " -dither " ++ dither ++ " "
         ++ "-layers OptimizeTransparency " ++ quoted out_path).

Definition make_gif_im (in_path out_path : string) (fps : Z)
    (max_w : option Z) (dither : string) : M unit :=
  ffmpeg <- lift (get_ffmpeg_exe E) ;;
  let im := _find_imagemagick in
  match im with
  | None => raise im_not_found
  | Some im =>
      if negb (PyStr.nonempty im) then raise im_not_found
      else
        vf_ <- lift (filter_chain fps max_w) ;;
        delay <- lift (delay_cs fps) ;;
        with_TemporaryDirectory (fun td =>
          subprocess_run true (cmd1 ffmpeg in_path vf_ td) ;;;
          subprocess_run true (cmd2 ffmpeg in_path vf_ td) ;;;
          subprocess_run true (assemble_cmd im delay td dither out_path))
  end.


(* ---------------------------------------------------------------- *)
(** ** [main]

    [main] is the dialogue from the first message box on (lines 138 to
    222), which is what goes on once the Tk root window exists;
    [main_with_root] below puts the two lines that create and hide that
    window in front of it.  The file-type filters of the two file choosers
    are left out.  Paths are taken apart as [posixpath] does, except the
    folder handed to [os.startfile], which exists on Windows only. *)

Definition DEFAULT_DIR : string := "/home/faith/Videos/Screencasts".

Definition fps_prompt : string :=
  "Enter GIF FPS (8" ++ PyStr.endash ++ "24). Higher = smoother and larger file."
    ++ PyStr.nl ++ "(Leave blank to use 15)".

Definition max_w_prompt : string :=
  "Enter a max width in pixels (e.g., 480 or 720)." ++ PyStr.nl
    ++ "Leave blank to keep original size.".

Definition continue_question : event :=
  AskYesNo "Continue?" "Selected file is not .webm. Continue anyway?".

(** [os.path.dirname] in step 5: [ntpath]'s where [os.name] is ["nt"],
    [posixpath]'s elsewhere. *)
Definition os_path_dirname (p : string) : string :=
  if String.eqb (os_name E) "nt" then nt_dirname E p else PosixPath.dirname p.

(** Step 5, with its own [try ... except Exception: pass]. *)
Definition main_open_folder (out_path : string) : M unit :=
  try_except
    (let folder := os_path_dirname out_path in
     yes <- askyesno "Open Folder?" "Open the output folder?" ;;
     if yes then
       if String.eqb (os_name E) "nt"
       then emit (StartFile folder) ;;; lift (startfile E folder)
       else if String.eqb (sys_platform E) "darwin"
       then subprocess_run false (Argv ["open"; folder])
       else subprocess_run false (Argv ["xdg-open"; folder])
     else ret tt)
    (fun _ => ret tt).

(** The two [except] clauses of step 4. *)
Definition main_report_failure (e : exn) : M unit :=
  match e with
  | CalledProcessError _ _ _ stderr =>
      let msg := if PyStr.nonempty stderr then PyStr.strip stderr
                 else str_exn E e in
      showerror "Error" ("Conversion failed:" ++ PyStr.nl ++ msg)
  | _ => showerror "Error" ("Conversion failed:" ++ PyStr.nl ++ str_exn E e)
  end.

(** Step 4: the [try] block around the conversion. *)
Definition main_convert (in_path out_path : string) (fps : Z)
    (max_w : option Z) : M unit :=
  try_except
    (showinfo "Converting" "Conversion started. This may take a little while." ;;;
     make_gif_im in_path out_path fps max_w "Riemersma" ;;;
     showinfo "Done" ("GIF saved:" ++ PyStr.nl ++ out_path) ;;;
     main_open_folder out_path)
    main_report_failure.

(** Step 3: the two numeric settings. *)
Definition ask_fps : M (option Z) :=
  ask_number "Frames per Second" fps_prompt (PyStr.str_of_int 15) 1 60.

Definition ask_max_w : M (option Z) :=
  ask_number "Max Width (optional)" max_w_prompt "" 32 4096.

(** Steps 3 and 4: what [main] does once both paths are chosen. *)
Definition main_settings_and_convert (in_path out_path : string) : M unit :=
  fps <- ask_fps ;;
  let fps := match fps with None => 15 | Some n => n end in
  max_w <- ask_max_w ;;
  main_convert in_path out_path fps max_w.

Definition main : M unit :=
  showinfo ("WEBM " ++ PyStr.rarrow ++ " GIF")
           "Select a .webm video to convert to GIF." ;;;
  in_path <- askopenfilename "Select a WEBM file"
               (if isdir E DEFAULT_DIR then DEFAULT_DIR else home E) ;;
  if negb (PyStr.nonempty in_path) then ret tt
  else
    go_on <- (if negb (PyStr.endswith (PyStr.lower in_path) ".webm")
              then askyesno "Continue?"
                     "Selected file is not .webm. Continue anyway?"
              else ret true) ;;
    if negb go_on then ret tt
    else
      let base := PosixPath.splitext_root (PosixPath.basename in_path) in
      let suggested := base ++ ".gif" in
      out_path <- asksaveasfilename "Save GIF as..." suggested
                    (PosixPath.dirname in_path) ;;
      if negb (PyStr.nonempty out_path) then ret tt
      else main_settings_and_convert in_path out_path.

(** [main] from its first line: the root window is created and hidden
    (lines 135 and 136, outside every [try]), then the dialogue runs. *)
Definition main_with_root : M unit :=
  lift (tk_root E) ;;; main.

End Program.

(* ================================================================== *)
(** * Describing runs *)

(** The external processes among [events], each with how it ended. *)
Fixpoint runs_of (events : list event) : list (command * proc_outcome) :=
  match events with
  | [] => []
  | Run c o :: rest => (c, o) :: runs_of rest
  | _ :: rest => runs_of rest
  end.

Definition run_event (co : command * proc_outcome) : event :=
  Run (fst co) (snd co).

(** The texts of the information and error dialogs among [events]. *)
Fixpoint shown_texts (events : list event) : list string :=
  match events with
  | [] => []
  | ShowInfo _ text :: rest => text :: shown_texts rest
  | ShowError _ text :: rest => text :: shown_texts rest
  | _ :: rest => shown_texts rest
  end.

(** An answer to a text-entry dialog that counts as none: Cancel, or
    nothing but white space. *)
Definition is_blank (v : option string) : bool :=
  match v with
  | None => true
  | Some x => negb (PyStr.nonempty (PyStr.strip x))
  end.

(** [staged cmds l r]: running the commands [cmds] one after the other,
    each with [run_kwargs], can give the processes [l] and end as [r].
    A command is reached only when the one before it exited with status
    zero, its output read as text; the first one that does anything else
    ends the sequence. *)
Inductive staged : list command -> list (command * proc_outcome)
                   -> result unit -> Prop :=
| staged_done :
    staged [] [] (Ok tt)
| staged_next c cmds out err l r :
    staged cmds l r ->
    staged (c :: cmds) ((c, Exited 0 out err) :: l) r
| staged_failed c cmds rc out err :
    rc <> 0 ->
    staged (c :: cmds) [(c, Exited rc out err)]
           (Raise (CalledProcessError rc c out err))
| staged_undecodable c cmds reason :
    staged (c :: cmds) [(c, Undecodable reason)]
           (Raise (Exn UnicodeDecodeError reason))
| staged_not_started c cmds e :
    staged (c :: cmds) [(c, SpawnFailed e)] (Raise e)
| staged_hung c cmds :
    staged (c :: cmds) [(c, Hung)] Blocked.

(** The three commands of the pipeline, in order. *)
Definition stage_commands (ffmpeg im : string) (delay : Z)
    (td in_path out_path : string) (fps : Z) (max_w : option Z)
    (dither : string) : list command :=
  [cmd1 ffmpeg in_path (vf fps max_w) td;
   cmd2 ffmpeg in_path (vf fps max_w) td;
   assemble_cmd im delay td dither out_path].

(** [l] is an initial segment of [l']. *)
Fixpoint is_prefix {A} (l l' : list A) : Prop :=
  match l, l' with
  | [], _ => True
  | a :: t, a' :: t' => a = a' /\ is_prefix t t'
  | _ :: _, [] => False
  end.

(* ================================================================== *)
(** * More vocabulary for runs and answers *)

(** Kinds of events. *)
Definition is_ask_string (ev : event) : bool :=
  match ev with AskString _ _ _ => true | _ => false end.

Definition is_show_error (ev : event) : bool :=
  match ev with ShowError _ _ => true | _ => false end.

Definition is_dialog (ev : event) : bool :=
  match ev with
  | ShowInfo _ _ | ShowError _ _ | AskOpenFilename _ _
  | AskSaveAsFilename _ _ _ | AskYesNo _ _ | AskString _ _ _ => true
  | Mkdtemp _ | Rmtree _ | Run _ _ | StartFile _ => false
  end.

(** An answer the prompt turns down: not blank, and either no integer
    literal or an integer outside the bounds. *)
Definition rejected (minval maxval : Z) (v : option string) : bool :=
  match v with
  | None => false
  | Some x =>
      negb (is_blank v)
      && match PyStr.int_of_str (PyStr.strip x) with
         | Some n => Z.ltb n minval || Z.ltb maxval n
         | None => true
         end
  end.

(** What the prompt returns for an answer it does not turn down. *)
Definition answer_value (v : option string) : option Z :=
  match v with
  | None => None
  | Some x => if is_blank v then None else PyStr.int_of_str (PyStr.strip x)
  end.

(** The error box for an answer that is turned down. *)
Definition rejection_msg (minval maxval : Z) (x : string) : string :=
  match PyStr.int_of_str (PyStr.strip x) with
  | Some _ => out_of_range_text minval maxval
  | None => "Please enter a valid number."
  end.

(** An answer made of ASCII characters (Cancel counts as one). *)
Definition ascii_answer (v : option string) : bool :=
  match v with
  | Some x => PyStr.is_ascii x
  | None => true
  end.

(** What the prompt shows for a list of answers it turns down. *)
Fixpoint rejection_events (title prompt initialvalue : string)
    (minval maxval : Z) (answers : list (option string)) : list event :=
  match answers with
  | [] => []
  | v :: rest =>
      AskString title prompt initialvalue
      :: ShowError title
           (rejection_msg minval maxval (match v with Some x => x | None => "" end))
      :: rejection_events title prompt initialvalue minval maxval rest
  end.

(** No white-space character, no dot occurs in [s]. *)
Fixpoint no_space (s : string) : bool :=
  match s with
  | EmptyString => true
  | String c s' => negb (PyStr.is_space c) && no_space s'
  end.


(** The program that opens a folder on a system that is not Windows. *)
Definition folder_opener (E : env) : string :=
  if String.eqb (sys_platform E) "darwin" then "open" else "xdg-open".

(** The sign of a float is [s], unless it is no number at all. *)
Definition signed_or_nan (s : bool) (x : spec_float) : Prop :=
  match x with
  | S754_zero s' | S754_infinity s' | S754_finite s' _ _ => s' = s
  | S754_nan => True
  end.

(** Nothing but white space occurs in [s]. *)
Fixpoint all_space (s : string) : bool :=
  match s with
  | EmptyString => true
  | String c s' => PyStr.is_space c && all_space s'
  end.

(* ================================================================== *)
(** * Sample worlds, to run the program on *)

Module Demo.

Definition is_palette_cmd (c : command) : bool :=
  match c with
  | Argv args => PyStr.endswith (last args "") "palette.png"
  | Shell _ => false
  end.

Definition stage_of (c : command) : nat :=
  match c with
  | Argv _ => if is_palette_cmd c then 2%nat else 1%nat
  | Shell _ => 3%nat
  end.

(** A process that writes its last argument; the stage numbered [failing]
    exits with status 1 and [diag] on its standard error. *)
Definition demo_spawn (failing : nat) (diag : string) (c : command)
    (files : list string) : proc_outcome * list string :=
  let written := match c with
                 | Argv args => last args "" :: files
                 | Shell _ => "/home/u/out.gif" :: files
                 end in
  if Nat.eqb (stage_of c) failing then (Exited 1 "" diag, written)
  else (Exited 0 "" "", written).

Definition demo_which (names : list string) (name : string) : option string :=
  if existsb (String.eqb name) names then Some ("/usr/bin/" ++ name) else None.

(** A world with the given ImageMagick names installed, transcoder lookup
    [ff], a failing stage (0: none) and its diagnostic.  It is a POSIX
    world with a display: [nt_dirname] is never consulted in it. *)
Definition world (names : list string) (ff : result string)
    (failing : nat) (diag : string) (picked : string) : env :=
  {| which := demo_which names;
     get_ffmpeg_exe := ff;
     mkdtemp := fun _ => Ok "/tmp/tmpq3w8";
     spawn := demo_spawn failing diag;
     isdir := fun _ => true;
     home := "/home/u";
     os_name := "posix";
     sys_platform := "linux";
     startfile := fun _ => Ok tt;
     nt_dirname := fun p => p;
     tk_root := Ok tt;
     open_choice := picked;
     save_choice := "/home/u/out.gif";
     yesno := fun _ => false;
     cpe_str := fun rc _ =>
       "Command returned non-zero exit status " ++ PyStr.str_of_int rc ++ "." |}.

Definition ffmpeg_ok : result string := Ok "/opt/ffmpeg".
Definition ffmpeg_missing : result string :=
  Raise (Exn RuntimeError "No ffmpeg exe could be found.").

Definition fine : env := world ["magick"; "convert"] ffmpeg_ok 0 "" "/home/u/CLIP.WEBM".
Definition legacy_only : env := world ["convert"] ffmpeg_ok 0 "" "/home/u/clip.webm".
Definition no_tools : env := world [] ffmpeg_missing 0 "" "/home/u/clip.webm".
Definition no_imagemagick : env := world [] ffmpeg_ok 0 "" "/home/u/clip.webm".
Definition extract_fails : env :=
  world ["magick"] ffmpeg_ok 1 ("boom" ++ PyStr.nl) "/home/u/clip.webm".
Definition palette_fails : env :=
  world ["magick"] ffmpeg_ok 2 "no palette" "/home/u/clip.webm".
Definition other_file : env := world ["magick"] ffmpeg_ok 0 "" "/home/u/notes.txt".

Definition clip : string := "/home/u/clip.webm".
Definition gif : string := "/home/u/out.gif".
Definition td : string := "/tmp/tmpq3w8".
(** The extract command of a run at 15 frames per second, no width. *)
Definition extract : command := cmd1 "/opt/ffmpeg" clip "fps=15,format=rgba" td.

Definition start (entries : list (option string)) : state :=
  {| fs := [clip]; typed := entries |}.

End Demo.

(** A world whose transcoder binary has gone missing after it was located:
    no process can be started. *)
Module MoreWorlds.

Definition cannot_start : exn :=
  Exn OSError "[Errno 2] No such file or directory: '/opt/ffmpeg'".

Definition ffmpeg_gone : env :=
  {| which := Demo.demo_which ["magick"];
     get_ffmpeg_exe := Demo.ffmpeg_ok;
     mkdtemp := fun _ => Ok Demo.td;
     spawn := fun _ files => (SpawnFailed cannot_start, files);
     isdir := fun _ => true;
     home := "/home/u";
     os_name := "posix";
     sys_platform := "linux";
     startfile := fun _ => Ok tt;
     nt_dirname := fun p => p;
     tk_root := Ok tt;
     open_choice := Demo.clip;
     save_choice := Demo.gif;
     yesno := fun _ => false;
     cpe_str := fun rc _ =>
       "Command returned non-zero exit status " ++ PyStr.str_of_int rc ++ "." |}.

(** A world like [w] whose processes all exit with status zero after
    writing a byte that is no text. *)
Definition bad_byte : string :=
  "'utf-8' codec can't decode byte 0xff in position 0: invalid start byte".

Definition garbling (w : env) : env :=
  {| which := which w;
     get_ffmpeg_exe := get_ffmpeg_exe w;
     mkdtemp := mkdtemp w;
     spawn := fun _ files => (Undecodable bad_byte, files);
     isdir := isdir w;
     home := home w;
     os_name := os_name w;
     sys_platform := sys_platform w;
     startfile := startfile w;
     nt_dirname := nt_dirname w;
     tk_root := tk_root w;
     open_choice := open_choice w;
     save_choice := save_choice w;
     yesno := yesno w;
     cpe_str := cpe_str w |}.

Definition garbled : env := garbling Demo.fine.

(** A world without a display: the root window cannot be created. *)
Definition no_display_error : exn :=
  Exn TclError "no display name and no $DISPLAY environment variable".

Definition no_display : env :=
  {| which := which Demo.fine;
     get_ffmpeg_exe := get_ffmpeg_exe Demo.fine;
     mkdtemp := mkdtemp Demo.fine;
     spawn := spawn Demo.fine;
     isdir := isdir Demo.fine;
     home := home Demo.fine;
     os_name := os_name Demo.fine;
     sys_platform := sys_platform Demo.fine;
     startfile := startfile Demo.fine;
     nt_dirname := nt_dirname Demo.fine;
     tk_root := Raise no_display_error;
     open_choice := open_choice Demo.fine;
     save_choice := save_choice Demo.fine;
     yesno := yesno Demo.fine;
     cpe_str := cpe_str Demo.fine |}.

(** A Windows world in which the person asks for the folder to be opened;
    [ntpath.dirname] is given for the one path used. *)
Definition windows : env :=
  {| which := which Demo.fine;
     get_ffmpeg_exe := get_ffmpeg_exe Demo.fine;
     mkdtemp := mkdtemp Demo.fine;
     spawn := spawn Demo.fine;
     isdir := isdir Demo.fine;
     home := home Demo.fine;
     os_name := "nt";
     sys_platform := "win32";
     startfile := startfile Demo.fine;
     nt_dirname := fun p => if String.eqb p "C:/out.gif" then "C:/" else p;
     tk_root := Ok tt;
     open_choice := open_choice Demo.fine;
     save_choice := "C:/out.gif";
     yesno := fun _ => true;
     cpe_str := cpe_str Demo.fine |}.

End MoreWorlds.

(* ================================================================== *)
(** * Properties *)

(** ** Strings *)

Section StringFacts.
Import PyStr.

Lemma append_assoc (a b c : string) : (a ++ b) ++ c = a ++ (b ++ c).
Proof. induction a as [|x a IH]; simpl; [reflexivity | now rewrite IH]. Qed.

Lemma endswith_nil (suf : string) : endswith "" suf = String.eqb "" suf.
Proof. unfold endswith. apply orb_false_r. Qed.

Lemma endswith_cons (c : ascii) (s suf : string) :
  endswith (String c s) suf
  = String.eqb (String c s) suf || endswith s suf.
Proof. reflexivity. Qed.

(** [endswith] is what its name says. *)
Lemma endswith_iff (s suf : string) :
  endswith s suf = true <-> exists pre, s = pre ++ suf.
Proof.
  split.
  - induction s as [|c s IH]; intros H.
    + rewrite endswith_nil in H. apply String.eqb_eq in H. now exists "".
    + rewrite endswith_cons in H. apply orb_true_iff in H.
      destruct H as [H | H].
      * apply String.eqb_eq in H. now exists "".
      * destruct (IH H) as [pre ->]. now exists (String c pre).
  - intros [pre ->]. induction pre as [|c pre IH].
    + change ("" ++ suf) with suf. destruct suf as [|c suf].
      * reflexivity.
      * rewrite endswith_cons, String.eqb_refl. reflexivity.
    + change (String c pre ++ suf) with (String c (pre ++ suf)).
      rewrite endswith_cons, IH. apply orb_true_r.
Qed.

Lemma nonempty_true (s : string) : nonempty s = true <-> s <> "".
Proof.
  unfold nonempty. rewrite negb_true_iff. apply String.eqb_neq.
Qed.

End StringFacts.

(** ** The frame delay *)

Section Delay.

Lemma delay_cs_table (n : nat) :
  (n < 60)%nat ->
  delay_cs (Z.of_nat n + 1)
  = Ok (Z.max 1 (round_half_even_div 100 (Z.of_nat n + 1))).
Proof.
  intros H.
  do 60 (destruct n as [|n]; [vm_compute; reflexivity|]).
  lia.
Qed.

Lemma delay_cs_in_range (fps : Z) :
  1 <= fps <= 60 ->
  delay_cs fps = Ok (Z.max 1 (round_half_even_div 100 fps)).
Proof.
  intros H.
  replace fps with (Z.of_nat (Z.to_nat (fps - 1)) + 1) by lia.
  apply delay_cs_table. lia.
Qed.

(** Whatever [fps] is, a delay that comes out is at least 1, and the
    computation itself either gives one or raises. *)
Lemma delay_cs_at_least_1 (fps d : Z) : delay_cs fps = Ok d -> 1 <= d.
Proof.
  unfold delay_cs.
  destruct (PyFloat.float_of_int 100) as [h| |];
    destruct (PyFloat.float_of_int fps) as [f| |]; try discriminate.
  destruct (PyFloat.truediv h f) as [q| |]; try discriminate.
  destruct (PyFloat.round q) as [r| |]; try discriminate.
  intros [= <-]. lia.
Qed.

Lemma float_of_int_returns (n : Z) : PyFloat.float_of_int n <> Blocked.
Proof.
  unfold PyFloat.float_of_int.
  now destruct (binary_normalize PyFloat.prec PyFloat.emax n 0 false).
Qed.

Lemma delay_cs_returns (fps : Z) : delay_cs fps <> Blocked.
Proof.
  unfold delay_cs.
  pose proof (float_of_int_returns 100) as H100.
  pose proof (float_of_int_returns fps) as Hf.
  destruct (PyFloat.float_of_int 100) as [h| |];
    destruct (PyFloat.float_of_int fps) as [f| |]; try congruence.
  unfold PyFloat.truediv. destruct (PyFloat.is_zero f); [discriminate|].
  destruct (SFdiv PyFloat.prec PyFloat.emax h f); simpl; discriminate.
Qed.

(** Where [100 / fps] falls exactly between two integers the even one is
    taken: 12 at 8 frames per second and 2 at 40, where rounding halves
    up would give 13 and 3.  These are the only two rates in range where
    the two roundings differ. *)
Remark delay_cs_ties :
  delay_cs 8 = Ok 12 /\ round_half_up_div 100 8 = 13
  /\ delay_cs 40 = Ok 2 /\ round_half_up_div 100 40 = 3
  /\ forall fps, 1 <= fps <= 60 -> fps <> 8 -> fps <> 40 ->
       round_half_even_div 100 fps = round_half_up_div 100 fps.
Proof.
  repeat split; try (vm_compute; reflexivity).
  intros fps H H8 H40.
  assert (Hn : exists n : nat, (n < 60)%nat /\ fps = Z.of_nat n + 1).
  { exists (Z.to_nat (fps - 1)). lia. }
  destruct Hn as (n & Hn & ->).
  do 60 (destruct n as [|n];
         [first [reflexivity | exfalso; lia]|]).
  lia.
Qed.

(** C1. For every frame rate from 1 to 60 the delay per frame, in
    hundredths of a second, is [max(1, round(100 / fps))], the quotient
    being rounded to the nearest integer (ties to even, as the language
    rounds): 7 at 15, 2 at 60, 100 at 1.  For any positive rate the
    computation ends, and a delay it yields is never zero or negative. *)
Theorem delay_cs_correct (fps : Z) :
  0 < fps ->
  (fps <= 60 -> delay_cs fps = Ok (Z.max 1 (round_half_even_div 100 fps)))
  /\ delay_cs 15 = Ok 7 /\ delay_cs 60 = Ok 2 /\ delay_cs 1 = Ok 100
  /\ delay_cs fps <> Blocked
  /\ (forall d, delay_cs fps = Ok d -> 1 <= d).
Proof.
  intros Hpos. split; [|split; [|split; [|split; [|split]]]].
  - intros H. apply delay_cs_in_range. lia.
  - vm_compute; reflexivity.
  - vm_compute; reflexivity.
  - vm_compute; reflexivity.
  - apply delay_cs_returns.
  - intros d. apply delay_cs_at_least_1.
Qed.

Lemma delay_cs_correct_witness :
  0 < 24 /\ delay_cs 24 = Ok 4 /\ (forall d, delay_cs 24 = Ok d -> 1 <= d).
Proof.
  split; [lia|].
  destruct (delay_cs_correct 24 ltac:(lia)) as (H & _ & _ & _ & _ & Hd).
  split; [rewrite H by lia; vm_compute; reflexivity | exact Hd].
Defined.

End Delay.

(** ** The filter chain *)

Section FilterChain.
Import PyStr.

Lemma width_expr_shown (w : Z) :
  scale_clause w = "scale=" ++ show_wexpr (width_expr w) ++ ":-1:flags=lanczos".
Proof.
  unfold scale_clause, width_expr. cbn [show_wexpr].
  repeat first [rewrite append_assoc | progress cbn [String.append]].
  reflexivity.
Qed.

Lemma width_expr_value (w iw : Z) :
  eval_wexpr iw (width_expr w) = if Z.ltb w iw then w else iw.
Proof.
  unfold width_expr. cbn [eval_wexpr]. now destruct (Z.ltb w iw).
Qed.

Lemma vf_without_width (fps : Z) :
  vf fps None = "fps=" ++ str_of_int fps ++ ",format=rgba".
Proof. reflexivity. Qed.

Lemma vf_with_width (fps w : Z) :
  w <> 0 ->
  vf fps (Some w)
  = "fps=" ++ str_of_int fps ++ "," ++ scale_clause w ++ ",format=rgba".
Proof.
  intros Hw. unfold vf, filters, truthy_int.
  apply Z.eqb_neq in Hw. rewrite Hw. reflexivity.
Qed.

(** A width of zero counts as no width. *)
Remark vf_zero_width (fps : Z) : vf fps (Some 0) = vf fps None.
Proof. reflexivity. Qed.

(** The filter string is built, or writing a number raises. *)
Lemma filter_chain_cases (fps : Z) (max_w : option Z) :
  filter_chain fps max_w = Ok (vf fps max_w)
  \/ filter_chain fps max_w = Raise int_str_limit.
Proof.
  unfold filter_chain. destruct (writable fps); cbn [negb]; [|now right].
  destruct max_w as [w|]; [|now left].
  destruct (truthy_int (Some w) && negb (writable w)); auto.
Qed.

Lemma filter_chain_writable (fps : Z) (max_w : option Z) :
  writable fps = true ->
  (forall w, max_w = Some w -> writable w = true) ->
  filter_chain fps max_w = Ok (vf fps max_w).
Proof.
  intros Hf Hw. unfold filter_chain. rewrite Hf. cbn [negb].
  destruct max_w as [w|]; [|reflexivity].
  rewrite (Hw w eq_refl). cbn [negb]. now rewrite andb_false_r.
Qed.

(** Doubling a decimal number adds one digit at most. *)
Lemma nb_digits_doubles (d : Decimal.uint) :
  (Decimal.nb_digits (Decimal.Little.double d) <= S (Decimal.nb_digits d))%nat
  /\ (Decimal.nb_digits (Decimal.Little.succ_double d)
      <= S (Decimal.nb_digits d))%nat.
Proof.
  induction d as [|d [IH1 IH2]|d [IH1 IH2]|d [IH1 IH2]|d [IH1 IH2]|d [IH1 IH2]
                 |d [IH1 IH2]|d [IH1 IH2]|d [IH1 IH2]|d [IH1 IH2]|d [IH1 IH2]];
    cbn [Decimal.Little.double Decimal.Little.succ_double Decimal.nb_digits];
    split; lia.
Qed.

(** A number has no more decimal digits than binary ones. *)
Lemma nb_digits_to_little_uint (p : positive) :
  (Decimal.nb_digits (Pos.to_little_uint p) <= Pos.size_nat p)%nat.
Proof.
  induction p as [p IH|p IH|]; cbn [Pos.to_little_uint Pos.size_nat].
  - pose proof (proj2 (nb_digits_doubles (Pos.to_little_uint p))). lia.
  - pose proof (proj1 (nb_digits_doubles (Pos.to_little_uint p))). lia.
  - cbn. lia.
Qed.

Lemma count_digits_of_uint (d : Decimal.uint) :
  count_digits (NilEmpty.string_of_uint d) = Decimal.nb_digits d.
Proof.
  induction d; cbn [NilEmpty.string_of_uint count_digits Decimal.nb_digits];
    [reflexivity | ..];
    match goal with
    | |- context [digit_val ?c] =>
        let v := eval vm_compute in (digit_val c) in
        change (digit_val c) with v; cbv iota beta
    end; now rewrite IHd.
Qed.

Lemma count_digits_of_positive (p : positive) :
  (count_digits (NilZero.string_of_uint (Pos.to_uint p)) <= Pos.size_nat p)%nat.
Proof.
  pose proof (DecimalPos.Unsigned.to_uint_nonnil p) as Hnil.
  unfold NilZero.string_of_uint.
  destruct (Pos.to_uint p) eqn:Hp; try (now elim Hnil);
    rewrite <- Hp, count_digits_of_uint; unfold Pos.to_uint;
    rewrite DecimalFacts.nb_digits_rev; apply nb_digits_to_little_uint.
Qed.

Lemma count_digits_str_of_int (n : Z) :
  (count_digits (str_of_int n) <= Pos.size_nat (Z.to_pos (Z.abs n)))%nat.
Proof.
  unfold str_of_int.
  destruct n as [|p|p]; cbn [Z.to_int NilZero.string_of_int Z.abs Z.to_pos].
  - cbn. lia.
  - apply count_digits_of_positive.
  - change (count_digits (String "-" (NilZero.string_of_uint (Pos.to_uint p))))
      with (count_digits (NilZero.string_of_uint (Pos.to_uint p))).
    apply count_digits_of_positive.
Qed.

(** The numbers the two prompts of [main] can return are written: they
    have 13 binary digits at most. *)
Lemma writable_small (n : Z) : 0 <= n <= 4096 -> writable n = true.
Proof.
  intros H. unfold writable, within_digit_limit. apply Nat.leb_le.
  pose proof (count_digits_str_of_int n) as Hc.
  assert (Hs : (Pos.size_nat (Z.to_pos (Z.abs n)) <= 13)%nat).
  { destruct (Z.eq_dec n 4096) as [-> | Hne]; [cbn; lia|].
    change 13%nat with (Pos.size_nat 4096).
    apply Pos.size_nat_monotone. lia. }
  assert (Hm : (13 <= max_str_digits)%nat) by (apply Nat.leb_le; reflexivity).
  lia.
Qed.

(** A one followed by 4300 zeros is not. *)
Lemma one_and_4300_zeros_not_writable : writable one_and_4300_zeros = false.
Proof.
  unfold writable, str_of_int, one_and_4300_zeros.
  rewrite DecimalZ.to_of. vm_compute. reflexivity.
Qed.

Lemma one_and_4300_zeros_positive : 0 < one_and_4300_zeros.
Proof.
  assert (Hnz : one_and_4300_zeros <> 0).
  { intros H0.
    pose proof (DecimalZ.to_of
                  (Decimal.Pos
                     (Decimal.D1 (Nat.iter 4300 Decimal.D0 Decimal.Nil)))) as H.
    fold one_and_4300_zeros in H. rewrite H0 in H.
    vm_compute in H. discriminate. }
  assert (Hge : 0 <= one_and_4300_zeros).
  { unfold one_and_4300_zeros, Z.of_int, Z.of_uint. apply N2Z.is_nonneg. }
  lia.
Qed.

(** Beyond 4300 digits no filter string is built: the f-string raises. *)
Remark filter_chain_digit_limit :
  0 < one_and_4300_zeros
  /\ filter_chain one_and_4300_zeros None = Raise int_str_limit
  /\ filter_chain 15 (Some one_and_4300_zeros) = Raise int_str_limit.
Proof.
  pose proof one_and_4300_zeros_positive as Hpos.
  split; [exact Hpos|].
  unfold filter_chain. rewrite one_and_4300_zeros_not_writable.
  split; [reflexivity|].
  assert (Hnz : Z.eqb one_and_4300_zeros 0 = false) by (apply Z.eqb_neq; lia).
  change (writable 15) with true. cbn [negb truthy_int]. now rewrite Hnz.
Qed.

(** C2. For a positive frame rate and a maximum width that is absent or
    positive, each of at most 4300 digits (the most the interpreter
    writes), the filter chain is built and is the frame-rate clause
    [fps=N], then, only with a maximum width, the resize clause, then
    [format=rgba], joined by commas.  The resize clause asks for the width
    [if(gt(iw,W),W,iw)], which is [W] when the source is wider than [W]
    and the source width otherwise (never more than the source width),
    for the height [-1] (kept in proportion) and for Lanczos resampling.
    Equal inputs give equal strings. *)
Theorem filter_chain_shape (fps : Z) (max_w : option Z) :
  0 < fps ->
  (forall w, max_w = Some w -> 0 < w) ->
  writable fps = true ->
  (forall w, max_w = Some w -> writable w = true) ->
  filter_chain fps max_w = Ok (vf fps max_w)
  /\ filters fps max_w
     = ([fps_clause fps]
          ++ match max_w with Some w => [scale_clause w] | None => [] end
          ++ [format_clause])%list
  /\ vf fps max_w
     = match max_w with
       | Some w =>
           "fps=" ++ str_of_int fps
             ++ ",scale=" ++ show_wexpr (width_expr w) ++ ":-1:flags=lanczos"
             ++ ",format=rgba"
       | None => "fps=" ++ str_of_int fps ++ ",format=rgba"
       end
  /\ (forall w iw, max_w = Some w ->
        eval_wexpr iw (width_expr w) = (if Z.ltb w iw then w else iw)
        /\ eval_wexpr iw (width_expr w) <= iw
        /\ (iw <= w -> eval_wexpr iw (width_expr w) = iw))
  /\ (forall fps' max_w',
        fps' = fps -> max_w' = max_w ->
        filter_chain fps' max_w' = filter_chain fps max_w).
Proof.
  intros Hfps Hw Hwf Hww. repeat split.
  - now apply filter_chain_writable.
  - destruct max_w as [w|]; [|reflexivity].
    unfold filters, truthy_int.
    specialize (Hw w eq_refl).
    destruct (Z.eqb_spec w 0); [lia | reflexivity].
  - destruct max_w as [w|]; [|apply vf_without_width].
    specialize (Hw w eq_refl).
    rewrite vf_with_width by lia.
    rewrite width_expr_shown, !append_assoc. reflexivity.
  - apply width_expr_value.
  - rewrite width_expr_value. destruct (Z.ltb_spec w iw); lia.
  - intros Hle. rewrite width_expr_value.
    destruct (Z.ltb_spec w iw); lia.
  - intros fps' max_w' -> ->. reflexivity.
Qed.

Lemma filter_chain_shape_witness :
  filter_chain 15 (Some 480)
  = Ok "fps=15,scale=if(gt(iw\,480)\,480\,iw):-1:flags=lanczos,format=rgba"
  /\ eval_wexpr 1920 (width_expr 480) = 480
  /\ eval_wexpr 320 (width_expr 480) = 320.
Proof.
  assert (Hw : forall w, Some 480 = Some w -> 0 < w)
    by (intros w [= <-]; lia).
  assert (Hww : forall w, Some 480 = Some w -> writable w = true)
    by (intros w [= <-]; reflexivity).
  destruct (filter_chain_shape 15 (Some 480) ltac:(lia) Hw eq_refl Hww)
    as (Hfc & _ & Hvf & Hev & _).
  split; [rewrite Hfc, Hvf; reflexivity|].
  split; [rewrite (proj1 (Hev 480 1920 eq_refl)) | rewrite (proj1 (Hev 480 320 eq_refl))];
    reflexivity.
Defined.

End FilterChain.

(** ** Runs of the monad *)

Section Monad.

Lemma run_eta {A} (r : run A) :
  {| res := res r; st := st r; evs := evs r |} = r.
Proof. now destruct r. Qed.

Lemma bind_lift_ok {A B} (a : A) (k : A -> M B) (s : state) :
  bind (lift (Ok a)) k s = k a s.
Proof. unfold bind, lift. cbn. apply run_eta. Qed.

Lemma bind_lift_other {A B} (x : result A) (k : A -> M B) (s : state) :
  (forall a, x <> Ok a) ->
  evs (bind (lift x) k s) = [] /\ st (bind (lift x) k s) = s
  /\ forall b, res (bind (lift x) k s) <> Ok b.
Proof.
  intros H. unfold bind, lift. cbn.
  destruct x as [a| |]; [now elim (H a) | ..]; cbn; repeat split; discriminate.
Qed.

Lemma bind_ok {A B} (m : M A) (k : A -> M B) (s : state) (a : A) :
  res (m s) = Ok a ->
  res (bind m k s) = res (k a (st (m s)))
  /\ st (bind m k s) = st (k a (st (m s)))
  /\ evs (bind m k s) = (evs (m s) ++ evs (k a (st (m s))))%list.
Proof. intros H. unfold bind. rewrite H. now cbn. Qed.

Lemma bind_raise {A B} (m : M A) (k : A -> M B) (s : state) (e : exn) :
  res (m s) = Raise e ->
  res (bind m k s) = Raise e
  /\ st (bind m k s) = st (m s)
  /\ evs (bind m k s) = evs (m s).
Proof. intros H. unfold bind. rewrite H. now cbn. Qed.

Lemma bind_blocked {A B} (m : M A) (k : A -> M B) (s : state) :
  res (m s) = Blocked ->
  res (bind m k s) = Blocked
  /\ st (bind m k s) = st (m s)
  /\ evs (bind m k s) = evs (m s).
Proof. intros H. unfold bind. rewrite H. now cbn. Qed.

End Monad.

(** ** Sequences of checked commands *)

Section Staged.

Lemma staged_prefix cmds l r :
  staged cmds l r -> is_prefix (map fst l) cmds.
Proof. induction 1; cbn; auto. Qed.

(** Nothing follows a process that did not exit with status zero. *)
Lemma staged_stops cmds l r :
  staged cmds l r ->
  forall pre c o post,
    l = (pre ++ (c, o) :: post)%list -> exit_zero o = false -> post = [].
Proof.
  induction 1 as [|c0 cmds out err l r _ IH|c0 cmds rc out err Hrc
                 |c0 cmds reason|c0 cmds e|c0 cmds];
    intros pre c o post Heq Hz.
  - now destruct pre.
  - destruct pre as [|x pre]; cbn in Heq.
    + injection Heq as <- <- <-. discriminate.
    + injection Heq as _ Heq. eapply IH; eauto.
  - destruct pre as [|x [|y pre]]; cbn in Heq; congruence.
  - destruct pre as [|x [|y pre]]; cbn in Heq; congruence.
  - destruct pre as [|x [|y pre]]; cbn in Heq; congruence.
  - destruct pre as [|x [|y pre]]; cbn in Heq; congruence.
Qed.

(** A non-zero exit status is what the sequence raises. *)
Lemma staged_raises cmds l r :
  staged cmds l r ->
  forall c rc out err,
    In (c, Exited rc out err) l -> rc <> 0 ->
    r = Raise (CalledProcessError rc c out err).
Proof.
  induction 1 as [|c0 cmds out0 err0 l r _ IH|c0 cmds rc0 out0 err0 Hrc
                 |c0 cmds reason|c0 cmds e|c0 cmds];
    intros c rc out err Hin Hnz; cbn in Hin.
  - contradiction.
  - destruct Hin as [[= <- <- <- <-] | Hin]; [congruence | eauto].
  - destruct Hin as [[= <- <- <- <-] | []]. reflexivity.
  - destruct Hin as [[=] | []].
  - destruct Hin as [[=] | []].
  - destruct Hin as [[=] | []].
Qed.

(** Output that is no text is what the sequence raises. *)
Lemma staged_undecodable_raises cmds l r :
  staged cmds l r ->
  forall c reason,
    In (c, Undecodable reason) l -> r = Raise (Exn UnicodeDecodeError reason).
Proof.
  induction 1 as [|c0 cmds out0 err0 l r _ IH|c0 cmds rc0 out0 err0 Hrc
                 |c0 cmds reason0|c0 cmds e|c0 cmds];
    intros c reason Hin; cbn in Hin.
  - contradiction.
  - destruct Hin as [[=] | Hin]; eauto.
  - destruct Hin as [[=] | []].
  - destruct Hin as [[= <- <-] | []]. reflexivity.
  - destruct Hin as [[=] | []].
  - destruct Hin as [[=] | []].
Qed.

(** After a process that exited with status zero comes the next command. *)
Lemma staged_continues c c' cmds out err l r :
  staged (c :: c' :: cmds) ((c, Exited 0 out err) :: l) r ->
  exists o l', l = (c', o) :: l'.
Proof.
  intros H. inversion H as [|? ? ? ? ? ? Hrest|? ? ? ? ? Hrc| | |]; subst.
  - inversion Hrest; subst; eauto.
  - now elim Hrc.
Qed.

(** A sequence that returns ran every command, each to status zero. *)
Lemma staged_returns cmds l :
  staged cmds l (Ok tt) ->
  map fst l = cmds /\ forallb (fun co => exit_zero (snd co)) l = true.
Proof.
  remember (Ok tt) as r eqn:Hr.
  induction 1; try discriminate; cbn.
  - now split.
  - destruct (IHstaged Hr) as [-> ->]. now split.
Qed.

End Staged.

Section Pipeline.

Variable E : env.

Lemma filter_not_inside (td : string) (l : list string) (p : string) :
  In p (filter (fun p => negb (PosixPath.inside td p)) l) ->
  PosixPath.inside td p = false.
Proof.
  intros H. apply filter_In in H. destruct H as [_ H].
  now apply negb_true_iff in H.
Qed.

(** One checked command. *)
Lemma checked_run (c : command) (s : state) :
  let r := subprocess_run E true c s in
  exists o, evs r = [Run c o] /\ staged [c] [(c, o)] (res r)
            /\ typed (st r) = typed s.
Proof.
  unfold subprocess_run.
  destruct (spawn E c (fs s)) as [o fs']. cbn.
  exists o. split; [reflexivity|]. split; [|reflexivity].
  destruct o as [rc out err|reason|e|]; cbn.
  - destruct (Z.eqb_spec rc 0) as [->|Hrc]; cbn.
    + apply staged_next, staged_done.
    + now apply staged_failed.
  - apply staged_undecodable.
  - apply staged_not_started.
  - apply staged_hung.
Qed.

(** A checked command followed by more of them. *)
Lemma checked_run_then (c : command) (cmds : list command) (rest : M unit) :
  (forall s, exists l, evs (rest s) = map run_event l
                       /\ staged cmds l (res (rest s))
                       /\ typed (st (rest s)) = typed s) ->
  forall s,
    let r := (subprocess_run E true c ;;; rest) s in
    exists l, evs r = map run_event l /\ staged (c :: cmds) l (res r)
              /\ typed (st r) = typed s.
Proof.
  intros Hrest s. cbv zeta.
  destruct (checked_run c s) as (o & Hev & Hst & Hty). cbv zeta in *.
  set (m := subprocess_run E true c) in *.
  inversion Hst as [|c' cmds' out err l' r' Hnil|c' cmds' rc out err Hrc
                   |c' cmds' reason|c' cmds' e|c' cmds'];
    subst.
  - inversion Hnil; subst.
    match goal with H : _ = res (m s) |- _ => symmetry in H; rename H into Hres end.
    destruct (bind_ok m (fun _ => rest) s tt Hres) as (-> & -> & ->).
    destruct (Hrest (st (m s))) as (l & Hl & Hs & Ht).
    exists ((c, Exited 0 out err) :: l). rewrite Hev, Hl, Ht, Hty.
    repeat split. now apply staged_next.
  - match goal with H : _ = res (m s) |- _ => symmetry in H; rename H into Hres end.
    destruct (bind_raise m (fun _ => rest) s _ Hres) as (-> & -> & ->).
    exists [(c, Exited rc out err)]. rewrite Hev, Hty.
    repeat split. now apply staged_failed.
  - match goal with H : _ = res (m s) |- _ => symmetry in H; rename H into Hres end.
    destruct (bind_raise m (fun _ => rest) s _ Hres) as (-> & -> & ->).
    exists [(c, Undecodable reason)]. rewrite Hev, Hty.
    repeat split. apply staged_undecodable.
  - match goal with H : _ = res (m s) |- _ => symmetry in H; rename H into Hres end.
    destruct (bind_raise m (fun _ => rest) s _ Hres) as (-> & -> & ->).
    exists [(c, SpawnFailed e)]. rewrite Hev, Hty.
    repeat split. apply staged_not_started.
  - match goal with H : _ = res (m s) |- _ => symmetry in H; rename H into Hres end.
    destruct (bind_blocked m (fun _ => rest) s Hres) as (-> & -> & ->).
    exists [(c, Hung)]. rewrite Hev, Hty.
    repeat split. apply staged_hung.
Qed.

(** The [with] block: what it adds around its body. *)
Lemma with_TemporaryDirectory_run {A} (body : string -> M A) (s : state)
    (td : string) :
  mkdtemp E (fs s) = Ok td ->
  let r := with_TemporaryDirectory E body s in
  let rb := body td {| fs := td :: fs s; typed := typed s |} in
  res r = res rb
  /\ evs r = (Mkdtemp td :: evs rb
                ++ match res rb with Blocked => [] | _ => [Rmtree td] end)%list
  /\ (res r <> Blocked ->
      forall p, In p (fs (st r)) -> PosixPath.inside td p = false)
  /\ typed (st r) = typed (st rb).
Proof.
  intros Htd. unfold with_TemporaryDirectory. rewrite Htd. cbv zeta.
  destruct (res (body td {| fs := td :: fs s; typed := typed s |})) eqn:Hb;
    cbn [res st evs fs typed]; rewrite ?app_nil_r;
    repeat split; try congruence;
    intros _ p Hp; eapply filter_not_inside; eauto.
Qed.

Lemma make_gif_im_run (in_path out_path : string) (fps : Z)
    (max_w : option Z) (dither : string) (s : state) :
  let r := make_gif_im E in_path out_path fps max_w dither s in
  (evs r = [] /\ st r = s /\ res r <> Ok tt)
  \/ exists ffmpeg im delay td l,
       get_ffmpeg_exe E = Ok ffmpeg
       /\ _find_imagemagick E = Some im
       /\ delay_cs fps = Ok delay
       /\ mkdtemp E (fs s) = Ok td
       /\ staged (stage_commands ffmpeg im delay td in_path out_path fps max_w dither)
                 l (res r)
       /\ evs r = (Mkdtemp td :: map run_event l
                     ++ match res r with Blocked => [] | _ => [Rmtree td] end)%list
       /\ (res r <> Blocked ->
           forall p, In p (fs (st r)) -> PosixPath.inside td p = false)
       /\ typed (st r) = typed s.
Proof.
  cbv zeta. unfold make_gif_im.
  destruct (get_ffmpeg_exe E) as [ffmpeg| |] eqn:Hff.
  2,3: left; match goal with |- context [bind (lift ?x) ?k] =>
         destruct (bind_lift_other x k s) as (H1 & H2 & H3);
           [discriminate|] end; repeat split; auto.
  rewrite bind_lift_ok.
  destruct (_find_imagemagick E) as [im|] eqn:Him;
    [|left; cbn; repeat split; discriminate].
  destruct (PyStr.nonempty im) eqn:Hne; cbn [negb];
    [|left; cbn; repeat split; discriminate].
  destruct (filter_chain_cases fps max_w) as [Hvf | Hvf]; rewrite Hvf.
  2: left; match goal with |- context [bind (lift ?x) ?k] =>
       destruct (bind_lift_other x k s) as (H1 & H2 & H3);
         [discriminate|] end; repeat split; auto.
  rewrite bind_lift_ok.
  destruct (delay_cs fps) as [delay| |] eqn:Hd.
  2,3: left; match goal with |- context [bind (lift ?x) ?k] =>
         destruct (bind_lift_other x k s) as (H1 & H2 & H3);
           [discriminate|] end; repeat split; auto.
  rewrite bind_lift_ok.
  destruct (mkdtemp E (fs s)) as [td| |] eqn:Htd.
  2,3: left; unfold with_TemporaryDirectory; rewrite Htd; cbn;
       repeat split; discriminate.
  right. exists ffmpeg, im, delay, td.
  set (c1 := cmd1 ffmpeg in_path (vf fps max_w) td).
  set (c2 := cmd2 ffmpeg in_path (vf fps max_w) td).
  set (c3 := assemble_cmd im delay td dither out_path).
  set (body := fun td : string =>
                 subprocess_run E true (cmd1 ffmpeg in_path (vf fps max_w) td) ;;;
                 subprocess_run E true (cmd2 ffmpeg in_path (vf fps max_w) td) ;;;
                 subprocess_run E true (assemble_cmd im delay td dither out_path)).
  set (s1 := {| fs := td :: fs s; typed := typed s |}).
  assert (Hlast : forall s', exists l,
             evs (subprocess_run E true c3 s') = map run_event l
             /\ staged [c3] l (res (subprocess_run E true c3 s'))
             /\ typed (st (subprocess_run E true c3 s')) = typed s').
  { intros s'. destruct (checked_run c3 s') as (o & H1 & H2 & H3).
    exists [(c3, o)]. auto. }
  pose proof (checked_run_then c2 [c3] _ Hlast) as Hmid.
  destruct (checked_run_then c1 [c2; c3] _ Hmid s1) as (l & Hl & Hs & Ht).
  destruct (with_TemporaryDirectory_run body s td Htd) as (Hres & Hev & Hfs & Hty).
  fold s1 in Hres, Hev, Hty.
  change (body td s1) with
    ((subprocess_run E true c1 ;;; subprocess_run E true c2 ;;;
      subprocess_run E true c3) s1) in Hres, Hev, Hty.
  exists l. unfold stage_commands. fold c1 c2 c3.
  rewrite Hres in Hfs. rewrite Hres, Hev, Hl, Hty, Ht.
  repeat split; auto.
Qed.

End Pipeline.

(** ** Processes in a list of events *)

Section RunsOf.

Lemma runs_of_app (a b : list event) :
  runs_of (a ++ b) = (runs_of a ++ runs_of b)%list.
Proof.
  induction a as [|ev a IH]; cbn; [reflexivity|].
  destruct ev; cbn; now rewrite IH.
Qed.

Lemma runs_of_run_events (l : list (command * proc_outcome)) :
  runs_of (map run_event l) = l.
Proof.
  induction l as [|[c o] l IH]; cbn; [reflexivity | now rewrite IH].
Qed.

Lemma runs_of_pipeline (td : string) (l : list (command * proc_outcome))
    (r : result unit) :
  runs_of (Mkdtemp td :: map run_event l
             ++ match r with Blocked => [] | _ => [Rmtree td] end)
  = l.
Proof.
  cbn. rewrite runs_of_app, runs_of_run_events.
  destruct r; cbn; apply app_nil_r.
Qed.

Lemma mkdtemp_not_a_run (td : string) (l : list (command * proc_outcome)) :
  ~ In (Mkdtemp td) (map run_event l).
Proof.
  induction l as [|co l IH]; cbn; [tauto|].
  intros [H | H]; [discriminate | auto].
Qed.


End RunsOf.

(** ** The pipeline executor *)

Section Executor.

Variable E : env.
Variables in_path out_path : string.
Variable fps : Z.
Variable max_w : option Z.
Variable dither : string.
Variable s : state.

Local Abbreviation r := (make_gif_im E in_path out_path fps max_w dither s).

(** The processes of a run are an initial segment of the three stages. *)
Lemma make_gif_im_stages :
  exists ffmpeg im delay td,
    is_prefix (map fst (runs_of (evs r)))
      (stage_commands ffmpeg im delay td in_path out_path fps max_w dither).
Proof.
  destruct (make_gif_im_run E in_path out_path fps max_w dither s)
    as [(Hev & _) | (ffmpeg & im & delay & td & l & _ & _ & _ & _ & Hs & Hev & _)].
  - exists "", "", 0, "". now rewrite Hev.
  - exists ffmpeg, im, delay, td.
    rewrite Hev, runs_of_pipeline. now apply staged_prefix with (r := res r).
Qed.

(** C3. The filter expression given to the palette stage is the one given
    to the extract stage with [,palettegen=stats_mode=full] appended.  In
    a run whose first process, started right after the workspace is made,
    exits with status zero, that process is the extract command, its
    filter is the filter string [vf] of the frame rate and the width, and
    the very next thing the run does is start the palette command, on the
    same input, with the filter [vf] followed by that clause. *)
Theorem palette_filter_extends_extract_filter
    (td : string) (c : command) (out err : string) (rest : list event) :
  evs r = Mkdtemp td :: Run c (Exited 0 out err) :: rest ->
  exists ffmpeg o rest',
    c = Argv [ffmpeg; "-y"; "-i"; in_path; "-vf";
              vf fps max_w;
              frames_pat td]
    /\ rest
       = Run (Argv [ffmpeg; "-y"; "-i"; in_path; "-vf";
                    vf fps max_w ++ ",palettegen=stats_mode=full";
                    palette td]) o
         :: rest'.
Proof.
  intros Heq.
  destruct (make_gif_im_run E in_path out_path fps max_w dither s)
    as [(Hev & _) | (ffmpeg & im & delay & td' & l & _ & _ & _ & _ & Hs & Hev & _)].
  - rewrite Hev in Heq. discriminate.
  - rewrite Hev in Heq. injection Heq as -> Heq.
    destruct l as [|[c1 o1] l'].
    + destruct (res r); discriminate.
    + cbn [map app run_event fst snd] in Heq. injection Heq as -> -> Hrest.
      pose proof (staged_prefix _ _ _ Hs) as Hp.
      unfold stage_commands in Hs, Hp. cbn [map fst is_prefix] in Hp.
      destruct Hp as [-> _].
      destruct (staged_continues _ _ _ _ _ _ _ Hs) as (o & l'' & ->).
      exists ffmpeg, o. eexists. split; [reflexivity|].
      rewrite <- Hrest. reflexivity.
Qed.

(** C4. The stages run one after the other and a stage is started only
    when the one before it exited with status zero: the processes of a run
    are an initial segment of extract, palette, assemble; after a process
    that did not exit with status zero (the extract stage, the palette
    stage) no process is started; and a run that returns has run all three,
    each to status zero. *)
Theorem no_stage_after_a_failed_one :
  (exists ffmpeg im delay td,
      is_prefix (map fst (runs_of (evs r)))
        (stage_commands ffmpeg im delay td in_path out_path fps max_w dither))
  /\ (forall pre c o post,
        evs r = (pre ++ Run c o :: post)%list ->
        exit_zero o = false ->
        runs_of post = [])
  /\ (res r = Ok tt ->
      (exists ffmpeg im delay td,
          map fst (runs_of (evs r))
          = stage_commands ffmpeg im delay td in_path out_path fps max_w dither)
      /\ forallb (fun co => exit_zero (snd co)) (runs_of (evs r)) = true).
Proof.
  split; [exact make_gif_im_stages|].
  destruct (make_gif_im_run E in_path out_path fps max_w dither s)
    as [(Hev & _ & Hno) | (ffmpeg & im & delay & td & l & _ & _ & _ & _ & Hs & Hev & _)].
  - split; [|now intros Hok].
    intros pre c o post Heq Hz. rewrite Hev in Heq. now destruct pre.
  - split.
    + intros pre c o post Heq Hz.
      assert (Hl : l = (runs_of pre ++ (c, o) :: runs_of post)%list).
      { rewrite <- (runs_of_pipeline td l (res r)), <- Hev, Heq, runs_of_app.
        reflexivity. }
      eapply staged_stops; eauto.
    + intros Hok. rewrite Hok in Hs. apply staged_returns in Hs.
      destruct Hs as [Hcmds Hzero].
      rewrite Hev, runs_of_pipeline. split; [|exact Hzero].
      now exists ffmpeg, im, delay, td.
Qed.

(** C5. When the executor comes back, by returning or by raising, the
    workspace it created is gone: no path of the file system is the
    directory or lies below it, and removing it was the last thing the
    executor did. *)
Theorem workspace_removed_on_every_exit (td : string) :
  res r <> Blocked ->
  In (Mkdtemp td) (evs r) ->
  (forall p, In p (fs (st r)) -> PosixPath.inside td p = false)
  /\ exists mid, evs r = (Mkdtemp td :: mid ++ [Rmtree td])%list
                 /\ ~ In (Mkdtemp td) mid.
Proof.
  intros Hback Hin.
  destruct (make_gif_im_run E in_path out_path fps max_w dither s)
    as [(Hev & _) | (ffmpeg & im & delay & td' & l & _ & _ & _ & _ & _ & Hev & Hfs & _)].
  - rewrite Hev in Hin. contradiction.
  - rewrite Hev in Hin. cbn in Hin.
    destruct Hin as [[= ->] | Hin].
    + split; [now apply Hfs|].
      exists (map run_event l). rewrite Hev.
      split; [|apply mkdtemp_not_a_run].
      destruct (res r); congruence.
    + apply in_app_or in Hin. destruct Hin as [Hin | Hin].
      * now apply mkdtemp_not_a_run in Hin.
      * destruct (res r); cbn in Hin; intuition discriminate.
Qed.

End Executor.

(** ** The tool locator *)

Section Locator.

Variable E : env.

Lemma truthy_str_some (p : string) :
  p <> "" -> truthy_str (Some p) = true.
Proof. intros H. cbn. now apply nonempty_true. Qed.

Lemma find_imagemagick_none :
  truthy_str (which E "magick") = false ->
  truthy_str (which E "convert") = false ->
  _find_imagemagick E = None.
Proof. intros H1 H2. unfold _find_imagemagick. now rewrite H1, H2. Qed.

(** What [make_gif_im] does when the locator finds nothing. *)
Lemma make_gif_im_without_tool (in_path out_path : string) (fps : Z)
    (max_w : option Z) (dither : string) (s : state) :
  _find_imagemagick E = None ->
  let r := make_gif_im E in_path out_path fps max_w dither s in
  evs r = [] /\ st r = s
  /\ (forall ffmpeg, get_ffmpeg_exe E = Ok ffmpeg -> res r = Raise (im_not_found))
  /\ (forall e, get_ffmpeg_exe E = Raise e -> res r = Raise e).
Proof.
  intros Hnone. cbv zeta. unfold make_gif_im.
  destruct (get_ffmpeg_exe E) as [ffmpeg|e|].
  - rewrite bind_lift_ok, Hnone. cbn. repeat split; congruence.
  - unfold bind, lift. cbn. repeat split; congruence.
  - unfold bind, lift. cbn. repeat split; congruence.
Qed.

(** C6, as the program has it. The locator gives the path of [magick]
    whenever that is on the search path, otherwise the path of [convert]
    when that is; with neither, the conversion starts no process and
    raises: the tool-not-found error when the transcoder lookup, which
    comes first, gave a path, and that lookup's own error when it raised. *)
Theorem tool_locator_prefers_magick_then_convert :
  (forall p, which E "magick" = Some p -> p <> "" ->
             _find_imagemagick E = Some p)
  /\ (forall p, truthy_str (which E "magick") = false ->
                which E "convert" = Some p -> p <> "" ->
                _find_imagemagick E = Some p)
  /\ (truthy_str (which E "magick") = false ->
      truthy_str (which E "convert") = false ->
      _find_imagemagick E = None
      /\ forall in_path out_path fps max_w dither s,
           let r := make_gif_im E in_path out_path fps max_w dither s in
           evs r = [] /\ st r = s
           /\ (forall ffmpeg, get_ffmpeg_exe E = Ok ffmpeg ->
                              res r = Raise im_not_found)
           /\ (forall e, get_ffmpeg_exe E = Raise e -> res r = Raise e)).
Proof.
  split; [|split].
  - intros p Hp Hne. unfold _find_imagemagick.
    now rewrite Hp, (truthy_str_some p Hne).
  - intros p Hm Hp Hne. unfold _find_imagemagick.
    now rewrite Hm, Hp, (truthy_str_some p Hne).
  - intros Hm Hc. pose proof (find_imagemagick_none Hm Hc) as Hnone.
    split; [exact Hnone|]. intros.
    now apply make_gif_im_without_tool.
Qed.

End Locator.

Lemma tool_locator_witness :
  _find_imagemagick Demo.fine = Some "/usr/bin/magick"
  /\ _find_imagemagick Demo.legacy_only = Some "/usr/bin/convert"
  /\ res (make_gif_im Demo.no_imagemagick "/home/u/clip.webm" "/home/u/out.gif"
            15 None "Riemersma" (Demo.start []))
     = Raise im_not_found.
Proof.
  split; [|split].
  - apply (proj1 (tool_locator_prefers_magick_then_convert Demo.fine));
      [reflexivity | discriminate].
  - apply (proj1 (proj2 (tool_locator_prefers_magick_then_convert Demo.legacy_only)));
      [reflexivity | reflexivity | discriminate].
  - destruct (proj2 (proj2 (tool_locator_prefers_magick_then_convert Demo.no_imagemagick))
                eq_refl eq_refl) as [_ H].
    apply (H "/home/u/clip.webm" "/home/u/out.gif" 15 None "Riemersma"
             (Demo.start []) : _ /\ _ /\ _ /\ _) with (ffmpeg := "/opt/ffmpeg").
    reflexivity.
Defined.

(** With neither [magick] nor [convert] on the search path, a conversion
    whose transcoder lookup fails raises that lookup's error, not the
    tool-not-found one. *)
Lemma tool_not_found_counterexample :
  which Demo.no_tools "magick" = None
  /\ which Demo.no_tools "convert" = None
  /\ res (make_gif_im Demo.no_tools "/home/u/clip.webm" "/home/u/out.gif"
            15 None "Riemersma" (Demo.start []))
     = Raise (Exn RuntimeError "No ffmpeg exe could be found.")
  /\ res (make_gif_im Demo.no_tools "/home/u/clip.webm" "/home/u/out.gif"
            15 None "Riemersma" (Demo.start []))
     <> Raise im_not_found.
Proof. repeat split. discriminate. Qed.

(** ** The conversion step of [main] *)

Section Convert.

Variable E : env.

Lemma append_cons_neq (s t : string) (c : ascii) : s ++ String c t <> s.
Proof.
  induction s as [|x s IH]; cbn; [discriminate|].
  intros [= H]. now apply IH.
Qed.

(** The three stage commands differ, so the command an error carries
    tells which stage failed. *)
Lemma stage_commands_distinct (ffmpeg im : string) (delay : Z)
    (td in_path out_path : string) (fps : Z) (max_w : option Z)
    (dither : string) :
  NoDup (stage_commands ffmpeg im delay td in_path out_path fps max_w dither).
Proof.
  unfold stage_commands. generalize (vf fps max_w) as v. intros v.
  unfold cmd1, cmd2, assemble_cmd.
  repeat constructor; cbn [In].
  - intros [H | [H | []]]; [|discriminate].
    injection H as H _. revert H. apply append_cons_neq.
  - intros [H | []]. discriminate.
  - tauto.
Qed.

Lemma main_report_failure_run (e : exn) (s : state) :
  let r := main_report_failure E e s in
  res r = Ok tt /\ st r = s
  /\ evs r = [ShowError "Error"
                ("Conversion failed:" ++ PyStr.nl
                   ++ match e with
                      | CalledProcessError rc c _ stderr =>
                          if PyStr.nonempty stderr then PyStr.strip stderr
                          else cpe_str E rc c
                      | Exn _ msg => msg
                      end)].
Proof. destruct e; cbn; auto. Qed.

(** What opening the folder can add to a run; it never raises. *)
Lemma main_open_folder_run (out_path : string) (s : state) :
  let r := main_open_folder E out_path s in
  let folder := os_path_dirname E out_path in
  (forall e, res r <> Raise e)
  /\ exists tail,
       evs r = AskYesNo "Open Folder?" "Open the output folder?" :: tail
       /\ (tail = [] \/ tail = [StartFile folder]
           \/ exists o, tail = [Run (Argv ["open"; folder]) o]
                        \/ tail = [Run (Argv ["xdg-open"; folder]) o]).
Proof.
  cbv zeta.
  unfold main_open_folder, askyesno, try_except, emit, ret, lift,
    subprocess_run, bind.
  cbn [res st evs app fs typed].
  destruct (yesno E "Open Folder?"); cbn [res st evs app].
  2: { split; [discriminate | exists []; auto]. }
  destruct (String.eqb (os_name E) "nt"); cbn [res st evs app].
  { destruct (startfile E (os_path_dirname E out_path)); cbn [res st evs app];
      (split; [discriminate | eexists; split; [reflexivity | auto]]). }
  destruct (String.eqb (sys_platform E) "darwin").
  - destruct (spawn E (Argv ["open"; os_path_dirname E out_path]) (fs s))
      as [[rc out err|reason|e|] fs']; cbn [res st evs app andb];
      (split; [discriminate | eexists; split; [reflexivity | eauto 6]]).
  - destruct (spawn E (Argv ["xdg-open"; os_path_dirname E out_path]) (fs s))
      as [[rc out err|reason|e|] fs']; cbn [res st evs app andb];
      (split; [discriminate | eexists; split; [reflexivity | eauto 6]]).
Qed.

(** The [try] block around the conversion, by how the conversion ends. *)
Lemma main_convert_run (in_path out_path : string) (fps : Z)
    (max_w : option Z) (s : state) :
  let r0 := make_gif_im E in_path out_path fps max_w "Riemersma" s in
  let r := main_convert E in_path out_path fps max_w s in
  let started :=
    ShowInfo "Converting" "Conversion started. This may take a little while." in
  match res r0 with
  | Ok _ =>
      let r1 := main_open_folder E out_path (st r0) in
      res r = res r1
      /\ evs r = (started :: evs r0
                    ++ ShowInfo "Done" ("GIF saved:" ++ PyStr.nl ++ out_path)
                    :: evs r1)%list
  | Raise e =>
      res r = Ok tt
      /\ evs r = (started :: evs r0
                    ++ evs (main_report_failure E e (st r0)))%list
  | Blocked =>
      res r = Blocked /\ evs r = started :: evs r0
  end.
Proof.
  cbv zeta. unfold main_convert.
  set (m := make_gif_im E in_path out_path fps max_w "Riemersma").
  clearbody m.
  pose proof (main_open_folder_run out_path (st (m s))) as [Hnr _].
  set (k := main_open_folder E out_path) in *. clearbody k.
  assert (Hh : forall e s', res (main_report_failure E e s') = Ok tt)
    by (intros e s'; apply main_report_failure_run).
  set (h := main_report_failure E) in *. clearbody h.
  unfold try_except, bind, showinfo, emit.
  cbn [res st evs app].
  destruct (res (m s)) as [[]|e|] eqn:Hm; cbn [res st evs app].
  - destruct (res (k (st (m s)))) as [[]|e|] eqn:Hk; cbn [res st evs app].
    + split; reflexivity.
    + now elim (Hnr e).
    + split; reflexivity.
  - split; [apply Hh | reflexivity].
  - split; reflexivity.
Qed.

End Convert.

Section Failure.

Variable E : env.
Variables in_path out_path : string.
Variable fps : Z.
Variable max_w : option Z.

Lemma is_prefix_In {A} (l l' : list A) (x : A) :
  is_prefix l l' -> In x l -> In x l'.
Proof.
  revert l'. induction l as [|a l IH]; intros [|a' l'] Hp Hin; cbn in *;
    try contradiction.
  destruct Hp as [<- Hp]. destruct Hin as [-> | Hin]; auto.
Qed.

(** A process of the executor that exits with a non-zero status: what
    the executor then does. *)
Lemma make_gif_im_failed_stage (dither : string) (s : state)
    (pre post : list event) (c : command) (rc : Z) (out err : string) :
  let r := make_gif_im E in_path out_path fps max_w dither s in
  evs r = (pre ++ Run c (Exited rc out err) :: post)%list ->
  rc <> 0 ->
  res r = Raise (CalledProcessError rc c out err)
  /\ runs_of post = []
  /\ exists ffmpeg im delay td,
       In c (stage_commands ffmpeg im delay td in_path out_path fps max_w dither).
Proof.
  cbv zeta. intros Heq Hrc.
  destruct (make_gif_im_run E in_path out_path fps max_w dither s)
    as [(Hev & _) | (ffmpeg & im & delay & td & l & _ & _ & _ & _ & Hs & Hev & _)].
  - rewrite Hev in Heq. now destruct pre.
  - assert (Hl : l = (runs_of pre ++ (c, Exited rc out err) :: runs_of post)%list).
    { rewrite <- (runs_of_pipeline td l
                    (res (make_gif_im E in_path out_path fps max_w dither s))),
        <- Hev, Heq, runs_of_app.
      reflexivity. }
    assert (Hin : In (c, Exited rc out err) l).
    { rewrite Hl. apply in_or_app. right. now left. }
    split; [eapply staged_raises; eauto|].
    split.
    + eapply staged_stops; eauto. cbn. now apply Z.eqb_neq.
    + exists ffmpeg, im, delay, td.
      eapply is_prefix_In; [eapply staged_prefix; eauto|].
      change c with (fst (c, Exited rc out err)). now apply in_map.
Qed.

(** A process of the executor whose output is no text: what the executor
    then does. *)
Lemma make_gif_im_undecodable_stage (dither : string) (s : state)
    (pre post : list event) (c : command) (reason : string) :
  let r := make_gif_im E in_path out_path fps max_w dither s in
  evs r = (pre ++ Run c (Undecodable reason) :: post)%list ->
  res r = Raise (Exn UnicodeDecodeError reason) /\ runs_of post = [].
Proof.
  cbv zeta. intros Heq.
  destruct (make_gif_im_run E in_path out_path fps max_w dither s)
    as [(Hev & _) | (ffmpeg & im & delay & td & l & _ & _ & _ & _ & Hs & Hev & _)].
  - rewrite Hev in Heq. now destruct pre.
  - assert (Hl : l = (runs_of pre ++ (c, Undecodable reason) :: runs_of post)%list).
    { rewrite <- (runs_of_pipeline td l
                    (res (make_gif_im E in_path out_path fps max_w dither s))),
        <- Hev, Heq, runs_of_app.
      reflexivity. }
    split.
    + eapply staged_undecodable_raises; eauto.
      rewrite Hl. apply in_or_app. right. now left.
    + eapply staged_stops; eauto.
Qed.

(** C7, as the program has it. A stage that exits with a non-zero status,
    what it wrote being text, makes the executor raise an error that holds
    the status, the command of that stage and the captured output and
    error text; no further process is started.  [main] then shows one
    error dialog whose text is "Conversion failed:", a line break, and the
    captured error text with surrounding white space removed (stated for
    ASCII text, where [strip] is exact), or the error's own description
    when no error text was captured.  A stage that wrote bytes that are no
    text makes the executor raise [UnicodeDecodeError] instead, whatever
    its exit status, and again no further process is started. *)
Theorem failed_stage_raised_and_reported :
  (forall dither s pre post c rc out err,
      evs (make_gif_im E in_path out_path fps max_w dither s)
      = (pre ++ Run c (Exited rc out err) :: post)%list ->
      rc <> 0 ->
      res (make_gif_im E in_path out_path fps max_w dither s)
      = Raise (CalledProcessError rc c out err)
      /\ runs_of post = []
      /\ exists ffmpeg im delay td,
           In c (stage_commands ffmpeg im delay td in_path out_path fps max_w dither)
           /\ NoDup (stage_commands ffmpeg im delay td in_path out_path fps max_w dither))
  /\ (forall s rc c out err,
        res (make_gif_im E in_path out_path fps max_w "Riemersma" s)
        = Raise (CalledProcessError rc c out err) ->
        PyStr.is_ascii err = true ->
        res (main_convert E in_path out_path fps max_w s) = Ok tt
        /\ exists before_it,
             evs (main_convert E in_path out_path fps max_w s)
             = (before_it
                  ++ [ShowError "Error"
                        ("Conversion failed:" ++ PyStr.nl
                           ++ (if PyStr.nonempty err then PyStr.strip err
                               else cpe_str E rc c))])%list)
  /\ (forall dither s pre post c reason,
        evs (make_gif_im E in_path out_path fps max_w dither s)
        = (pre ++ Run c (Undecodable reason) :: post)%list ->
        res (make_gif_im E in_path out_path fps max_w dither s)
        = Raise (Exn UnicodeDecodeError reason)
        /\ runs_of post = []).
Proof.
  split; [|split].
  - intros dither s pre post c rc out err Heq Hrc.
    destruct (make_gif_im_failed_stage dither s pre post c rc out err Heq Hrc)
      as (H1 & H2 & ffmpeg & im & delay & td & H3).
    repeat split; auto.
    exists ffmpeg, im, delay, td. split; [exact H3|].
    apply stage_commands_distinct.
  - intros s rc c out err Hres _.
    pose proof (main_convert_run E in_path out_path fps max_w s) as H.
    cbv zeta in H. rewrite Hres in H. destruct H as [H1 H2].
    split; [exact H1|].
    destruct (main_report_failure_run E (CalledProcessError rc c out err)
                (st (make_gif_im E in_path out_path fps max_w "Riemersma" s)))
      as (_ & _ & Hev).
    rewrite Hev in H2.
    eexists. rewrite H2. rewrite app_comm_cons. reflexivity.
  - intros dither s pre post c reason Heq.
    exact (make_gif_im_undecodable_stage dither s pre post c reason Heq).
Qed.


End Failure.

(** ** The executor on sample worlds *)

Section SampleRuns.
Import Demo.

Lemma palette_filter_extends_extract_filter_witness :
  evs (make_gif_im Demo.palette_fails clip gif 24 (Some 480) "Riemersma"
         (Demo.start []))
  = [Mkdtemp td;
     Run (Argv ["/opt/ffmpeg"; "-y"; "-i"; clip; "-vf";
                "fps=24,scale=if(gt(iw\,480)\,480\,iw):-1:flags=lanczos,format=rgba";
                "/tmp/tmpq3w8/f_%06d.png"])
         (Exited 0 "" "");
     Run (Argv ["/opt/ffmpeg"; "-y"; "-i"; clip; "-vf";
                "fps=24,scale=if(gt(iw\,480)\,480\,iw):-1:flags=lanczos,format=rgba,palettegen=stats_mode=full";
                "/tmp/tmpq3w8/palette.png"])
         (Exited 1 "" "no palette");
     Rmtree td]
  /\ exists ffmpeg o rest',
       [Run (Argv ["/opt/ffmpeg"; "-y"; "-i"; clip; "-vf";
                   "fps=24,scale=if(gt(iw\,480)\,480\,iw):-1:flags=lanczos,format=rgba,palettegen=stats_mode=full";
                   "/tmp/tmpq3w8/palette.png"])
            (Exited 1 "" "no palette");
        Rmtree td]
       = Run (Argv [ffmpeg; "-y"; "-i"; clip; "-vf";
                    vf 24 (Some 480) ++ ",palettegen=stats_mode=full";
                    palette td]) o
         :: rest'.
Proof.
  split; [reflexivity|].
  destruct (palette_filter_extends_extract_filter Demo.palette_fails clip gif
              24 (Some 480) "Riemersma" (Demo.start []) td _ "" "" _ eq_refl)
    as (ffmpeg & o & rest' & _ & H).
  exists ffmpeg, o, rest'. exact H.
Defined.

Lemma no_stage_after_a_failed_one_witness :
  evs (make_gif_im Demo.extract_fails clip gif 15 None "Riemersma" (Demo.start []))
  = [Mkdtemp td; Run extract (Exited 1 "" ("boom" ++ PyStr.nl)); Rmtree td]
  /\ runs_of [Rmtree td] = [].
Proof.
  split; [reflexivity|].
  apply (proj1 (proj2 (no_stage_after_a_failed_one Demo.extract_fails clip gif
                         15 None "Riemersma" (Demo.start [])))
           [Mkdtemp td] extract (Exited 1 "" ("boom" ++ PyStr.nl)) [Rmtree td]);
    reflexivity.
Defined.

Lemma workspace_removed_on_every_exit_witness :
  (forall p,
      In p (fs (st (make_gif_im Demo.palette_fails clip gif 15 None "Riemersma"
                      (Demo.start [])))) ->
      PosixPath.inside td p = false)
  /\ exists mid,
       evs (make_gif_im Demo.palette_fails clip gif 15 None "Riemersma"
              (Demo.start []))
       = (Mkdtemp td :: mid ++ [Rmtree td])%list
       /\ ~ In (Mkdtemp td) mid.
Proof.
  apply (workspace_removed_on_every_exit Demo.palette_fails clip gif 15 None
           "Riemersma" (Demo.start []) td).
  - vm_compute. discriminate.
  - vm_compute. left. reflexivity.
Defined.

Lemma failed_stage_raised_and_reported_witness :
  res (make_gif_im Demo.extract_fails clip gif 15 None "Riemersma" (Demo.start []))
  = Raise (CalledProcessError 1 extract "" ("boom" ++ PyStr.nl))
  /\ (exists before_it,
        evs (main_convert Demo.extract_fails clip gif 15 None (Demo.start []))
        = (before_it
             ++ [ShowError "Error" ("Conversion failed:" ++ PyStr.nl ++ "boom")])%list)
  /\ res (make_gif_im MoreWorlds.garbled clip gif 15 None "Riemersma"
            (Demo.start []))
     = Raise (Exn UnicodeDecodeError MoreWorlds.bad_byte).
Proof.
  pose proof (failed_stage_raised_and_reported Demo.extract_fails clip gif 15 None)
    as (Hraise & Hreport & _).
  split; [|split].
  - apply (Hraise "Riemersma" (Demo.start []) [Mkdtemp td] [Rmtree td] extract
             1 "" ("boom" ++ PyStr.nl)).
    + reflexivity.
    + discriminate.
  - apply (Hreport (Demo.start []) 1 extract "" ("boom" ++ PyStr.nl));
      reflexivity.
  - apply (proj2 (proj2 (failed_stage_raised_and_reported MoreWorlds.garbled
                           clip gif 15 None))
             "Riemersma" (Demo.start []) [Mkdtemp td] [Rmtree td] extract
             MoreWorlds.bad_byte).
    reflexivity.
Defined.

(** The error text a stage wrote is not what the person gets to read: a
    stage that writes "boom" and a line break has [main] show
    "Conversion failed:", a line break and "boom"; no dialog of the run
    holds the text as it was captured. *)
Lemma stderr_not_shown_verbatim_counterexample :
  In (Run extract (Exited 1 "" ("boom" ++ PyStr.nl)))
     (evs (main Demo.extract_fails (Demo.start [None; None])))
  /\ In (ShowError "Error" ("Conversion failed:" ++ PyStr.nl ++ "boom"))
        (evs (main Demo.extract_fails (Demo.start [None; None])))
  /\ forallb (fun text => negb (PyStr.contains text ("boom" ++ PyStr.nl)))
             (shown_texts (evs (main Demo.extract_fails (Demo.start [None; None]))))
     = true.
Proof.
  split; [|split].
  - vm_compute. tauto.
  - vm_compute. tauto.
  - vm_compute. reflexivity.
Qed.



End SampleRuns.

(** ** The numeric prompt *)

Section Prompt.

Variables title prompt initialvalue : string.
Variables minval maxval : Z.

Local Abbreviation rounds :=
  (ask_number_rounds title prompt initialvalue minval maxval).
Local Abbreviation dialog := (AskString title prompt initialvalue).

Lemma rounds_blank (fs0 : list string) (v : option string)
    (rest : list (option string)) :
  is_blank v = true ->
  rounds fs0 (v :: rest)
  = {| res := Ok None; st := {| fs := fs0; typed := rest |}; evs := [dialog] |}.
Proof.
  destruct v as [x|]; cbn [is_blank ask_number_rounds]; [|reflexivity].
  intros H. now rewrite H.
Qed.

Lemma rounds_accepts (fs0 : list string) (x : string)
    (rest : list (option string)) (n : Z) :
  is_blank (Some x) = false ->
  PyStr.int_of_str (PyStr.strip x) = Some n ->
  minval <= n <= maxval ->
  rounds fs0 (Some x :: rest)
  = {| res := Ok (Some n); st := {| fs := fs0; typed := rest |};
       evs := [dialog] |}.
Proof.
  cbn [is_blank ask_number_rounds]. intros Hb Hn Hr. rewrite Hb, Hn.
  destruct (Z.ltb_spec n minval); [lia|].
  destruct (Z.ltb_spec maxval n); [lia|]. reflexivity.
Qed.

Lemma rounds_rejects (fs0 : list string) (x : string)
    (rest : list (option string)) :
  is_blank (Some x) = false ->
  (forall n, PyStr.int_of_str (PyStr.strip x) = Some n ->
             n < minval \/ maxval < n) ->
  exists msg,
    rounds fs0 (Some x :: rest)
    = before [dialog; ShowError title msg] (rounds fs0 rest).
Proof.
  cbn [is_blank ask_number_rounds]. intros Hb Hbad. rewrite Hb.
  destruct (PyStr.int_of_str (PyStr.strip x)) as [n|].
  - exists (out_of_range_text minval maxval).
    destruct (Hbad n eq_refl);
      destruct (Z.ltb_spec n minval); destruct (Z.ltb_spec maxval n);
      try lia; reflexivity.
  - now exists "Please enter a valid number.".
Qed.

(** A number the prompt returns lies between the bounds. *)
Lemma rounds_range (fs0 : list string) (queue : list (option string)) (n : Z) :
  res (rounds fs0 queue) = Ok (Some n) -> minval <= n <= maxval.
Proof.
  induction queue as [|v queue IH]; cbn [ask_number_rounds res]; [discriminate|].
  destruct v as [x|]; [|discriminate].
  destruct (PyStr.nonempty (PyStr.strip x)); cbn [negb res]; [|discriminate].
  destruct (PyStr.int_of_str (PyStr.strip x)) as [num|]; cbn [before res]; [|exact IH].
  destruct (Z.ltb_spec num minval); cbn [orb before res]; [exact IH|].
  destruct (Z.ltb_spec maxval num); cbn [before res]; [exact IH|].
  intros [= <-]. lia.
Qed.

(** The prompt shows its own dialog and error boxes, nothing else. *)
Lemma rounds_events (fs0 : list string) (queue : list (option string))
    (ev : event) :
  In ev (evs (rounds fs0 queue)) ->
  ev = dialog \/ exists msg, ev = ShowError title msg.
Proof.
  induction queue as [|v queue IH]; cbn [ask_number_rounds evs In].
  - intros [<- | []]. now left.
  - destruct v as [x|]; [|cbn; intros [<- | []]; now left].
    destruct (PyStr.nonempty (PyStr.strip x)); cbn [negb];
      [|cbn; intros [<- | []]; now left].
    destruct (PyStr.int_of_str (PyStr.strip x)) as [num|].
    + destruct (Z.ltb num minval || Z.ltb maxval num); cbn.
      * intros [<- | [<- | H]]; eauto.
      * intros [<- | []]. now left.
    + cbn. intros [<- | [<- | H]]; eauto.
Qed.

(** One round on an answer the prompt turns down, and on one it takes. *)
Lemma rounds_rejected_step (fs0 : list string) (v : option string)
    (rest : list (option string)) :
  rejected minval maxval v = true ->
  rounds fs0 (v :: rest)
  = before [dialog;
            ShowError title
              (rejection_msg minval maxval
                 (match v with Some x => x | None => "" end))]
      (rounds fs0 rest).
Proof.
  destruct v as [x|]; [|discriminate].
  unfold rejected, rejection_msg. cbn [is_blank ask_number_rounds].
  intros H. apply andb_true_iff in H. destruct H as [Hb Hn].
  rewrite negb_involutive in Hb. rewrite Hb. cbn [negb].
  destruct (PyStr.int_of_str (PyStr.strip x)) as [n|]; [|reflexivity].
  now rewrite Hn.
Qed.

Lemma rounds_accepted_step (fs0 : list string) (v : option string)
    (rest : list (option string)) :
  rejected minval maxval v = false ->
  rounds fs0 (v :: rest)
  = {| res := Ok (answer_value v); st := {| fs := fs0; typed := rest |};
       evs := [dialog] |}.
Proof.
  destruct v as [x|]; [|reflexivity].
  unfold rejected, answer_value. cbn [is_blank ask_number_rounds].
  destruct (PyStr.nonempty (PyStr.strip x)); cbn [negb andb]; [|reflexivity].
  destruct (PyStr.int_of_str (PyStr.strip x)) as [n|]; [|discriminate].
  now intros ->.
Qed.

Lemma rounds_never_raises (fs0 : list string) (queue : list (option string))
    (e : exn) :
  res (rounds fs0 queue) <> Raise e.
Proof.
  induction queue as [|v queue IH]; cbn [ask_number_rounds res]; [discriminate|].
  destruct v as [x|]; [|discriminate].
  destruct (PyStr.nonempty (PyStr.strip x)); cbn [negb res]; [|discriminate].
  destruct (PyStr.int_of_str (PyStr.strip x)) as [num|]; cbn [before res]; [|exact IH].
  destruct (Z.ltb num minval || Z.ltb maxval num); cbn [before res];
    [exact IH | discriminate].
Qed.

End Prompt.

(** ** Settings, then conversion *)

Section Settings.

Variable E : env.
Variables in_path out_path : string.

Lemma main_settings_and_convert_run (s : state) (f w : option Z) :
  res (ask_fps s) = Ok f ->
  res (ask_max_w (st (ask_fps s))) = Ok w ->
  let fps := match f with Some n => n | None => 15 end in
  let s2 := st (ask_max_w (st (ask_fps s))) in
  res (main_settings_and_convert E in_path out_path s)
  = res (main_convert E in_path out_path fps w s2)
  /\ evs (main_settings_and_convert E in_path out_path s)
     = (evs (ask_fps s) ++ evs (ask_max_w (st (ask_fps s)))
          ++ evs (main_convert E in_path out_path fps w s2))%list.
Proof.
  intros Hf Hw. cbv zeta. unfold main_settings_and_convert.
  match goal with |- context [bind ask_fps ?k] =>
    destruct (bind_ok ask_fps k s f Hf) as (-> & _ & ->) end.
  cbv beta zeta.
  match goal with |- context [bind ask_max_w ?k] =>
    destruct (bind_ok ask_max_w k (st (ask_fps s)) w Hw) as (-> & _ & ->) end.
  split; reflexivity.
Qed.

(** An answer the prompt takes is nothing, or a number within the bounds. *)
Lemma accepted_in_range (minval maxval : Z) (v : option string) (n : Z) :
  rejected minval maxval v = false ->
  answer_value v = Some n ->
  minval <= n <= maxval.
Proof.
  destruct v as [x|]; [|discriminate].
  unfold rejected, answer_value.
  destruct (is_blank (Some x)); cbn [negb andb]; [discriminate|].
  destruct (PyStr.int_of_str (PyStr.strip x)) as [m|]; [|discriminate].
  intros Hr [= <-]. apply orb_false_iff in Hr. destruct Hr as [H1 H2].
  apply Z.ltb_ge in H1. apply Z.ltb_ge in H2. lia.
Qed.

(** What [main] does with two answers its prompts take at once. *)
Lemma main_settings_and_convert_accepted (s : state) (v1 v2 : option string)
    (rest : list (option string)) :
  typed s = v1 :: v2 :: rest ->
  rejected 1 60 v1 = false ->
  rejected 32 4096 v2 = false ->
  main_settings_and_convert E in_path out_path s
  = before [AskString "Frames per Second" fps_prompt "15";
            AskString "Max Width (optional)" max_w_prompt ""]
      (main_convert E in_path out_path
         (match answer_value v1 with Some n => n | None => 15 end)
         (answer_value v2) {| fs := fs s; typed := rest |}).
Proof.
  intros Htyped Hv1 Hv2.
  assert (Hr1 : ask_fps s
                = {| res := Ok (answer_value v1);
                     st := {| fs := fs s; typed := v2 :: rest |};
                     evs := [AskString "Frames per Second" fps_prompt "15"] |}).
  { unfold ask_fps, ask_number. rewrite Htyped.
    now apply rounds_accepted_step. }
  assert (Hr2 : ask_max_w {| fs := fs s; typed := v2 :: rest |}
                = {| res := Ok (answer_value v2);
                     st := {| fs := fs s; typed := rest |};
                     evs := [AskString "Max Width (optional)" max_w_prompt ""] |}).
  { unfold ask_max_w, ask_number. cbn [fs typed].
    now apply rounds_accepted_step. }
  unfold main_settings_and_convert, bind, before.
  rewrite Hr1. cbn [res st evs]. rewrite Hr2. cbn [res st evs app].
  reflexivity.
Qed.

(** C8. A number the prompt returns lies in the range it was given; a
    cancelled or blank answer makes it return nothing; an answer (of ASCII
    characters, where [strip] and [int] are exact) that is not a number in
    range is not returned: an error box is shown and the prompt asks
    again.  In [main], with two answers the prompts take at once, the
    frame rate handed to the conversion is the number typed, between 1 and
    60, or 15 when the answer was blank or cancelled, and the maximum
    width is the number typed, between 32 and 4096, or absent when the
    answer was blank or cancelled, in which case the filter string has no
    resize clause. *)
Theorem prompts_give_defaults_or_values_in_range :
  (forall title prompt initialvalue lo hi s n,
      res (ask_number title prompt initialvalue lo hi s) = Ok (Some n) ->
      lo <= n <= hi)
  /\ (forall title prompt initialvalue lo hi s v rest,
        typed s = v :: rest -> is_blank v = true ->
        ask_number title prompt initialvalue lo hi s
        = {| res := Ok None; st := {| fs := fs s; typed := rest |};
             evs := [AskString title prompt initialvalue] |})
  /\ (forall title prompt initialvalue lo hi s x rest,
        typed s = Some x :: rest -> is_blank (Some x) = false ->
        PyStr.is_ascii x = true ->
        (forall n, PyStr.int_of_str (PyStr.strip x) = Some n -> n < lo \/ hi < n) ->
        exists msg,
          ask_number title prompt initialvalue lo hi s
          = before [AskString title prompt initialvalue; ShowError title msg]
              (ask_number title prompt initialvalue lo hi
                 {| fs := fs s; typed := rest |}))
  /\ (forall s v1 v2 rest,
        typed s = v1 :: v2 :: rest ->
        rejected 1 60 v1 = false ->
        rejected 32 4096 v2 = false ->
        let fps := match answer_value v1 with Some n => n | None => 15 end in
        let max_w := answer_value v2 in
        1 <= fps <= 60
        /\ (is_blank v1 = true -> fps = 15)
        /\ (forall x, v1 = Some x -> is_blank v1 = false ->
                      PyStr.int_of_str (PyStr.strip x) = Some fps)
        /\ (is_blank v2 = true -> max_w = None)
        /\ (forall x, v2 = Some x -> is_blank v2 = false ->
                      PyStr.int_of_str (PyStr.strip x) = max_w)
        /\ match max_w with
           | Some n => 32 <= n <= 4096
           | None =>
               filter_chain fps max_w
               = Ok ("fps=" ++ PyStr.str_of_int fps ++ ",format=rgba")
           end
        /\ main_settings_and_convert E in_path out_path s
           = before [AskString "Frames per Second" fps_prompt "15";
                     AskString "Max Width (optional)" max_w_prompt ""]
               (main_convert E in_path out_path fps max_w
                  {| fs := fs s; typed := rest |})).
Proof.
  split; [|split; [|split]].
  - intros title prompt iv lo hi s n. unfold ask_number. apply rounds_range.
  - intros title prompt iv lo hi s v rest Hq Hb. unfold ask_number.
    rewrite Hq. now apply rounds_blank.
  - intros title prompt iv lo hi s x rest Hq Hb _ Hbad. unfold ask_number.
    rewrite Hq. cbn [fs typed]. now apply rounds_rejects.
  - intros s v1 v2 rest Htyped Hv1 Hv2. cbv zeta.
    assert (Hfps : 1 <= match answer_value v1 with Some n => n | None => 15 end
                   <= 60).
    { destruct (answer_value v1) as [n|] eqn:Hn; [|lia].
      now apply (accepted_in_range 1 60 v1 n). }
    split; [exact Hfps|].
    split.
    { destruct v1 as [x|]; [|reflexivity].
      unfold answer_value. now intros ->. }
    split.
    { intros x -> Hb. unfold answer_value in *. rewrite Hb in *.
      unfold rejected in Hv1. rewrite Hb in Hv1. cbn [negb andb] in Hv1.
      destruct (PyStr.int_of_str (PyStr.strip x)); [reflexivity | discriminate]. }
    split.
    { destruct v2 as [x|]; [|reflexivity].
      unfold answer_value. now intros ->. }
    split.
    { intros x -> Hb. unfold answer_value. now rewrite Hb. }
    split.
    { destruct (answer_value v2) as [n|] eqn:Hn.
      - now apply (accepted_in_range 32 4096 v2 n).
      - rewrite filter_chain_writable; [reflexivity | | discriminate].
        apply writable_small. lia. }
    now apply main_settings_and_convert_accepted.
Qed.

End Settings.

Lemma prompts_give_defaults_or_values_in_range_witness :
  ask_number "Frames per Second" fps_prompt "15" 1 60
    (Demo.start [Some "  "; Some "480"])
  = {| res := Ok None; st := Demo.start [Some "480"];
       evs := [AskString "Frames per Second" fps_prompt "15"] |}
  /\ (exists msg,
        ask_number "Max Width (optional)" max_w_prompt "" 32 4096
          (Demo.start [Some "9000"; None])
        = before [AskString "Max Width (optional)" max_w_prompt "";
                  ShowError "Max Width (optional)" msg]
            (ask_number "Max Width (optional)" max_w_prompt "" 32 4096
               (Demo.start [None])))
  /\ main_settings_and_convert Demo.fine Demo.clip Demo.gif
       (Demo.start [Some "24"; Some " "])
     = before [AskString "Frames per Second" fps_prompt "15";
               AskString "Max Width (optional)" max_w_prompt ""]
         (main_convert Demo.fine Demo.clip Demo.gif 24 None (Demo.start []))
  /\ In (Run (cmd1 "/opt/ffmpeg" Demo.clip "fps=24,format=rgba" Demo.td)
            (Exited 0 "" ""))
        (evs (main_settings_and_convert Demo.fine Demo.clip Demo.gif
                (Demo.start [Some "24"; Some " "])))
  /\ main_settings_and_convert Demo.fine Demo.clip Demo.gif
       (Demo.start [None; Some "480"])
     = before [AskString "Frames per Second" fps_prompt "15";
               AskString "Max Width (optional)" max_w_prompt ""]
         (main_convert Demo.fine Demo.clip Demo.gif 15 (Some 480) (Demo.start [])).
Proof.
  pose proof (prompts_give_defaults_or_values_in_range Demo.fine Demo.clip Demo.gif)
    as (_ & Hblank & Hagain & Hmain).
  assert (H24 : main_settings_and_convert Demo.fine Demo.clip Demo.gif
                  (Demo.start [Some "24"; Some " "])
                = before [AskString "Frames per Second" fps_prompt "15";
                          AskString "Max Width (optional)" max_w_prompt ""]
                    (main_convert Demo.fine Demo.clip Demo.gif 24 None
                       (Demo.start []))).
  { apply (Hmain (Demo.start [Some "24"; Some " "]) (Some "24") (Some " ") []);
      reflexivity. }
  split; [|split; [|split; [|split]]].
  - apply (Hblank "Frames per Second" fps_prompt "15" 1 60
             (Demo.start [Some "  "; Some "480"]) (Some "  ") [Some "480"]);
      reflexivity.
  - apply (Hagain "Max Width (optional)" max_w_prompt "" 32 4096
             (Demo.start [Some "9000"; None]) "9000" [None]);
      [reflexivity | reflexivity | reflexivity |].
    intros n Hn. vm_compute in Hn. injection Hn as <-. right. reflexivity.
  - exact H24.
  - rewrite H24. vm_compute. tauto.
  - apply (Hmain (Demo.start [None; Some "480"]) None (Some "480") []);
      reflexivity.
Defined.

(** ** File names *)

Section FileNames.
Import PyStr PosixPath.

Lemma is_sep_lower_char (c : ascii) : is_sep (lower_char c) = is_sep c.
Proof.
  destruct c as [[] [] [] [] [] [] [] []]; vm_compute; reflexivity.
Qed.

Lemma nonempty_lower (s : string) : nonempty (lower s) = nonempty s.
Proof. now destruct s. Qed.

Lemma lower_app (a b : string) : lower (a ++ b) = lower a ++ lower b.
Proof. induction a as [|c a IH]; cbn; [reflexivity | now rewrite IH]. Qed.

(** A path is its directory part followed by its last component. *)
Lemma split_at_last_sep_app (p : string) :
  fst (split_at_last_sep p) ++ snd (split_at_last_sep p) = p.
Proof.
  induction p as [|c p IH]; cbn [split_at_last_sep]; [reflexivity|].
  destruct (split_at_last_sep p) as [h t]. cbn [fst snd] in IH.
  destruct (nonempty h) eqn:Hh; cbn [fst snd].
  - cbn. now rewrite IH.
  - unfold nonempty in Hh. apply negb_false_iff, String.eqb_eq in Hh. subst h.
    cbn in IH. subst t.
    destruct (is_sep c); reflexivity.
Qed.

(** Lower-casing a path lower-cases its last component. *)
Lemma split_at_last_sep_lower (p : string) :
  split_at_last_sep (lower p)
  = (lower (fst (split_at_last_sep p)), lower (snd (split_at_last_sep p))).
Proof.
  induction p as [|c p IH]; cbn [lower split_at_last_sep]; [reflexivity|].
  rewrite IH. destruct (split_at_last_sep p) as [h t]. cbn [fst snd].
  rewrite nonempty_lower, is_sep_lower_char.
  destruct (nonempty h); [reflexivity|].
  destruct (is_sep c); reflexivity.
Qed.

Lemma basename_lower (p : string) : basename (lower p) = lower (basename p).
Proof. unfold basename. now rewrite split_at_last_sep_lower. Qed.

Lemma split_at_last_sep_no_sep (t : string) :
  no_sep t = true -> split_at_last_sep t = ("", t).
Proof.
  induction t as [|c t IH]; cbn [no_sep split_at_last_sep]; [reflexivity|].
  intros H. apply andb_true_iff in H. destruct H as [Hc Ht].
  rewrite (IH Ht). cbn. apply negb_true_iff in Hc. now rewrite Hc.
Qed.

(** Appending text without a separator extends the last component. *)
Lemma basename_app (pre t : string) :
  no_sep t = true -> basename (pre ++ t) = basename pre ++ t.
Proof.
  intros Ht. unfold basename.
  assert (H : split_at_last_sep (pre ++ t)
              = (fst (split_at_last_sep pre), snd (split_at_last_sep pre) ++ t)).
  { induction pre as [|c pre IH].
    - cbn. now apply split_at_last_sep_no_sep.
    - change (String c pre ++ t) with (String c (pre ++ t)).
      cbn [split_at_last_sep]. rewrite IH.
      destruct (split_at_last_sep pre) as [h u]. cbn [fst snd].
      destruct (nonempty h); [reflexivity|].
      destruct (is_sep c); reflexivity. }
  now rewrite H.
Qed.

(** Whether a path ends with a separator-free suffix is decided by its last
    component. *)
Lemma endswith_basename (p suf : string) :
  no_sep suf = true ->
  endswith (basename p) suf = endswith p suf.
Proof.
  intros Hs. apply eq_true_iff_eq. rewrite !endswith_iff. split.
  - intros [pre Hpre].
    exists (fst (split_at_last_sep p) ++ pre).
    rewrite append_assoc, <- Hpre. symmetry. apply split_at_last_sep_app.
  - intros [pre ->]. exists (basename pre). now apply basename_app.
Qed.

Lemma webm_check_on_name (p : string) :
  endswith (lower (basename p)) ".webm" = endswith (lower p) ".webm".
Proof.
  rewrite <- basename_lower. now apply endswith_basename.
Qed.

End FileNames.

(** ** The dialogue of [main] *)

Section Dialogue.

Variable E : env.

Lemma in_bind_evs {A B} (m : M A) (k : A -> M B) (s : state) (ev : event) :
  In ev (evs (bind m k s)) ->
  In ev (evs (m s))
  \/ exists a, res (m s) = Ok a /\ In ev (evs (k a (st (m s)))).
Proof.
  unfold bind. destruct (res (m s)) as [a| |]; cbn [evs]; auto.
  intros H. apply in_app_or in H. destruct H; eauto.
Qed.

(** The executor shows no dialog: its events are the workspace being made
    and removed, and processes. *)
Lemma make_gif_im_events (in_path out_path : string) (fps : Z)
    (max_w : option Z) (dither : string) (s : state) (ev : event) :
  In ev (evs (make_gif_im E in_path out_path fps max_w dither s)) ->
  (exists td, ev = Mkdtemp td \/ ev = Rmtree td) \/ exists c o, ev = Run c o.
Proof.
  destruct (make_gif_im_run E in_path out_path fps max_w dither s)
    as [(Hev & _) | (ffmpeg & im & delay & td & l & _ & _ & _ & _ & _ & Hev & _)];
    rewrite Hev; cbn [In]; [tauto|].
  intros [<- | H]; [eauto|].
  apply in_app_or in H. destruct H as [H | H].
  - apply in_map_iff in H. destruct H as ([c o] & <- & _). right. now exists c, o.
  - destruct (res (make_gif_im E in_path out_path fps max_w dither s));
      cbn [In] in H; intuition (subst; eauto).
Qed.

Lemma main_convert_no_question (in_path out_path : string) (fps : Z)
    (max_w : option Z) (s : state) :
  ~ In continue_question (evs (main_convert E in_path out_path fps max_w s)).
Proof.
  intros Hin.
  pose proof (main_convert_run E in_path out_path fps max_w s) as H.
  cbv zeta in H.
  set (r0 := make_gif_im E in_path out_path fps max_w "Riemersma" s) in *.
  assert (Hr0 : ~ In continue_question (evs r0)).
  { intros H0. apply make_gif_im_events in H0.
    destruct H0 as [(td & [H0 | H0]) | (c & o & H0)]; discriminate. }
  destruct (main_open_folder_run E out_path (st r0)) as (_ & tail & Htail & Hcases).
  cbv zeta in Hcases.
  destruct (res r0) as [[]|e|]; destruct H as [_ H]; rewrite H in Hin;
    cbn [In] in Hin; destruct Hin as [Hin | Hin]; try discriminate.
  - apply in_app_or in Hin. destruct Hin as [Hin | Hin]; [auto|].
    rewrite Htail in Hin. cbn [In] in Hin.
    destruct Hin as [Hin | [Hin | Hin]]; try discriminate.
    destruct Hcases as [-> | [-> | [o' [-> | ->]]]]; cbn [In] in Hin;
      intuition discriminate.
  - apply in_app_or in Hin. destruct Hin as [Hin | Hin]; [auto|].
    destruct (main_report_failure_run E e (st r0)) as (_ & _ & Hev).
    rewrite Hev in Hin. cbn [In] in Hin. intuition discriminate.
  - auto.
Qed.

Lemma ask_number_no_question (title prompt initialvalue : string)
    (minval maxval : Z) (s : state) :
  ~ In continue_question (evs (ask_number title prompt initialvalue minval maxval s)).
Proof.
  intros H. unfold ask_number in H. apply rounds_events in H.
  destruct H as [H | [msg H]]; discriminate.
Qed.

Lemma main_settings_and_convert_no_question (in_path out_path : string)
    (s : state) :
  ~ In continue_question (evs (main_settings_and_convert E in_path out_path s)).
Proof.
  intros H. unfold main_settings_and_convert in H.
  apply in_bind_evs in H. destruct H as [H | (f & _ & H)].
  { revert H. apply ask_number_no_question. }
  cbv beta zeta in H.
  apply in_bind_evs in H. destruct H as [H | (w & _ & H)].
  { revert H. apply ask_number_no_question. }
  revert H. apply main_convert_no_question.
Qed.

(** The events of [main], up to the settings. *)
Lemma main_events (s : state) :
  let p := open_choice E in
  let is_webm := PyStr.endswith (PyStr.lower p) ".webm" in
  evs (main E s)
  = (ShowInfo ("WEBM " ++ PyStr.rarrow ++ " GIF")
       "Select a .webm video to convert to GIF."
     :: AskOpenFilename "Select a WEBM file"
          (if isdir E DEFAULT_DIR then DEFAULT_DIR else home E)
     :: (if PyStr.nonempty p
         then
           (if is_webm then [] else [continue_question])
             ++ (if is_webm || yesno E "Continue?"
                 then
                   AskSaveAsFilename "Save GIF as..."
                     (PosixPath.splitext_root (PosixPath.basename p) ++ ".gif")
                     (PosixPath.dirname p)
                   :: (if PyStr.nonempty (save_choice E)
                       then evs (main_settings_and_convert E p (save_choice E) s)
                       else [])
                 else [])
         else []))%list.
Proof.
  cbv zeta. unfold main.
  set (k := main_settings_and_convert E). clearbody k.
  unfold askopenfilename, askyesno, asksaveasfilename, showinfo, emit, ret, bind.
  cbn [res st evs app].
  destruct (PyStr.nonempty (open_choice E)); cbn [negb res st evs app];
    [|reflexivity].
  destruct (PyStr.endswith (PyStr.lower (open_choice E)) ".webm");
    cbn [negb orb res st evs app].
  - destruct (PyStr.nonempty (save_choice E)); cbn [negb res st evs app];
      reflexivity.
  - destruct (yesno E "Continue?"); cbn [negb res st evs app]; [|reflexivity].
    destruct (PyStr.nonempty (save_choice E)); cbn [negb res st evs app];
      reflexivity.
Qed.

(** C10. The extension check ignores case.  For a selected path, the
    question whether to continue is asked exactly when the lower-cased file
    name does not end with [.webm]; when it does, the save dialog comes
    right after the open dialog. *)
Theorem confirmation_exactly_when_not_webm (s : state) :
  PyStr.nonempty (open_choice E) = true ->
  let p := open_choice E in
  let name := PosixPath.basename p in
  PyStr.endswith (PyStr.lower name) ".webm"
  = PyStr.endswith (PyStr.lower p) ".webm"
  /\ (In continue_question (evs (main E s))
      <-> PyStr.endswith (PyStr.lower name) ".webm" = false)
  /\ (PyStr.endswith (PyStr.lower name) ".webm" = true ->
      exists initialdir rest,
        evs (main E s)
        = ShowInfo ("WEBM " ++ PyStr.rarrow ++ " GIF")
            "Select a .webm video to convert to GIF."
          :: AskOpenFilename "Select a WEBM file" initialdir
          :: AskSaveAsFilename "Save GIF as..."
               (PosixPath.splitext_root name ++ ".gif") (PosixPath.dirname p)
          :: rest).
Proof.
  intros Hsel. cbv zeta.
  pose proof (main_events s) as Hev. cbv zeta in Hev. rewrite Hsel in Hev.
  rewrite webm_check_on_name.
  split; [reflexivity|].
  pose proof (main_settings_and_convert_no_question (open_choice E)
                (save_choice E) s) as Hno.
  destruct (PyStr.endswith (PyStr.lower (open_choice E)) ".webm");
    cbn [orb app] in Hev; rewrite Hev.
  - split.
    + split; [|discriminate]. cbn [In].
      intros [H | [H | [H | H]]]; try discriminate.
      destruct (PyStr.nonempty (save_choice E)); [contradiction | destruct H].
    + intros _. eauto.
  - split; [|discriminate].
    split; [reflexivity|]. intros _. cbn [In]. auto.
Qed.

End Dialogue.

Lemma confirmation_exactly_when_not_webm_witness :
  PyStr.endswith (PyStr.lower "CLIP.WEBM") ".webm" = true
  /\ ~ In continue_question (evs (main Demo.fine (Demo.start [None; None])))
  /\ In continue_question (evs (main Demo.other_file (Demo.start [None; None]))).
Proof.
  split; [reflexivity|]. split.
  - destruct (confirmation_exactly_when_not_webm Demo.fine (Demo.start [None; None])
                eq_refl) as (_ & [H _] & _).
    intros Hin. apply H in Hin. discriminate.
  - apply (confirmation_exactly_when_not_webm Demo.other_file
             (Demo.start [None; None]) eq_refl).
    reflexivity.
Defined.

(* ================================================================== *)
(** * Further properties *)

(** ** How [main] ends *)

Section MainEnds.

Variable E : env.

Lemma res_bind_cases {A B} (m : M A) (k : A -> M B) (s : state) :
  match res (m s) with
  | Ok a => res (bind m k s) = res (k a (st (m s)))
  | Raise e => res (bind m k s) = Raise e
  | Blocked => res (bind m k s) = Blocked
  end.
Proof. unfold bind. now destruct (res (m s)). Qed.

Lemma main_convert_never_raises (in_path out_path : string) (fps : Z)
    (max_w : option Z) (s : state) (e : exn) :
  res (main_convert E in_path out_path fps max_w s) <> Raise e.
Proof.
  pose proof (main_convert_run E in_path out_path fps max_w s) as H.
  cbv zeta in H.
  destruct (res (make_gif_im E in_path out_path fps max_w "Riemersma" s))
    as [[]|e'|]; destruct H as [-> _]; try discriminate.
  apply main_open_folder_run.
Qed.

Lemma main_settings_and_convert_never_raises (in_path out_path : string)
    (s : state) (e : exn) :
  res (main_settings_and_convert E in_path out_path s) <> Raise e.
Proof.
  unfold main_settings_and_convert.
  match goal with |- res (bind ?m ?k s) <> _ =>
    pose proof (res_bind_cases m k s) as H1 end.
  pose proof (rounds_never_raises "Frames per Second" fps_prompt
                (PyStr.str_of_int 15) 1 60 (fs s) (typed s)) as Hf.
  change (ask_number_rounds "Frames per Second" fps_prompt (PyStr.str_of_int 15)
            1 60 (fs s) (typed s)) with (ask_fps s) in Hf.
  destruct (res (ask_fps s)) as [f| |]; [|now elim (Hf e0)|congruence].
  rewrite H1. cbv beta zeta.
  match goal with |- res (bind ?m ?k ?s1) <> _ =>
    pose proof (res_bind_cases m k s1) as H2 end.
  pose proof (rounds_never_raises "Max Width (optional)" max_w_prompt "" 32 4096
                (fs (st (ask_fps s))) (typed (st (ask_fps s)))) as Hw.
  change (ask_number_rounds "Max Width (optional)" max_w_prompt "" 32 4096
            (fs (st (ask_fps s))) (typed (st (ask_fps s))))
    with (ask_max_w (st (ask_fps s))) in Hw.
  destruct (res (ask_max_w (st (ask_fps s)))) as [w| |];
    [|now elim (Hw e0)|congruence].
  rewrite H2. apply main_convert_never_raises.
Qed.

(** How [main] ends, up to the settings. *)
Lemma main_result (s : state) :
  let p := open_choice E in
  res (main E s)
  = if PyStr.nonempty p
       && (PyStr.endswith (PyStr.lower p) ".webm" || yesno E "Continue?")
       && PyStr.nonempty (save_choice E)
    then res (main_settings_and_convert E p (save_choice E) s)
    else Ok tt.
Proof.
  cbv zeta. unfold main.
  set (k := main_settings_and_convert E). clearbody k.
  unfold askopenfilename, askyesno, asksaveasfilename, showinfo, emit, ret, bind.
  cbn [res st evs app].
  destruct (PyStr.nonempty (open_choice E)); cbn [negb andb res st evs app];
    [|reflexivity].
  destruct (PyStr.endswith (PyStr.lower (open_choice E)) ".webm");
    cbn [negb orb andb res st evs app].
  - destruct (PyStr.nonempty (save_choice E)); cbn [negb res st evs app];
      reflexivity.
  - destruct (yesno E "Continue?"); cbn [negb andb res st evs app]; [|reflexivity].
    destruct (PyStr.nonempty (save_choice E)); cbn [negb res st evs app];
      reflexivity.
Qed.

Lemma main_state_when_aborted (s : state) :
  let p := open_choice E in
  PyStr.nonempty p
    && (PyStr.endswith (PyStr.lower p) ".webm" || yesno E "Continue?")
    && PyStr.nonempty (save_choice E) = false ->
  st (main E s) = s.
Proof.
  cbv zeta. unfold main.
  set (k := main_settings_and_convert E). clearbody k.
  unfold askopenfilename, askyesno, asksaveasfilename, showinfo, emit, ret, bind.
  cbn [res st evs app].
  destruct (PyStr.nonempty (open_choice E)); cbn [negb andb res st evs app];
    [|reflexivity].
  destruct (PyStr.endswith (PyStr.lower (open_choice E)) ".webm");
    cbn [negb orb andb res st evs app].
  - destruct (PyStr.nonempty (save_choice E)); cbn [negb res st evs app];
      [discriminate | reflexivity].
  - destruct (yesno E "Continue?"); cbn [negb andb res st evs app]; [|reflexivity].
    destruct (PyStr.nonempty (save_choice E)); cbn [negb res st evs app];
      [discriminate | reflexivity].
Qed.

(** X1. Backing out is silent.  When the open dialog is cancelled, the
    question whether to continue with a file that is not [.webm] is answered
    no, or the save dialog is cancelled, [main] returns normally, leaves the
    state as it was, and has shown nothing but the dialogs up to that point:
    no text-entry prompt, no error box, no workspace, no process. *)
Theorem main_backs_out_silently (s : state) :
  let p := open_choice E in
  let is_webm := PyStr.endswith (PyStr.lower p) ".webm" in
  PyStr.nonempty p = false
  \/ (is_webm = false /\ yesno E "Continue?" = false)
  \/ PyStr.nonempty (save_choice E) = false ->
  res (main E s) = Ok tt
  /\ st (main E s) = s
  /\ exists shown,
       evs (main E s)
       = (ShowInfo ("WEBM " ++ PyStr.rarrow ++ " GIF")
            "Select a .webm video to convert to GIF."
          :: AskOpenFilename "Select a WEBM file"
               (if isdir E DEFAULT_DIR then DEFAULT_DIR else home E)
          :: shown)%list
       /\ (PyStr.nonempty p = false -> shown = [])
       /\ (PyStr.nonempty p = true -> is_webm = false ->
           yesno E "Continue?" = false -> shown = [continue_question])
       /\ forall ev, In ev shown ->
            ev = continue_question
            \/ exists initialfile initialdir,
                 ev = AskSaveAsFilename "Save GIF as..." initialfile initialdir.
Proof.
  cbv zeta. intros Hout.
  assert (Hcond : PyStr.nonempty (open_choice E)
                    && (PyStr.endswith (PyStr.lower (open_choice E)) ".webm"
                        || yesno E "Continue?")
                    && PyStr.nonempty (save_choice E) = false).
  { destruct Hout as [-> | [[-> ->] | ->]];
      [reflexivity | now rewrite andb_false_r | now rewrite andb_false_r]. }
  split; [now rewrite main_result, Hcond|].
  split; [now apply main_state_when_aborted|].
  pose proof (main_events E s) as Hev. cbv zeta in Hev.
  eexists. split; [exact Hev|].
  destruct (PyStr.nonempty (open_choice E)); cbn [andb] in Hcond.
  2: { repeat split; try discriminate. intros ev []. }
  destruct (PyStr.endswith (PyStr.lower (open_choice E)) ".webm");
    cbn [orb andb app] in Hcond |- *.
  - rewrite Hcond.
    repeat split; try discriminate.
    intros ev [<- | []]. right. eauto.
  - destruct (yesno E "Continue?"); cbn [andb] in Hcond |- *.
    + rewrite Hcond. repeat split; try discriminate.
      intros ev [<- | [<- | []]]; [now left | right; eauto].
    + repeat split; try discriminate. intros ev [<- | []]. now left.
Qed.

Lemma main_dialogue_never_raises (s : state) (e : exn) :
  res (main E s) <> Raise e.
Proof.
  rewrite main_result.
  destruct (PyStr.nonempty (open_choice E)
              && (PyStr.endswith (PyStr.lower (open_choice E)) ".webm"
                  || yesno E "Continue?")
              && PyStr.nonempty (save_choice E)).
  - apply main_settings_and_convert_never_raises.
  - discriminate.
Qed.

(** X2. The one error [main] lets out is that of the root window.  When
    the Tk root window cannot be created or hidden (no display, say),
    [main] raises that error before any dialog; once the window is there,
    [main] is the dialogue that follows, and nothing that goes wrong in it
    makes [main] raise: in every world, with every sequence of answers, it
    returns (or is still waiting for a dialog or a process). *)
Theorem main_raises_only_for_the_root_window (s : state) :
  (forall e, tk_root E = Raise e ->
             main_with_root E s = {| res := Raise e; st := s; evs := [] |})
  /\ (tk_root E = Ok tt -> main_with_root E s = main E s)
  /\ (forall e, res (main_with_root E s) = Raise e -> tk_root E = Raise e)
  /\ (forall e, res (main E s) <> Raise e).
Proof.
  unfold main_with_root.
  split; [|split; [|split]].
  - intros e ->. reflexivity.
  - intros ->. exact (bind_lift_ok tt (fun _ => main E) s).
  - intros e. destruct (tk_root E) as [[]|e'|] eqn:Hroot.
    + rewrite (bind_lift_ok tt (fun _ => main E) s).
      intros H. now apply main_dialogue_never_raises in H.
    + unfold bind, lift. cbn. congruence.
    + unfold bind, lift. cbn. discriminate.
  - apply main_dialogue_never_raises.
Qed.

End MainEnds.

Lemma main_raises_only_for_the_root_window_witness :
  main_with_root MoreWorlds.no_display (Demo.start [])
  = {| res := Raise MoreWorlds.no_display_error; st := Demo.start []; evs := [] |}
  /\ main_with_root Demo.extract_fails (Demo.start [None; None])
     = main Demo.extract_fails (Demo.start [None; None])
  /\ res (main Demo.extract_fails (Demo.start [None; None])) = Ok tt.
Proof.
  split; [|split].
  - apply (main_raises_only_for_the_root_window MoreWorlds.no_display
             (Demo.start [])).
    reflexivity.
  - apply (main_raises_only_for_the_root_window Demo.extract_fails
             (Demo.start [None; None])).
    reflexivity.
  - reflexivity.
Defined.

Lemma main_backs_out_silently_witness :
  res (main Demo.other_file (Demo.start [Some "24"])) = Ok tt
  /\ st (main Demo.other_file (Demo.start [Some "24"])) = Demo.start [Some "24"].
Proof.
  destruct (main_backs_out_silently Demo.other_file (Demo.start [Some "24"]))
    as (H1 & H2 & _).
  - right. left. split; reflexivity.
  - split; assumption.
Defined.

(** ** More on the numeric prompt *)

Section PromptRuns.

Variables title prompt initialvalue : string.
Variables minval maxval : Z.

Local Abbreviation rounds :=
  (ask_number_rounds title prompt initialvalue minval maxval).
Local Abbreviation dialog := (AskString title prompt initialvalue).

(** X3. The prompt comes back at the first answer it can take.  After any
    number of answers (of ASCII characters, where [strip] and [int] are
    exact) that are turned down, each shown its error box (a literal that
    is no integer, or one of more than 4300 digits: "Please enter a valid
    number."; an integer outside the bounds: the one naming the bounds)
    and asked again, the first answer that is blank, cancelled or a number
    within the bounds ends the prompt: it returns that number, or nothing,
    and later answers stay untouched. *)
Theorem ask_number_returns_at_first_acceptable_answer
    (s : state) (turned_down : list (option string)) (v : option string)
    (rest : list (option string)) :
  typed s = (turned_down ++ v :: rest)%list ->
  forallb ascii_answer turned_down = true ->
  forallb (rejected minval maxval) turned_down = true ->
  rejected minval maxval v = false ->
  ask_number title prompt initialvalue minval maxval s
  = {| res := Ok (answer_value v);
       st := {| fs := fs s; typed := rest |};
       evs := (rejection_events title prompt initialvalue minval maxval turned_down
                 ++ [dialog])%list |}.
Proof.
  unfold ask_number. intros -> _ Hbad Hgood.
  induction turned_down as [|b bad IH]; cbn [app forallb rejection_events] in *.
  - now apply rounds_accepted_step.
  - apply andb_true_iff in Hbad. destruct Hbad as [Hb Hbad].
    rewrite (rounds_rejected_step title prompt initialvalue minval maxval
               _ _ _ Hb), (IH Hbad).
    reflexivity.
Qed.

(** X4. The prompt keeps to itself and keeps count.  It never touches the
    file system; it shows one more text-entry dialog than error boxes; when
    it comes back it has used up exactly one answer per dialog shown, and
    when the answers run out it is left waiting with every answer used. *)
Theorem ask_number_bookkeeping (s : state) :
  let r := ask_number title prompt initialvalue minval maxval s in
  fs (st r) = fs s
  /\ List.length (filter is_ask_string (evs r))
     = S (List.length (filter is_show_error (evs r)))
  /\ (List.length (filter is_ask_string (evs r))
      + List.length (filter is_show_error (evs r)))%nat
     = List.length (evs r)
  /\ match res r with
     | Ok _ =>
         List.length (typed s)
         = (List.length (typed (st r)) + List.length (filter is_ask_string (evs r)))%nat
     | Raise _ => False
     | Blocked =>
         typed (st r) = []
         /\ List.length (filter is_ask_string (evs r)) = S (List.length (typed s))
     end.
Proof.
  cbv zeta. unfold ask_number.
  generalize (fs s) as fs0. generalize (typed s) as queue.
  induction queue as [|v queue IH]; intros fs0.
  - cbn. repeat split.
  - destruct (rejected minval maxval v) eqn:Hv.
    + rewrite (rounds_rejected_step title prompt initialvalue minval maxval
                 _ _ _ Hv).
      destruct (IH fs0) as (H1 & H2 & H3 & H4).
      cbn [before res st evs app filter is_ask_string is_show_error List.length].
      split; [exact H1|]. split; [lia|]. split; [lia|].
      destruct (res (rounds fs0 queue)).
      * lia.
      * exact H4.
      * destruct H4 as [H4 H5]. split; [exact H4 | lia].
    + rewrite (rounds_accepted_step title prompt initialvalue minval maxval
                 _ _ _ Hv).
      cbn. repeat split. lia.
Qed.

End PromptRuns.

Lemma ask_number_returns_at_first_acceptable_answer_witness :
  ask_number "Frames per Second" fps_prompt "15" 1 60
    (Demo.start [Some "fast"; Some "0"; Some " 2_4 "; Some "9"])
  = {| res := Ok (Some 24);
       st := Demo.start [Some "9"];
       evs := [AskString "Frames per Second" fps_prompt "15";
               ShowError "Frames per Second" "Please enter a valid number.";
               AskString "Frames per Second" fps_prompt "15";
               ShowError "Frames per Second" "Enter a value between 1 and 60.";
               AskString "Frames per Second" fps_prompt "15"] |}.
Proof.
  apply (ask_number_returns_at_first_acceptable_answer
           "Frames per Second" fps_prompt "15" 1 60
           (Demo.start [Some "fast"; Some "0"; Some " 2_4 "; Some "9"])
           [Some "fast"; Some "0"] (Some " 2_4 ") [Some "9"]);
    reflexivity.
Defined.

(** ** Writing a number and reading it back *)

Section DecimalRoundTrip.
Import PyStr.

Lemma append_empty_r (s : string) : s ++ "" = s.
Proof. induction s as [|c s IH]; cbn; [reflexivity | now rewrite IH]. Qed.

Lemma rev_onto_rev_onto (s a b : string) :
  rev_onto (rev_onto s a) b = rev_onto a (s ++ b).
Proof.
  revert a b. induction s as [|c s IH]; intros a b; cbn; [reflexivity|].
  now rewrite IH.
Qed.

Lemma rev_involutive (s : string) : rev (rev s) = s.
Proof. unfold rev. rewrite rev_onto_rev_onto. cbn. apply append_empty_r. Qed.

Lemma no_space_rev_onto (s acc : string) :
  no_space (rev_onto s acc) = no_space s && no_space acc.
Proof.
  revert acc. induction s as [|c s IH]; intros acc; cbn; [reflexivity|].
  rewrite IH. cbn. destruct (is_space c); cbn;
    [now rewrite andb_false_r | reflexivity].
Qed.

Lemma lstrip_no_space (s : string) : no_space s = true -> lstrip s = s.
Proof.
  destruct s as [|c s]; cbn; [reflexivity|].
  now destruct (is_space c).
Qed.

(** Text without white space is left alone by [strip]. *)
Lemma strip_no_space (s : string) : no_space s = true -> strip s = s.
Proof.
  intros H. unfold strip, rstrip. rewrite (lstrip_no_space s H).
  rewrite lstrip_no_space; [apply rev_involutive|].
  unfold rev. rewrite no_space_rev_onto, H. reflexivity.
Qed.

Lemma no_space_digits (d : Decimal.uint) :
  no_space (NilEmpty.string_of_uint d) = true.
Proof. induction d; cbn; auto. Qed.

Lemma no_space_str_of_int (n : Z) : no_space (str_of_int n) = true.
Proof.
  unfold str_of_int.
  destruct n as [|p|p]; cbn; [reflexivity| |];
    destruct (Pos.to_uint p); cbn; auto using no_space_digits.
Qed.

(** Reading digits onto a positive accumulator. *)
Lemma digits_from_acc (d : Decimal.uint) (acc : positive) :
  digits_from (NilEmpty.string_of_uint d) (Z.pos acc) true
  = Some (Z.pos (Pos.of_uint_acc d acc)).
Proof.
  revert acc. induction d; intros acc;
    cbn [NilEmpty.string_of_uint digits_from Pos.of_uint_acc];
    [reflexivity | ..];
    match goal with
    | |- context [digit_val ?c] =>
        let v := eval vm_compute in (digit_val c) in
        change (digit_val c) with v; cbv iota beta
    end;
    match goal with
    | |- digits_from _ ?z true = Some (Z.pos (Pos.of_uint_acc _ ?q)) =>
        replace z with (Z.pos q) by lia
    end;
    apply IHd.
Qed.

(** Reading digits from nothing. *)
Lemma digits_from_zero (d : Decimal.uint) (b : bool) :
  d <> Decimal.Nil \/ b = true ->
  digits_from (NilEmpty.string_of_uint d) 0 b = Some (Z.of_N (Pos.of_uint d)).
Proof.
  revert b. induction d; intros b Hd;
    cbn [NilEmpty.string_of_uint digits_from Pos.of_uint].
  - destruct Hd as [Hd | ->]; [now elim Hd | reflexivity].
  - change (digit_val "0") with (Some 0). cbv iota beta.
    change (10 * 0 + 0) with 0. apply IHd. now right.
  - change (digit_val "1") with (Some 1). apply (digits_from_acc d 1).
  - change (digit_val "2") with (Some 2). apply (digits_from_acc d 2).
  - change (digit_val "3") with (Some 3). apply (digits_from_acc d 3).
  - change (digit_val "4") with (Some 4). apply (digits_from_acc d 4).
  - change (digit_val "5") with (Some 5). apply (digits_from_acc d 5).
  - change (digit_val "6") with (Some 6). apply (digits_from_acc d 6).
  - change (digit_val "7") with (Some 7). apply (digits_from_acc d 7).
  - change (digit_val "8") with (Some 8). apply (digits_from_acc d 8).
  - change (digit_val "9") with (Some 9). apply (digits_from_acc d 9).
Qed.

Lemma digits_of_positive (p : positive) :
  digits_from (NilEmpty.string_of_uint (Pos.to_uint p)) 0 false
  = Some (Z.pos p).
Proof.
  rewrite digits_from_zero.
  - now rewrite DecimalPos.Unsigned.of_to.
  - left. apply DecimalPos.Unsigned.to_uint_nonnil.
Qed.

(** [int(str(n)) == n], for an [n] that [str] writes. *)
Lemma int_of_str_of_int (n : Z) :
  writable n = true -> int_of_str (str_of_int n) = Some n.
Proof.
  intros Hn. unfold writable in Hn.
  unfold int_of_str. rewrite (strip_no_space _ (no_space_str_of_int n)).
  cbv zeta. rewrite Hn. clear Hn.
  unfold str_of_int. destruct n as [|p|p]; [reflexivity| |].
  - cbn [Z.to_int NilZero.string_of_int NilZero.string_of_uint].
    pose proof (digits_of_positive p) as H.
    pose proof (DecimalPos.Unsigned.to_uint_nonnil p) as Hnil.
    destruct (Pos.to_uint p); try (now elim Hnil); exact H.
  - cbn [Z.to_int NilZero.string_of_int NilZero.string_of_uint].
    pose proof (digits_of_positive p) as H.
    pose proof (DecimalPos.Unsigned.to_uint_nonnil p) as Hnil.
    destruct (Pos.to_uint p); try (now elim Hnil);
      cbv beta iota; unfold NilZero.string_of_uint; rewrite H; reflexivity.
Qed.

Lemma str_of_int_nonempty (n : Z) : nonempty (str_of_int n) = true.
Proof.
  unfold str_of_int. destruct n as [|p|p]; cbn; [reflexivity| |reflexivity].
  pose proof (DecimalPos.Unsigned.to_uint_nonnil p) as Hnil.
  destruct (Pos.to_uint p); try (now elim Hnil); reflexivity.
Qed.

(** X5. What the program writes, the prompt reads back.  When the person
    leaves in place, or types, the decimal form [str(n)] of a number within
    the bounds (the pre-filled 15 of the frame-rate prompt, say), the
    prompt returns that very number, at once and without an error box.
    This is so for a number of at most 4300 digits, the most [int] reads;
    bounds between 0 and 4096, such as those of the two prompts of [main],
    leave room for no other. *)
Theorem ask_number_reads_back_a_written_number
    (title prompt initialvalue : string) (minval maxval n : Z)
    (s : state) (rest : list (option string)) :
  minval <= n <= maxval ->
  writable n = true \/ (0 <= minval /\ maxval <= 4096) ->
  typed s = Some (str_of_int n) :: rest ->
  ask_number title prompt initialvalue minval maxval s
  = {| res := Ok (Some n); st := {| fs := fs s; typed := rest |};
       evs := [AskString title prompt initialvalue] |}.
Proof.
  intros Hn Hw Hq.
  assert (Hw' : writable n = true).
  { destruct Hw as [Hw | Hw]; [exact Hw | apply writable_small; lia]. }
  unfold ask_number. rewrite Hq.
  apply rounds_accepts; [| |exact Hn].
  - cbn [is_blank].
    now rewrite (strip_no_space _ (no_space_str_of_int n)), str_of_int_nonempty.
  - rewrite (strip_no_space _ (no_space_str_of_int n)).
    now apply int_of_str_of_int.
Qed.

End DecimalRoundTrip.

Lemma ask_number_reads_back_a_written_number_witness :
  ask_number "Max Width (optional)" max_w_prompt "" 32 4096
    (Demo.start [Some "720"; None])
  = {| res := Ok (Some 720); st := Demo.start [None];
       evs := [AskString "Max Width (optional)" max_w_prompt ""] |}.
Proof.
  apply (ask_number_reads_back_a_written_number
           "Max Width (optional)" max_w_prompt "" 32 4096 720
           (Demo.start [Some "720"; None]) [None]).
  - lia.
  - right. lia.
  - reflexivity.
Defined.

(** ** More on the executor *)

Section ExecutorRuns.

Variable E : env.

Lemma find_imagemagick_nonempty (im : string) :
  _find_imagemagick E = Some im -> PyStr.nonempty im = true.
Proof.
  unfold _find_imagemagick.
  destruct (which E "magick") as [m|]; cbn [truthy_str].
  - destruct (PyStr.nonempty m) eqn:Hm; [now intros [= <-]|].
    destruct (which E "convert") as [c|]; cbn [truthy_str]; [|discriminate].
    destruct (PyStr.nonempty c) eqn:Hc; [now intros [= <-] | discriminate].
  - destruct (which E "convert") as [c|]; cbn [truthy_str]; [|discriminate].
    destruct (PyStr.nonempty c) eqn:Hc; [now intros [= <-] | discriminate].
Qed.

Lemma subprocess_run_event (check : bool) (c : command) (s : state)
    (ev : event) :
  In ev (evs (subprocess_run E check c s)) ->
  ev = Run c (fst (spawn E c (fs s))).
Proof.
  unfold subprocess_run. destruct (spawn E c (fs s)) as [o fs'].
  cbn. intros [<- | []]. reflexivity.
Qed.

(** The outcome recorded for a process is the one the world gave it. *)
Lemma make_gif_im_outcomes (in_path out_path : string) (fps : Z)
    (max_w : option Z) (dither : string) (s : state) (c : command)
    (o : proc_outcome) :
  In (Run c o) (evs (make_gif_im E in_path out_path fps max_w dither s)) ->
  exists files, o = fst (spawn E c files).
Proof.
  unfold make_gif_im. intros H.
  apply in_bind_evs in H. destruct H as [H | (ffmpeg & _ & H)]; [destruct H|].
  destruct (_find_imagemagick E) as [im|]; [|destruct H].
  destruct (PyStr.nonempty im); cbn [negb] in H; [|destruct H].
  apply in_bind_evs in H. destruct H as [H | (vf_ & _ & H)]; [destruct H|].
  apply in_bind_evs in H. destruct H as [H | (delay & _ & H)]; [destruct H|].
  unfold with_TemporaryDirectory in H.
  match type of H with
  | context [mkdtemp E ?files] =>
      destruct (mkdtemp E files) as [td| |]; [|destruct H ..]
  end.
  match type of H with
  | In _ (evs match res (?body ?sb) with _ => _ end) =>
      assert (Hb : In (Run c o) (evs (body sb)));
      [destruct (res (body sb)); cbn [evs In] in H;
       destruct H as [H | H]; try discriminate; auto;
       apply in_app_or in H; destruct H as [H | [H | []]];
       [assumption | discriminate | assumption | discriminate]
      |clear H]
  end.
  cbv beta in Hb.
  apply in_bind_evs in Hb. destruct Hb as [Hb | (_ & _ & Hb)].
  { apply subprocess_run_event in Hb. injection Hb as <- ->. eauto. }
  apply in_bind_evs in Hb. destruct Hb as [Hb | (_ & _ & Hb)].
  { apply subprocess_run_event in Hb. injection Hb as <- ->. eauto. }
  apply subprocess_run_event in Hb. injection Hb as <- ->. eauto.
Qed.

Lemma staged_all_zero cmds l r :
  staged cmds l r ->
  forallb (fun co => exit_zero (snd co)) l = true ->
  r = Ok tt /\ map fst l = cmds.
Proof.
  induction 1 as [|c cmds out err l r _ IH|c cmds rc out err Hrc
                 |c cmds reason|c cmds e|c cmds];
    cbn [forallb map fst snd exit_zero]; intros Hz.
  - now split.
  - destruct (IH Hz) as [-> ->]. now split.
  - apply andb_true_iff in Hz. destruct Hz as [Hz _].
    apply Z.eqb_eq in Hz. contradiction.
  - discriminate.
  - discriminate.
  - discriminate.
Qed.

(** The run of the executor in a world where nothing fails. *)
Lemma make_gif_im_when_nothing_fails
    (in_path out_path : string) (fps : Z) (max_w : option Z)
    (dither : string) (s : state) (ffmpeg im : string) (delay : Z)
    (td : string) :
  get_ffmpeg_exe E = Ok ffmpeg ->
  _find_imagemagick E = Some im ->
  filter_chain fps max_w = Ok (vf fps max_w) ->
  delay_cs fps = Ok delay ->
  mkdtemp E (fs s) = Ok td ->
  (forall c files, exit_zero (fst (spawn E c files)) = true) ->
  res (make_gif_im E in_path out_path fps max_w dither s) = Ok tt
  /\ exists o1 o2 o3,
       evs (make_gif_im E in_path out_path fps max_w dither s)
       = [Mkdtemp td;
          Run (cmd1 ffmpeg in_path (vf fps max_w) td) o1;
          Run (cmd2 ffmpeg in_path (vf fps max_w) td) o2;
          Run (assemble_cmd im delay td dither out_path) o3;
          Rmtree td].
Proof.
  intros Hff Him Hvf Hd Htd Hz.
  pose proof (make_gif_im_outcomes in_path out_path fps max_w dither s) as Hout.
  destruct (make_gif_im_run E in_path out_path fps max_w dither s)
    as [(Hev & _ & Hno)
       | (ffmpeg' & im' & delay' & td' & l & Hff' & Him' & Hd' & Htd' & Hs & Hev & _)].
  - exfalso. revert Hev Hno. unfold make_gif_im.
    rewrite Hff, bind_lift_ok, Him, (find_imagemagick_nonempty im Him).
    cbn [negb]. rewrite Hvf, bind_lift_ok, Hd, bind_lift_ok.
    unfold with_TemporaryDirectory. rewrite Htd.
    match goal with |- context [res ?b] => destruct (res b) end;
      cbn [evs]; discriminate.
  - rewrite Hff in Hff'. rewrite Him in Him'. rewrite Hd in Hd'.
    rewrite Htd in Htd'.
    injection Hff' as <-. injection Him' as <-. injection Hd' as <-.
    injection Htd' as <-.
    assert (Hall : forallb (fun co => exit_zero (snd co)) l = true).
    { apply forallb_forall. intros [c o] Hin. cbn [snd].
      assert (Hin' : In (Run c o)
                        (evs (make_gif_im E in_path out_path fps max_w dither s))).
      { rewrite Hev. right. apply in_or_app. left.
        change (Run c o) with (run_event (c, o)). now apply in_map. }
      destruct (Hout c o Hin') as [files ->]. apply Hz. }
    destruct (staged_all_zero _ _ _ Hs Hall) as [Hres Hcmds].
    split; [exact Hres|].
    rewrite Hev, Hres. unfold stage_commands in Hcmds.
    destruct l as [|[c1 o1] [|[c2 o2] [|[c3 o3] [|x l]]]]; try discriminate.
    cbn in Hcmds. injection Hcmds as -> -> ->.
    exists o1, o2, o3. reflexivity.
Qed.

(** X6. When the tools are found, the frame rate and the width are
    numbers of at most 4300 digits, the delay and the workspace can be had
    and every process the world runs exits with status zero having written
    nothing but text, the executor returns normally, having made the
    workspace, run extract, palette and assemble, in that order and nothing
    else, and removed the workspace. *)
Theorem make_gif_im_succeeds_when_every_stage_does
    (in_path out_path : string) (fps : Z) (max_w : option Z)
    (dither : string) (s : state) (ffmpeg im : string) (delay : Z)
    (td : string) :
  get_ffmpeg_exe E = Ok ffmpeg ->
  _find_imagemagick E = Some im ->
  PyStr.writable fps = true ->
  (forall w, max_w = Some w -> PyStr.writable w = true) ->
  delay_cs fps = Ok delay ->
  mkdtemp E (fs s) = Ok td ->
  (forall c files, exit_zero (fst (spawn E c files)) = true) ->
  res (make_gif_im E in_path out_path fps max_w dither s) = Ok tt
  /\ exists o1 o2 o3,
       evs (make_gif_im E in_path out_path fps max_w dither s)
       = [Mkdtemp td;
          Run (cmd1 ffmpeg in_path (vf fps max_w) td) o1;
          Run (cmd2 ffmpeg in_path (vf fps max_w) td) o2;
          Run (assemble_cmd im delay td dither out_path) o3;
          Rmtree td].
Proof.
  intros Hff Him Hf Hw.
  apply make_gif_im_when_nothing_fails; auto using filter_chain_writable.
Qed.

(** X7. The filter string and the delay are worked out before the
    workspace is made, in that order.  With the tools found, a frame rate
    or a width of more than 4300 digits makes the executor raise the
    [ValueError] of the f-string that cannot write it, and, when both can
    be written, a frame rate whose delay cannot be computed makes it raise
    that very error; either way no workspace is made and no process
    started.  A frame rate of 0 is of the second kind: it raises
    [ZeroDivisionError]. *)
Theorem make_gif_im_fails_before_the_workspace
    (in_path out_path : string) (fps : Z) (max_w : option Z)
    (dither : string) (s : state) (ffmpeg im : string) :
  get_ffmpeg_exe E = Ok ffmpeg ->
  _find_imagemagick E = Some im ->
  (filter_chain fps max_w = Raise int_str_limit ->
   make_gif_im E in_path out_path fps max_w dither s
   = {| res := Raise int_str_limit; st := s; evs := [] |})
  /\ (PyStr.writable fps = false ->
      filter_chain fps max_w = Raise int_str_limit)
  /\ (forall e,
        PyStr.writable fps = true ->
        (forall w, max_w = Some w -> PyStr.writable w = true) ->
        delay_cs fps = Raise e ->
        make_gif_im E in_path out_path fps max_w dither s
        = {| res := Raise e; st := s; evs := [] |})
  /\ delay_cs 0 = Raise (Exn ZeroDivisionError "float division by zero").
Proof.
  intros Hff Him.
  assert (Hstart :
             make_gif_im E in_path out_path fps max_w dither s
             = bind (lift (filter_chain fps max_w))
                 (fun vf_ => delay <- lift (delay_cs fps) ;;
                    with_TemporaryDirectory E (fun td =>
                      subprocess_run E true (cmd1 ffmpeg in_path vf_ td) ;;;
                      subprocess_run E true (cmd2 ffmpeg in_path vf_ td) ;;;
                      subprocess_run E true
                        (assemble_cmd im delay td dither out_path))) s).
  { unfold make_gif_im.
    rewrite Hff, bind_lift_ok, Him, (find_imagemagick_nonempty im Him).
    reflexivity. }
  split; [|split; [|split]].
  - intros Hvf. rewrite Hstart, Hvf. reflexivity.
  - intros Hf. unfold filter_chain. now rewrite Hf.
  - intros e Hf Hw Hd.
    rewrite Hstart, (filter_chain_writable fps max_w Hf Hw), bind_lift_ok, Hd.
    reflexivity.
  - vm_compute. reflexivity.
Qed.

(** X8. The executor keeps away from the person: none of its events is a
    dialog, and the answers still to be typed are the same after it as
    before it. *)
Theorem make_gif_im_shows_no_dialog
    (in_path out_path : string) (fps : Z) (max_w : option Z)
    (dither : string) (s : state) :
  forallb (fun ev => negb (is_dialog ev))
          (evs (make_gif_im E in_path out_path fps max_w dither s)) = true
  /\ typed (st (make_gif_im E in_path out_path fps max_w dither s)) = typed s.
Proof.
  split.
  - apply forallb_forall. intros ev Hin.
    apply make_gif_im_events in Hin.
    destruct Hin as [(td & [-> | ->]) | (c & o & ->)]; reflexivity.
  - destruct (make_gif_im_run E in_path out_path fps max_w dither s)
      as [(_ & -> & _) | (ffmpeg & im & delay & td & l & _ & _ & _ & _ & _ & _ & _ & H)];
      [reflexivity | exact H].
Qed.

End ExecutorRuns.

Lemma make_gif_im_succeeds_when_every_stage_does_witness :
  res (make_gif_im Demo.fine Demo.clip Demo.gif 15 (Some 480) "Riemersma"
         (Demo.start [])) = Ok tt.
Proof.
  apply (make_gif_im_succeeds_when_every_stage_does Demo.fine Demo.clip Demo.gif
           15 (Some 480) "Riemersma" (Demo.start [])
           "/opt/ffmpeg" "/usr/bin/magick" 7 Demo.td).
  - reflexivity.
  - reflexivity.
  - reflexivity.
  - intros w [= <-]. reflexivity.
  - vm_compute. reflexivity.
  - reflexivity.
  - intros c files. unfold Demo.fine, Demo.world, spawn, Demo.demo_spawn.
    destruct c as [args|line]; [|reflexivity].
    unfold Demo.stage_of. now destruct (Demo.is_palette_cmd (Argv args)).
Defined.

Lemma make_gif_im_fails_before_the_workspace_witness :
  make_gif_im Demo.fine Demo.clip Demo.gif 0 None "Riemersma" (Demo.start [])
  = {| res := Raise (Exn ZeroDivisionError "float division by zero");
       st := Demo.start []; evs := [] |}
  /\ make_gif_im Demo.fine Demo.clip Demo.gif one_and_4300_zeros None
       "Riemersma" (Demo.start [])
     = {| res := Raise int_str_limit; st := Demo.start []; evs := [] |}.
Proof.
  split.
  - apply (make_gif_im_fails_before_the_workspace Demo.fine Demo.clip Demo.gif
             0 None "Riemersma" (Demo.start []) "/opt/ffmpeg" "/usr/bin/magick").
    + reflexivity.
    + reflexivity.
    + reflexivity.
    + discriminate.
    + vm_compute. reflexivity.
  - destruct (make_gif_im_fails_before_the_workspace Demo.fine Demo.clip
                Demo.gif one_and_4300_zeros None "Riemersma" (Demo.start [])
                "/opt/ffmpeg" "/usr/bin/magick" eq_refl eq_refl)
      as (Hraise & Hlimit & _).
    apply Hraise, Hlimit. exact one_and_4300_zeros_not_writable.
Defined.

(** ** Paths of the workspace *)

Section WorkspacePaths.
Import PyStr PosixPath.

Lemma startswith_app (p s : string) : startswith (p ++ s) p = true.
Proof.
  induction p as [|c p IH]; cbn; [now destruct s|].
  now rewrite Ascii.eqb_refl, IH.
Qed.

Lemma endswith_last_char (d : string) (c x : ascii) :
  endswith (d ++ String c "") (String x "") = Ascii.eqb c x.
Proof.
  induction d as [|a d IH].
  - change ("" ++ String c "") with (String c "").
    rewrite endswith_cons, endswith_nil.
    destruct (Ascii.eqb_spec c x) as [->|Hne].
    + now rewrite String.eqb_refl.
    + replace (String.eqb (String c "") (String x "")) with false;
        [reflexivity|].
      symmetry. apply String.eqb_neq. congruence.
  - change (String a d ++ String c "") with (String a (d ++ String c "")).
    rewrite endswith_cons, IH.
    replace (String.eqb (String a (d ++ String c "")) (String x "")) with false;
      [reflexivity|].
    symmetry. apply String.eqb_neq. intros [= _ H]. now destruct d.
Qed.

(** Joining a name onto a directory that does not end with a separator. *)
Lemma join_plain (d : string) (c : ascii) (name : string) :
  is_sep c = false ->
  startswith name "/" = false ->
  join (d ++ String c "") name = (d ++ String c "") ++ "/" ++ name.
Proof.
  intros Hc Hn. unfold join. rewrite Hn.
  rewrite (endswith_last_char d c "/"%char).
  unfold is_sep in Hc. rewrite Hc.
  replace (nonempty (d ++ String c "")) with true; [reflexivity|].
  symmetry. apply nonempty_true. now destruct d.
Qed.

Lemma inside_below (td x : string) : inside td (td ++ "/" ++ x) = true.
Proof.
  unfold inside. rewrite <- (append_assoc td "/" x).
  rewrite startswith_app. apply orb_true_r.
Qed.

Lemma inside_join (d : string) (c : ascii) (name : string) :
  is_sep c = false ->
  startswith name "/" = false ->
  inside (d ++ String c "") (join (d ++ String c "") name) = true.
Proof.
  intros Hc Hn. rewrite (join_plain d c name Hc Hn). apply inside_below.
Qed.

(** For a workspace directory whose name does not end with a separator,
    the frame pattern, the frame glob and the palette path are the
    directory name, a separator and the file name, and they lie inside the
    directory, as does every frame file. *)
Lemma intermediate_paths_are_inside_the_workspace (d : string) (c : ascii) :
  is_sep c = false ->
  let td := d ++ String c "" in
  frames_pat td = td ++ "/f_%06d.png"
  /\ frames_glob td = td ++ "/f_*.png"
  /\ palette td = td ++ "/palette.png"
  /\ inside td (frames_pat td) = true
  /\ inside td (frames_glob td) = true
  /\ inside td (palette td) = true
  /\ forall n,
       inside td (td ++ "/f_" ++ n ++ ".png") = true.
Proof.
  intros Hc td. unfold frames_pat, frames_glob, palette, td.
  repeat split;
    try (apply join_plain; [exact Hc | reflexivity]);
    try (apply inside_join; [exact Hc | reflexivity]).
  intros n. apply (inside_below (d ++ String c "") ("f_" ++ n ++ ".png")).
Qed.

End WorkspacePaths.

(** X9. No intermediate file is left behind.  When the executor comes
    back, by returning or by raising, after having made a workspace (whose
    name does not end with a separator), the palette file and every frame
    file of that workspace are gone from the file system, whatever the
    processes wrote. *)
Theorem intermediate_files_are_gone_afterwards
    (E : env) (in_path out_path : string) (fps : Z) (max_w : option Z)
    (dither : string) (s : state) (d : string) (c : ascii) :
  PosixPath.is_sep c = false ->
  res (make_gif_im E in_path out_path fps max_w dither s) <> Blocked ->
  In (Mkdtemp (d ++ String c ""))
     (evs (make_gif_im E in_path out_path fps max_w dither s)) ->
  ~ In (palette (d ++ String c ""))
       (fs (st (make_gif_im E in_path out_path fps max_w dither s)))
  /\ forall n,
       ~ In ((d ++ String c "") ++ "/f_" ++ n ++ ".png")
            (fs (st (make_gif_im E in_path out_path fps max_w dither s))).
Proof.
  intros Hc Hback Hin.
  destruct (intermediate_paths_are_inside_the_workspace d c Hc)
    as (_ & _ & _ & _ & _ & Hpal & Hframe).
  assert (Hgone : forall p,
             In p (fs (st (make_gif_im E in_path out_path fps max_w dither s))) ->
             PosixPath.inside (d ++ String c "") p = false).
  { destruct (make_gif_im_run E in_path out_path fps max_w dither s)
      as [(Hev & _) | (ffmpeg & im & delay & td & l & _ & _ & _ & _ & _ & Hev & Hfs & _)].
    - rewrite Hev in Hin. destruct Hin.
    - rewrite Hev in Hin. destruct Hin as [[= <-] | Hin]; [now apply Hfs|].
      apply in_app_or in Hin. destruct Hin as [Hin | Hin].
      + now apply mkdtemp_not_a_run in Hin.
      + destruct (res (make_gif_im E in_path out_path fps max_w dither s));
          cbn in Hin; intuition discriminate. }
  split.
  - intros H. apply Hgone in H. congruence.
  - intros n H. apply Hgone in H. rewrite Hframe in H. discriminate.
Qed.

Lemma intermediate_files_are_gone_afterwards_witness :
  ~ In "/tmp/tmpq3w8/palette.png"
       (fs (st (make_gif_im Demo.palette_fails Demo.clip Demo.gif 15 None
                  "Riemersma" (Demo.start []))))
  /\ forall n,
       ~ In ("/tmp/tmpq3w8" ++ "/f_" ++ n ++ ".png")
            (fs (st (make_gif_im Demo.palette_fails Demo.clip Demo.gif 15 None
                       "Riemersma" (Demo.start [])))).
Proof.
  apply (intermediate_files_are_gone_afterwards Demo.palette_fails Demo.clip
           Demo.gif 15 None "Riemersma" (Demo.start []) "/tmp/tmpq3w" "8"%char).
  - reflexivity.
  - vm_compute. discriminate.
  - vm_compute. left. reflexivity.
Defined.

(** ** Frame rates below zero *)

Section NegativeRate.

Lemma binary_round_aux_sign (s : bool) (m e : Z) (l : location) :
  signed_or_nan s (binary_round_aux PyFloat.prec PyFloat.emax s m e l).
Proof.
  unfold binary_round_aux.
  destruct (shr_fexp PyFloat.prec PyFloat.emax m e l) as [mrs' e'].
  destruct (shr_fexp PyFloat.prec PyFloat.emax
              (round_nearest_even (shr_m mrs') (loc_of_shr_record mrs')) e'
              loc_Exact) as [mrs'' e''].
  destruct (shr_m mrs'') as [|p|p]; cbn [signed_or_nan];
    [reflexivity | | exact I].
  destruct (Z.leb e'' (PyFloat.emax - PyFloat.prec)); reflexivity.
Qed.

Lemma float_of_negative_int (p : positive) (f : spec_float) :
  PyFloat.float_of_int (Z.neg p) = Ok f -> signed_or_nan true f.
Proof.
  unfold PyFloat.float_of_int, binary_normalize, binary_round.
  destruct (shl_align p 0
              (fexp PyFloat.prec PyFloat.emax (Z.pos (digits2_pos p) + 0)))
    as [mz ez].
  pose proof (binary_round_aux_sign true (Z.pos mz) ez loc_Exact) as H.
  destruct (binary_round_aux PyFloat.prec PyFloat.emax true (Z.pos mz) ez loc_Exact);
    try discriminate; now intros [= <-].
Qed.

Lemma nearest_even_shift_nonneg (m k : Z) :
  0 <= m -> 0 <= PyFloat.nearest_even_shift m k.
Proof.
  intros Hm. unfold PyFloat.nearest_even_shift.
  assert (Hd : 0 <= 2 ^ k) by (apply Z.pow_nonneg; lia).
  assert (Hq : 0 <= m / 2 ^ k).
  { destruct (Z.eq_dec (2 ^ k) 0) as [H0 | H0].
    - rewrite H0, Z.div_0_r. lia.
    - apply Z.div_pos; lia. }
  destruct (Z.compare (2 * (m mod 2 ^ k)) (2 ^ k)); [|lia..].
  destruct (Z.even (m / 2 ^ k)); lia.
Qed.

Lemma round_of_negative (x : spec_float) (r : Z) :
  signed_or_nan true x -> PyFloat.round x = Ok r -> r <= 0.
Proof.
  destruct x as [s|s| |s m e]; unfold signed_or_nan, PyFloat.round;
    try discriminate.
  - intros _ [= <-]. lia.
  - intros -> Hr.
    assert (Ha : 0 <= (if Z.leb 0 e then Z.pos m * 2 ^ e
                       else PyFloat.nearest_even_shift (Z.pos m) (- e))).
    { destruct (Z.leb 0 e).
      - apply Z.mul_nonneg_nonneg; [lia | apply Z.pow_nonneg; lia].
      - apply nearest_even_shift_nonneg. lia. }
    revert Hr Ha.
    generalize (if Z.leb 0 e then Z.pos m * 2 ^ e
                else PyFloat.nearest_even_shift (Z.pos m) (- e)).
    intros a [= <-] Ha. lia.
Qed.

Lemma div_by_negative (f : spec_float) :
  signed_or_nan true f ->
  signed_or_nan true
    (SFdiv PyFloat.prec PyFloat.emax
       (S754_finite false 7036874417766400 (-46)) f).
Proof.
  destruct f as [s|s| |s m e]; intros Hs; cbn [signed_or_nan] in Hs;
    try subst s; cbn [SFdiv xorb]; try reflexivity; try exact I.
  - destruct (SFdiv_core_binary PyFloat.prec PyFloat.emax
                (Z.pos 7036874417766400) (-46) (Z.pos m) e) as [[mz ez] lz].
    apply binary_round_aux_sign.
Qed.

Lemma delay_cs_negative_table :
  forallb (fun n => match delay_cs (- Z.of_nat n - 1) with
                    | Ok d => Z.eqb d 1
                    | _ => false
                    end)
          (seq 0 60) = true.
Proof. vm_compute. reflexivity. Qed.

(** X10. A frame rate below zero is not turned away: the quotient
    [100 / fps] is then negative, its rounding is at most 0, and the
    maximum with 1 makes the delay exactly 1 whenever one comes out; from
    -60 to -1 one does come out. *)
Theorem delay_cs_of_a_negative_rate_is_one (fps : Z) :
  fps < 0 ->
  (forall d, delay_cs fps = Ok d -> d = 1)
  /\ (-60 <= fps -> delay_cs fps = Ok 1).
Proof.
  intros Hneg. split.
  - intros d. destruct fps as [|p|p]; try lia. clear Hneg.
    unfold delay_cs.
    change (PyFloat.float_of_int 100)
      with (@Ok spec_float (S754_finite false 7036874417766400 (-46))).
    pose proof (float_of_negative_int p) as Hf.
    destruct (PyFloat.float_of_int (Z.neg p)) as [f| |]; try discriminate.
    specialize (Hf f eq_refl).
    unfold PyFloat.truediv. destruct (PyFloat.is_zero f); [discriminate|].
    pose proof (div_by_negative f Hf) as Hq.
    pose proof (fun r => round_of_negative _ r Hq) as Hr.
    destruct (PyFloat.round
                (SFdiv PyFloat.prec PyFloat.emax
                   (S754_finite false 7036874417766400 (-46)) f)) as [r| |];
      try discriminate.
    intros [= <-]. specialize (Hr r eq_refl). lia.
  - intros Hlo.
    pose proof (proj1 (forallb_forall _ _) delay_cs_negative_table
                  (Z.to_nat (- fps - 1))) as H.
    cbv beta in H.
    replace (- Z.of_nat (Z.to_nat (- fps - 1)) - 1) with fps in H by lia.
    assert (Hin : In (Z.to_nat (- fps - 1)) (seq 0 60)) by (apply in_seq; lia).
    specialize (H Hin).
    destruct (delay_cs fps) as [d| |]; try discriminate.
    apply Z.eqb_eq in H. now subst.
Qed.

End NegativeRate.

Lemma delay_cs_of_a_negative_rate_is_one_witness :
  delay_cs (-24) = Ok 1.
Proof.
  apply (delay_cs_of_a_negative_rate_is_one (-24)); lia.
Defined.

(** ** What [main] tells the person about the conversion *)

Section Reporting.

Variable E : env.
Variables in_path out_path : string.
Variable fps : Z.
Variable max_w : option Z.

Local Abbreviation done_box :=
  (ShowInfo "Done" ("GIF saved:" ++ PyStr.nl ++ out_path)).
Local Abbreviation folder_question :=
  (AskYesNo "Open Folder?" "Open the output folder?").

Lemma filter_none {A} (f : A -> bool) (l : list A) :
  (forall x, In x l -> f x = false) -> filter f l = [].
Proof.
  induction l as [|a l IH]; cbn; intros H; [reflexivity|].
  rewrite (H a (or_introl eq_refl)). apply IH. auto.
Qed.

Lemma make_gif_im_no_box (s : state) (ev : event) :
  In ev (evs (make_gif_im E in_path out_path fps max_w "Riemersma" s)) ->
  is_dialog ev = false.
Proof.
  intros H. apply make_gif_im_events in H.
  destruct H as [(td & [-> | ->]) | (c & o & ->)]; reflexivity.
Qed.

Lemma main_open_folder_no_box (s : state) (ev : event) :
  In ev (evs (main_open_folder E out_path s)) ->
  ev = folder_question \/ is_dialog ev = false.
Proof.
  destruct (main_open_folder_run E out_path s) as (_ & tail & -> & Hcases).
  cbv zeta in Hcases. cbn [In]. intros [<- | H]; [now left | right].
  destruct Hcases as [-> | [-> | [o [-> | ->]]]]; cbn [In] in H;
    intuition (subst; reflexivity).
Qed.

(** X11. The person is told exactly how the conversion ended.  When the
    executor returns, [main] shows the box "Done" with the output path,
    asks whether to open the folder, and shows no error box; when it
    raises, whatever the error, [main] shows exactly one error box, headed
    "Conversion failed:", as its last event, and neither the "Done" box nor
    the folder question; an error that is not a failed process is shown
    with its own message. *)
Theorem main_convert_tells_how_it_ended (s : state) :
  let r0 := make_gif_im E in_path out_path fps max_w "Riemersma" s in
  let r := main_convert E in_path out_path fps max_w s in
  match res r0 with
  | Ok _ =>
      In done_box (evs r) /\ In folder_question (evs r)
      /\ filter is_show_error (evs r) = []
  | Raise e =>
      res r = Ok tt
      /\ (exists text,
            evs r
            = (ShowInfo "Converting"
                 "Conversion started. This may take a little while."
               :: evs r0
               ++ [ShowError "Error" ("Conversion failed:" ++ PyStr.nl ++ text)])%list
            /\ filter is_show_error (evs r)
               = [ShowError "Error" ("Conversion failed:" ++ PyStr.nl ++ text)]
            /\ forall cls msg, e = Exn cls msg -> text = msg)
      /\ ~ In done_box (evs r) /\ ~ In folder_question (evs r)
  | Blocked =>
      res r = Blocked /\ filter is_dialog (evs r)
                         = [ShowInfo "Converting"
                              "Conversion started. This may take a little while."]
  end.
Proof.
  cbv zeta.
  pose proof (main_convert_run E in_path out_path fps max_w s) as H.
  cbv zeta in H.
  set (r0 := make_gif_im E in_path out_path fps max_w "Riemersma" s) in *.
  assert (Hquiet : filter is_dialog (evs r0) = []).
  { apply filter_none. intros ev Hev. now apply make_gif_im_no_box in Hev. }
  assert (Hnoerr : filter is_show_error (evs r0) = []).
  { apply filter_none. intros ev Hev. apply make_gif_im_no_box in Hev.
    now destruct ev. }
  assert (Hnot : forall ev, is_dialog ev = true -> ~ In ev (evs r0)).
  { intros ev Hd Hin. apply make_gif_im_no_box in Hin. congruence. }
  destruct (res r0) as [[]|e|].
  - destruct H as [_ ->].
    split; [right; apply in_or_app; right; now left|].
    split.
    + right. apply in_or_app. right. right.
      destruct (main_open_folder_run E out_path (st r0)) as (_ & tail & -> & _).
      now left.
    + cbn [filter is_show_error]. rewrite filter_app, Hnoerr.
      cbn [app filter is_show_error].
      apply filter_none.
      intros ev Hev. apply main_open_folder_no_box in Hev.
      destruct Hev as [-> | Hev]; [reflexivity | now destruct ev].
  - destruct H as [Hres Hev].
    destruct (main_report_failure_run E e (st r0)) as (_ & _ & Hrep).
    rewrite Hrep in Hev.
    split; [exact Hres|]. split; [|split].
    + eexists. split; [exact Hev|]. split.
      * rewrite Hev. cbn [filter is_show_error].
        rewrite filter_app, Hnoerr. reflexivity.
      * intros cls msg ->. reflexivity.
    + rewrite Hev. cbn [In]. intros [Hd | Hd]; [discriminate|].
      apply in_app_or in Hd. destruct Hd as [Hd | [Hd | []]];
        [revert Hd; now apply Hnot | discriminate].
    + rewrite Hev. cbn [In]. intros [Hd | Hd]; [discriminate|].
      apply in_app_or in Hd. destruct Hd as [Hd | [Hd | []]];
        [revert Hd; now apply Hnot | discriminate].
  - destruct H as [Hres ->]. split; [exact Hres|].
    cbn [filter is_dialog]. now rewrite Hquiet.
Qed.

(** X12. Opening the folder is a favour, not a duty.  Asked to, [main]
    hands the directory of the output path, as [os.path.dirname] gives it
    on the system at hand ([ntpath]'s on Windows, [posixpath]'s
    elsewhere), to [os.startfile] on Windows, to [open] on macOS and to
    [xdg-open] elsewhere; the exit status of that program is never looked
    at, and neither a program that cannot be started nor a failing
    [os.startfile] makes this step raise.  Asked not to, it does nothing
    more. *)
Theorem main_open_folder_is_best_effort (s : state) :
  let r := main_open_folder E out_path s in
  (forall e, res r <> Raise e)
  /\ (yesno E "Open Folder?" = false ->
      r = {| res := Ok tt; st := s; evs := [folder_question] |})
  /\ (yesno E "Open Folder?" = true -> os_name E = "nt" ->
      evs r = [folder_question; StartFile (nt_dirname E out_path)]
      /\ st r = s)
  /\ (yesno E "Open Folder?" = true -> os_name E <> "nt" ->
      let cmd := Argv [folder_opener E; PosixPath.dirname out_path] in
      evs r = [folder_question; Run cmd (fst (spawn E cmd (fs s)))]
      /\ (fst (spawn E cmd (fs s)) <> Hung -> res r = Ok tt)
      /\ fs (st r) = snd (spawn E cmd (fs s))).
Proof.
  cbv zeta. split; [apply main_open_folder_run|].
  unfold main_open_folder, os_path_dirname, askyesno, try_except, emit, ret,
    lift, subprocess_run, bind, folder_opener.
  cbn [res st evs app fs typed].
  split; [|split].
  - intros ->. reflexivity.
  - intros -> ->. rewrite !String.eqb_refl. cbn [res st evs app].
    destruct (startfile E (nt_dirname E out_path)); cbn; auto.
  - intros -> Hnt. apply String.eqb_neq in Hnt. rewrite Hnt.
    cbn [res st evs app].
    destruct (String.eqb (sys_platform E) "darwin").
    + destruct (spawn E (Argv ["open"; PosixPath.dirname out_path]) (fs s))
        as [[rc out err|reason|e|] fs']; cbn; repeat split; congruence.
    + destruct (spawn E (Argv ["xdg-open"; PosixPath.dirname out_path]) (fs s))
        as [[rc out err|reason|e|] fs']; cbn; repeat split; congruence.
Qed.

End Reporting.

Lemma main_open_folder_is_best_effort_witness :
  main_open_folder Demo.fine Demo.gif (Demo.start [])
  = {| res := Ok tt; st := Demo.start [];
       evs := [AskYesNo "Open Folder?" "Open the output folder?"] |}
  /\ evs (main_open_folder MoreWorlds.windows "C:/out.gif" (Demo.start []))
     = [AskYesNo "Open Folder?" "Open the output folder?"; StartFile "C:/"].
Proof.
  split.
  - apply (main_open_folder_is_best_effort Demo.fine Demo.gif (Demo.start [])).
    reflexivity.
  - apply (main_open_folder_is_best_effort MoreWorlds.windows "C:/out.gif"
             (Demo.start [])); reflexivity.
Defined.

(** ** The name and the folder the save dialog proposes *)

Section Suggested.
Import PyStr PosixPath.

Lemma rev_onto_app (a b acc : string) :
  rev_onto (a ++ b) acc = rev_onto b (rev_onto a acc).
Proof.
  revert acc. induction a as [|c a IH]; intros acc; cbn; [reflexivity|].
  apply IH.
Qed.










End Suggested.

Section SaveDialog.
Import PyStr PosixPath.

Variable E : env.


End SaveDialog.


(** ** A whole run of [main] *)

Section WholeRun.

Variable E : env.

(** X14. From the answers to the GIF.  With a file chosen (a [.webm], or
    another one and the question answered yes), a save path chosen, the two
    prompts answered by something they take at once, the tools found, a
    workspace to be had and every process exiting with status zero, [main]
    runs exactly the extract, palette and assemble commands built from the
    answers (a missing frame rate being 15, a missing width meaning no
    resize clause), before any other process; it shows the box "Done" with
    the save path and never an error box. *)
Theorem main_converts_with_the_given_answers
    (s : state) (v1 v2 : option string) (rest : list (option string))
    (ffmpeg im td : string) :
  PyStr.nonempty (open_choice E) = true ->
  PyStr.endswith (PyStr.lower (open_choice E)) ".webm" = true
  \/ yesno E "Continue?" = true ->
  PyStr.nonempty (save_choice E) = true ->
  typed s = v1 :: v2 :: rest ->
  rejected 1 60 v1 = false ->
  rejected 32 4096 v2 = false ->
  get_ffmpeg_exe E = Ok ffmpeg ->
  _find_imagemagick E = Some im ->
  mkdtemp E (fs s) = Ok td ->
  (forall c files, exit_zero (fst (spawn E c files)) = true) ->
  let fps := match answer_value v1 with Some n => n | None => 15 end in
  let max_w := answer_value v2 in
  exists delay,
    delay_cs fps = Ok delay
    /\ is_prefix
         [cmd1 ffmpeg (open_choice E) (vf fps max_w) td;
          cmd2 ffmpeg (open_choice E) (vf fps max_w) td;
          assemble_cmd im delay td "Riemersma" (save_choice E)]
         (map fst (runs_of (evs (main E s))))
    /\ In (ShowInfo "Done" ("GIF saved:" ++ PyStr.nl ++ save_choice E))
          (evs (main E s))
    /\ filter is_show_error (evs (main E s)) = [].
Proof.
  intros Hopen Hgo Hsave Htyped Hv1 Hv2 Hff Him Htd Hz. cbv zeta.
  set (fps := match answer_value v1 with Some n => n | None => 15 end).
  assert (Hfps : 1 <= fps <= 60).
  { unfold fps. destruct (answer_value v1) as [n|] eqn:Hn; [|lia].
    now apply (accepted_in_range 1 60 v1 n). }
  exists (Z.max 1 (round_half_even_div 100 fps)).
  pose proof (delay_cs_in_range fps Hfps) as Hd.
  split; [exact Hd|].
  (* the two prompts *)
  assert (Hr1 : ask_fps s
                = {| res := Ok (answer_value v1);
                     st := {| fs := fs s; typed := v2 :: rest |};
                     evs := [AskString "Frames per Second" fps_prompt
                               (PyStr.str_of_int 15)] |}).
  { unfold ask_fps, ask_number. rewrite Htyped.
    now apply rounds_accepted_step. }
  assert (Hr2 : ask_max_w (st (ask_fps s))
                = {| res := Ok (answer_value v2);
                     st := {| fs := fs s; typed := rest |};
                     evs := [AskString "Max Width (optional)" max_w_prompt ""] |}).
  { rewrite Hr1. unfold ask_max_w, ask_number. cbn [st fs typed].
    now apply rounds_accepted_step. }
  destruct (main_settings_and_convert_run E (open_choice E) (save_choice E) s
              (answer_value v1) (answer_value v2))
    as [_ Hset]; [now rewrite Hr1 | now rewrite Hr2 |].
  cbv zeta in Hset. fold fps in Hset. rewrite Hr2 in Hset at 2.
  rewrite Hr1 in Hset at 1. rewrite Hr2 in Hset at 1. cbn [st evs app] in Hset.
  (* the conversion *)
  set (s2 := {| fs := fs s; typed := rest |}) in *.
  assert (Hvf : filter_chain fps (answer_value v2)
                = Ok (vf fps (answer_value v2))).
  { apply filter_chain_writable; [apply writable_small; lia|].
    intros w Hw. apply writable_small.
    pose proof (accepted_in_range 32 4096 v2 w Hv2 Hw). lia. }
  destruct (make_gif_im_when_nothing_fails E (open_choice E) (save_choice E)
              fps (answer_value v2) "Riemersma" s2 ffmpeg im
              (Z.max 1 (round_half_even_div 100 fps)) td Hff Him Hvf Hd Htd Hz)
    as (Hres & o1 & o2 & o3 & Hruns).
  pose proof (main_convert_run E (open_choice E) (save_choice E) fps
                (answer_value v2) s2) as Hconv.
  cbv zeta in Hconv. rewrite Hres in Hconv. destruct Hconv as [_ Hconv].
  rewrite Hruns in Hconv. cbn [app] in Hconv.
  (* the whole of it *)
  pose proof (main_events E s) as Hev. cbv zeta in Hev.
  rewrite Hopen, Hsave, Hset, Hconv in Hev.
  replace (PyStr.endswith (PyStr.lower (open_choice E)) ".webm"
           || yesno E "Continue?") with true in Hev
    by (destruct Hgo as [-> | ->]; [reflexivity | now rewrite orb_true_r]).
  rewrite Hev.
  set (folder := evs (main_open_folder E (save_choice E)
                        (st (make_gif_im E (open_choice E) (save_choice E) fps
                               (answer_value v2) "Riemersma" s2)))).
  assert (Hfolder : filter is_show_error folder = []).
  { apply filter_none. intros ev Hin. unfold folder in Hin.
    apply main_open_folder_no_box in Hin.
    destruct Hin as [-> | Hin]; [reflexivity | now destruct ev]. }
  destruct (PyStr.endswith (PyStr.lower (open_choice E)) ".webm");
    cbn [app runs_of map fst is_prefix filter is_show_error In continue_question];
    rewrite Hfolder; repeat split; auto 20.
Qed.

End WholeRun.

Lemma main_converts_with_the_given_answers_witness :
  In (ShowInfo "Done" ("GIF saved:" ++ PyStr.nl ++ "/home/u/out.gif"))
     (evs (main Demo.fine (Demo.start [Some "24"; None])))
  /\ filter is_show_error (evs (main Demo.fine (Demo.start [Some "24"; None]))) = [].
Proof.
  destruct (main_converts_with_the_given_answers Demo.fine
              (Demo.start [Some "24"; None]) (Some "24") None []
              "/opt/ffmpeg" "/usr/bin/magick" Demo.td)
    as (delay & _ & _ & H1 & H2); try reflexivity.
  - left. reflexivity.
  - intros c files. unfold Demo.fine, Demo.world, spawn, Demo.demo_spawn.
    destruct c as [args|line]; [|reflexivity].
    unfold Demo.stage_of. now destruct (Demo.is_palette_cmd (Argv args)).
  - split; [exact H1 | exact H2].
Defined.

(** ** A stage that cannot be started *)

Section NotStarted.

Variable E : env.

Lemma staged_not_started_raises cmds l r :
  staged cmds l r ->
  forall c e, In (c, SpawnFailed e) l -> r = Raise e.
Proof.
  induction 1 as [|c0 cmds out0 err0 l r _ IH|c0 cmds rc0 out0 err0 Hrc
                 |c0 cmds reason|c0 cmds e0|c0 cmds];
    intros c e Hin; cbn in Hin.
  - contradiction.
  - destruct Hin as [[=] | Hin]; eauto.
  - destruct Hin as [[=] | []].
  - destruct Hin as [[=] | []].
  - destruct Hin as [[= <- <-] | []]. reflexivity.
  - destruct Hin as [[=] | []].
Qed.

(** X15. A stage whose program cannot be started at all (the executable
    is gone, say) makes the executor raise the error of the failed start
    unchanged; no later stage is tried, and [main] shows that error's own
    message after "Conversion failed:". *)
Theorem stage_that_cannot_start_is_raised_as_it_is
    (in_path out_path : string) (fps : Z) (max_w : option Z)
    (dither : string) (s : state) (pre post : list event) (c : command)
    (e : exn) :
  evs (make_gif_im E in_path out_path fps max_w dither s)
  = (pre ++ Run c (SpawnFailed e) :: post)%list ->
  res (make_gif_im E in_path out_path fps max_w dither s) = Raise e
  /\ runs_of post = []
  /\ (dither = "Riemersma" ->
      forall cls msg, e = Exn cls msg ->
        In (ShowError "Error" ("Conversion failed:" ++ PyStr.nl ++ msg))
           (evs (main_convert E in_path out_path fps max_w s))).
Proof.
  intros Heq.
  assert (Hres : res (make_gif_im E in_path out_path fps max_w dither s) = Raise e
                 /\ runs_of post = []).
  { destruct (make_gif_im_run E in_path out_path fps max_w dither s)
      as [(Hev & _) | (ffmpeg & im & delay & td & l & _ & _ & _ & _ & Hs & Hev & _)].
    - rewrite Hev in Heq. now destruct pre.
    - assert (Hl : l = (runs_of pre ++ (c, SpawnFailed e) :: runs_of post)%list).
      { rewrite <- (runs_of_pipeline td l
                      (res (make_gif_im E in_path out_path fps max_w dither s))),
          <- Hev, Heq, runs_of_app.
        reflexivity. }
      split.
      + eapply staged_not_started_raises; eauto.
        rewrite Hl. apply in_or_app. right. now left.
      + eapply staged_stops; eauto. }
  destruct Hres as [Hres Hpost]. split; [exact Hres|]. split; [exact Hpost|].
  intros -> cls msg ->.
  pose proof (main_convert_run E in_path out_path fps max_w s) as H.
  cbv zeta in H. rewrite Hres in H. destruct H as [_ ->].
  right. apply in_or_app. right. cbn. now left.
Qed.

End NotStarted.

Lemma stage_that_cannot_start_is_raised_as_it_is_witness :
  res (make_gif_im MoreWorlds.ffmpeg_gone Demo.clip Demo.gif 15 None
         "Riemersma" (Demo.start []))
  = Raise MoreWorlds.cannot_start
  /\ In (ShowError "Error"
           ("Conversion failed:" ++ PyStr.nl
              ++ "[Errno 2] No such file or directory: '/opt/ffmpeg'"))
        (evs (main_convert MoreWorlds.ffmpeg_gone Demo.clip Demo.gif 15 None
                (Demo.start []))).
Proof.
  destruct (stage_that_cannot_start_is_raised_as_it_is MoreWorlds.ffmpeg_gone
              Demo.clip Demo.gif 15 None "Riemersma" (Demo.start [])
              [Mkdtemp Demo.td] [Rmtree Demo.td] Demo.extract
              MoreWorlds.cannot_start eq_refl) as (H1 & _ & H2).
  split; [exact H1|].
  apply (H2 eq_refl OSError). reflexivity.
Defined.

(** ** White space around an answer *)

Section Padding.
Import PyStr.

Lemma lstrip_pad (pad z : string) :
  all_space pad = true -> lstrip (pad ++ z) = lstrip z.
Proof.
  induction pad as [|c pad IH]; cbn; [reflexivity|].
  intros H. apply andb_true_iff in H. destruct H as [Hc Hp].
  rewrite Hc. now apply IH.
Qed.

Lemma lstrip_all_space (pad : string) : all_space pad = true -> lstrip pad = "".
Proof.
  intros H. rewrite <- (append_empty_r pad), (lstrip_pad pad "" H). reflexivity.
Qed.

Lemma rev_onto_acc (s acc : string) : rev_onto s acc = rev s ++ acc.
Proof.
  unfold rev. revert acc. induction s as [|c s IH]; intros acc; cbn;
    [reflexivity|].
  rewrite (IH (String c acc)), (IH (String c "")), append_assoc. reflexivity.
Qed.

Lemma rev_app (a b : string) : rev (a ++ b) = rev b ++ rev a.
Proof. unfold rev at 1. rewrite rev_onto_app. apply rev_onto_acc. Qed.

Lemma all_space_app (a b : string) :
  all_space (a ++ b) = all_space a && all_space b.
Proof.
  induction a as [|c a IH]; cbn; [reflexivity|].
  now rewrite IH, andb_assoc.
Qed.

Lemma all_space_rev (s : string) : all_space (rev s) = all_space s.
Proof.
  induction s as [|c s IH]; [reflexivity|].
  change (String c s) with (String c "" ++ s) at 1.
  rewrite rev_app, all_space_app, IH. cbn.
  now rewrite andb_true_r, andb_comm.
Qed.

Lemma rstrip_pad (y pad : string) :
  all_space pad = true -> rstrip (y ++ pad) = rstrip y.
Proof.
  intros H. unfold rstrip. rewrite rev_app, lstrip_pad; [reflexivity|].
  now rewrite all_space_rev.
Qed.

(** [strip] does not see white space added around its argument. *)
Lemma strip_pad (pad x pad' : string) :
  all_space pad = true -> all_space pad' = true ->
  strip (pad ++ x ++ pad') = strip x.
Proof.
  intros Hp Hp'. unfold strip. rewrite (lstrip_pad pad _ Hp).
  induction x as [|c x IH].
  - cbn [append]. now rewrite (lstrip_all_space pad' Hp').
  - change (String c x ++ pad') with (String c (x ++ pad')).
    cbn [lstrip]. destruct (is_space c); [exact IH|].
    apply (rstrip_pad (String c x) pad' Hp').
Qed.

(** X16. White space around an answer never matters: an answer with
    blanks, tabs or line breaks before and after it is treated by the
    prompt exactly as the answer without them: same result, same dialogs,
    same error box. *)
Theorem ask_number_ignores_surrounding_white_space
    (title prompt initialvalue : string) (minval maxval : Z)
    (pad x pad' : string) (rest : list (option string)) (files : list string) :
  all_space pad = true ->
  all_space pad' = true ->
  ask_number title prompt initialvalue minval maxval
    {| fs := files; typed := Some (pad ++ x ++ pad') :: rest |}
  = ask_number title prompt initialvalue minval maxval
      {| fs := files; typed := Some x :: rest |}.
Proof.
  intros Hp Hp'. unfold ask_number. cbn [fs typed ask_number_rounds].
  now rewrite (strip_pad pad x pad' Hp Hp').
Qed.

End Padding.

Lemma ask_number_ignores_surrounding_white_space_witness :
  ask_number "Frames per Second" fps_prompt "15" 1 60
    {| fs := []; typed := [Some ("  " ++ "30" ++ (" " ++ PyStr.nl))] |}
  = ask_number "Frames per Second" fps_prompt "15" 1 60
      {| fs := []; typed := [Some "30"] |}.
Proof.
  apply (ask_number_ignores_surrounding_white_space
           "Frames per Second" fps_prompt "15" 1 60 "  " "30" (" " ++ PyStr.nl)
           [] []); reflexivity.
Defined.
